(** * telegram_calls.py: a shallow embedding and its properties

    The script places short Telegram voice calls from a terminal.  This
    development embeds the parts of [telegram_calls.py] that carry its
    behaviour: the Python string operations it relies on, the config
    loader and saver, the Diffie-Hellman parameter generation, the
    per-target call routine, the batch routine, the interactive loop, and
    the start-up: connection, log-in dialogue and [main].

    Python values are modelled as follows.
    - [str] is a list of Unicode code points ([Z]).
    - [int] is [Z]; [bytes] is [list byte].
    - [float] is the primitive IEEE 754 binary64 type.
    - Exceptions are values of [exn]; fallible library calls return a
      [result].
    - The Telethon client and the random source are an explicit world
      that every effectful operation threads; each effect is appended to
      a trace.  The console input of the interactive loop is a list of
      lines.

    Left out: the import guard at the top of the script and the
    [asyncio.run] call at its bottom.  Assumed: the line separator of the
    system is a line feed, the console and the config file can hold any
    text, [get_entity] answers with a user, a [TelegramClient] object is
    truthy, [print] does not fail, and [int] and [str] are not limited in
    the number of digits. *)

From Stdlib Require Import String Ascii ZArith List Bool Lia PrimFloat.
From Stdlib Require FloatOps SpecFloat Uint63.
From Stdlib.Strings Require Import Byte.

(* Decimal float literals denote the nearest binary64 value, as in Python. *)
Set Warnings "-inexact-float".
Import ListNotations.
Open Scope Z_scope.

(** ** Python strings *)

Module Str.

Definition char := Z.
Definition pystr := list char.

(** The source file is UTF-8; a literal of the source is written here as
    the same UTF-8 text and decoded to code points. *)
Definition literal_bytes (s : string) : list Z :=
  map (fun a => Z.of_N (N_of_ascii a)) (list_ascii_of_string s).

Fixpoint utf8_decode (bs : list Z) : pystr :=
  match bs with
  | [] => []
  | b0 :: r0 =>
    if b0 <? 0x80 then b0 :: utf8_decode r0
    else
      match r0 with
      | [] => []
      | b1 :: r1 =>
        if b0 <? 0xE0 then
          ((b0 mod 0x20) * 0x40 + b1 mod 0x40) :: utf8_decode r1
        else
          match r1 with
          | [] => []
          | b2 :: r2 =>
            if b0 <? 0xF0 then
              ((b0 mod 0x10) * 0x1000 + (b1 mod 0x40) * 0x40 + b2 mod 0x40)
                :: utf8_decode r2
            else
              match r2 with
              | [] => []
              | b3 :: r3 =>
                ((b0 mod 0x08) * 0x40000 + (b1 mod 0x40) * 0x1000
                 + (b2 mod 0x40) * 0x40 + b3 mod 0x40) :: utf8_decode r3
              end
          end
      end
  end.

Definition text (s : string) : pystr := utf8_decode (literal_bytes s).

(** [str.isspace] on one character (CPython's [_PyUnicode_IsWhitespace]). *)
Definition isspace_char (c : char) : bool :=
  ((0x09 <=? c) && (c <=? 0x0D)) || ((0x1C <=? c) && (c <=? 0x20))
  || (c =? 0x85) || (c =? 0xA0) || (c =? 0x1680)
  || ((0x2000 <=? c) && (c <=? 0x200A))
  || (c =? 0x2028) || (c =? 0x2029) || (c =? 0x202F) || (c =? 0x205F)
  || (c =? 0x3000).

Fixpoint lstrip_by (p : char -> bool) (s : pystr) : pystr :=
  match s with
  | [] => []
  | c :: r => if p c then lstrip_by p r else s
  end.

Definition rstrip_by (p : char -> bool) (s : pystr) : pystr :=
  rev (lstrip_by p (rev s)).

Definition strip_by (p : char -> bool) (s : pystr) : pystr :=
  rstrip_by p (lstrip_by p s).

(** [s.strip()] *)
Definition strip (s : pystr) : pystr := strip_by isspace_char s.

(** [s.startswith(p)] *)
Fixpoint startswith (p s : pystr) : bool :=
  match p, s with
  | [], _ => true
  | _ :: _, [] => false
  | a :: p', b :: s' => (a =? b) && startswith p' s'
  end.

(** [needle in s] *)
Fixpoint contains (needle s : pystr) : bool :=
  startswith needle s ||
  match s with
  | [] => false
  | _ :: r => contains needle r
  end.

(** [s.replace(a, b)] for one-character [a] and [b]. *)
Definition replace_char (a b : char) (s : pystr) : pystr :=
  map (fun c => if c =? a then b else c) s.

(** [s.split(sep)] for a one-character separator: never empty. *)
Fixpoint split_on (sep : char) (s : pystr) : list pystr :=
  match s with
  | [] => [[]]
  | c :: r =>
    if c =? sep then [] :: split_on sep r
    else
      match split_on sep r with
      | w :: ws => (c :: w) :: ws
      | [] => [[c]]
      end
  end.

(** [s.split()]: maximal runs of non-whitespace; [cur] is the run being
    scanned, most recent character first. *)
Fixpoint words (cur : pystr) (s : pystr) : list pystr :=
  match s with
  | [] => match cur with [] => [] | _ => [rev cur] end
  | c :: r =>
    if isspace_char c
    then match cur with [] => words [] r | _ => rev cur :: words [] r end
    else words (c :: cur) r
  end.

Definition split_ws (s : pystr) : list pystr := words [] s.

Fixpoint take_word (s : pystr) : pystr * pystr :=
  match s with
  | [] => ([], [])
  | c :: r =>
    if isspace_char c then ([], s)
    else let (w, rest) := take_word r in (c :: w, rest)
  end.

(** [s.split(maxsplit=1)] *)
Definition split_max1 (s : pystr) : list pystr :=
  match lstrip_by isspace_char s with
  | [] => []
  | s1 =>
    let (w, rest) := take_word s1 in
    match lstrip_by isspace_char rest with
    | [] => [w]
    | tail => [w; tail]
    end
  end.

(** [str(n)] for an [int]. *)
Fixpoint digits_of (fuel : nat) (n : Z) (acc : pystr) : pystr :=
  match fuel with
  | O => acc
  | S f =>
    if n <? 10 then (48 + n) :: acc
    else digits_of f (n / 10) ((48 + n mod 10) :: acc)
  end.

Definition str_nonneg (n : Z) : pystr :=
  digits_of (S (Z.to_nat (Z.log2 n))) n [].

Definition str_int (n : Z) : pystr :=
  if n <? 0 then 45 :: str_nonneg (- n) else str_nonneg n.


Definition dval (ds : pystr) (a : Z) : Z :=
  fold_left (fun acc c => 10 * acc + (c - 48)) ds a.

(** Universal-newline translation done by a text-mode read. *)
Fixpoint universal_newlines (s : pystr) : pystr :=
  match s with
  | [] => []
  | c :: r =>
    if c =? 13 then
      10 :: match r with
            | [] => []
            | c' :: r' =>
              if c' =? 10 then universal_newlines r'
              else universal_newlines r
            end
    else c :: universal_newlines r
  end.

End Str.
Import Str.

(** ** The parts of the Python runtime taken as given

    The Unicode character database, the shortest text of a [float] and the
    reading of a [float] belong to the interpreter, not to the script. *)

Class PyRuntime := {
  (** [Py_UNICODE_TODECIMAL]: the value of a decimal digit character. *)
  decimal_value : char -> option Z;
  (** [str.isdigit] on one character. *)
  digit_char : char -> bool;
  (** [str.upper] and [str.lower]. *)
  str_upper : pystr -> pystr;
  str_lower : pystr -> pystr;
  (** [str(x)] and [float(s)] ([None]: [ValueError]). *)
  float_str : float -> pystr;
  float_parse : pystr -> option float
}.

(** ** Formatting a float with one decimal

    [f"{x:.1f}"] is the decimal with one fractional digit nearest to the
    exact value of [x], ties going to the even digit. *)

Definition round_half_even (n d : Z) : Z :=
  let q := n / d in
  let r := n mod d in
  if 2 * r <? d then q
  else if d <? 2 * r then q + 1
  else if Z.even q then q else q + 1.

(** Ten times [m * 2 ^ e], rounded to an integer. *)
Definition tenths (m : positive) (e : Z) : Z :=
  if 0 <=? e then 10 * Zpos m * 2 ^ e
  else round_half_even (10 * Zpos m) (2 ^ (- e)).

Definition sign_text (negative : bool) : pystr :=
  if negative then text "-" else [].

Definition format_1f (x : float) : pystr :=
  match FloatOps.Prim2SF x with
  | SpecFloat.S754_zero s => sign_text s ++ text "0.0"
  | SpecFloat.S754_infinity s => sign_text s ++ text "inf"
  | SpecFloat.S754_nan => text "nan"
  | SpecFloat.S754_finite s m e =>
    let t := tenths m e in
    sign_text s ++ str_int (t / 10) ++ text "." ++ str_int (t mod 10)
  end.

Section Builtins.

Context {RT : PyRuntime}.

(** [s.isdigit()] *)
Definition isdigit (s : pystr) : bool :=
  match s with
  | [] => false
  | _ => forallb digit_char s
  end.

(** [int(s)].  CPython maps every non-ASCII whitespace character to a
    space and every non-ASCII decimal digit to its ASCII digit, then
    parses the ASCII text: C whitespace around, an optional sign, decimal
    digits with single underscores between them. *)
Definition int_space (c : char) : bool :=
  if c <? 127 then ((9 <=? c) && (c <=? 13)) || (c =? 32)
  else isspace_char c.

Definition int_digit (c : char) : option Z :=
  if c <? 127 then
    if (48 <=? c) && (c <=? 57) then Some (c - 48) else None
  else if isspace_char c then None
  else decimal_value c.

Fixpoint parse_digits (s : pystr) (acc : Z) (after_digit : bool)
  : option Z :=
  match s with
  | [] => if after_digit then Some acc else None
  | c :: r =>
    if c =? 95 then
      if after_digit then parse_digits r acc false else None
    else
      match int_digit c with
      | Some d => parse_digits r (10 * acc + d) true
      | None => None
      end
  end.

(** [None] stands for the [ValueError] that [int] raises. *)
Definition py_int (s : pystr) : option Z :=
  match strip_by int_space s with
  | [] => None
  | c :: r =>
    if c =? 43 then parse_digits r 0 false
    else if c =? 45 then option_map Z.opp (parse_digits r 0 false)
    else parse_digits (c :: r) 0 false
  end.

End Builtins.

(** ** Config file *)

(** What [CONFIG_FILE] can be when the script looks at it: absent, present
    but failing in [open] or [read] (an [OSError] or a decoding error, both
    below [Exception]), or present with some text. *)
Inductive config_file :=
| Absent
| Unreadable
| Stored (raw : pystr).

Section Config.

Context {RT : PyRuntime}.

(** [f.read().strip().split('\n')] *)
Definition config_lines (raw : pystr) : list pystr :=
  split_on 10 (strip (universal_newlines raw)).

Definition load_config (f : config_file) : option Z * option pystr :=
  match f with
  | Absent => (None, None)
  | Unreadable => (None, None)
  | Stored raw =>
    let lines := config_lines raw in
    if (2 <=? length lines)%nat then
      match py_int (nth 0 lines []) with
      | Some api_id => (Some api_id, Some (nth 1 lines []))
      | None => (None, None)
      end
    else (None, None)
  end.

(** The file after [save_config] on a system whose line separator is
    a line feed. *)
Definition save_config (api_id : Z) (api_hash : pystr) : config_file :=
  Stored (str_int api_id ++ [10] ++ api_hash ++ [10]).

End Config.

(** ** Bytes, big-endian encoding and SHA-256 *)

Definition byte_of_Z (z : Z) : byte :=
  match Byte.of_N (Z.to_N (z mod 256)) with
  | Some b => b
  | None => x00
  end.

Definition Z_of_byte (b : byte) : Z := Z.of_N (Byte.to_N b).

(** The [len] low-order base-256 digits of [n], most significant first. *)
Fixpoint be_bytes (len : nat) (n : Z) : list byte :=
  match len with
  | O => []
  | S l => be_bytes l (n / 256) ++ [byte_of_Z n]
  end.

Definition be_value (bs : list byte) : Z :=
  fold_left (fun acc b => acc * 256 + Z_of_byte b) bs 0.

(** [n.to_bytes(len, byteorder='big')]; [None] is the [OverflowError] raised
    for a negative [n] or one that does not fit. *)
Definition to_bytes_big (n : Z) (len : nat) : option (list byte) :=
  if (0 <=? n) && (n <? 256 ^ Z.of_nat len) then Some (be_bytes len n)
  else None.

(** [hashlib.sha256(data).digest()], after FIPS 180-4. *)
Module Sha256.

Definition word (x : Z) : Z := Z.land x 0xFFFFFFFF.
Definition add (x y : Z) : Z := word (x + y).
Definition rotr (n x : Z) : Z :=
  Z.lor (Z.shiftr x n) (word (Z.shiftl x (32 - n))).
Definition x3 (a b c : Z) : Z := Z.lxor (Z.lxor a b) c.

Definition Ch (x y z : Z) : Z :=
  Z.lxor (Z.land x y) (Z.land (Z.lxor x 0xFFFFFFFF) z).
Definition Maj (x y z : Z) : Z :=
  x3 (Z.land x y) (Z.land x z) (Z.land y z).
Definition Sigma0 (x : Z) : Z := x3 (rotr 2 x) (rotr 13 x) (rotr 22 x).
Definition Sigma1 (x : Z) : Z := x3 (rotr 6 x) (rotr 11 x) (rotr 25 x).
Definition sigma0 (x : Z) : Z := x3 (rotr 7 x) (rotr 18 x) (Z.shiftr x 3).
Definition sigma1 (x : Z) : Z := x3 (rotr 17 x) (rotr 19 x) (Z.shiftr x 10).

(** The constants are given by their definition: the first 32 bits of the
    fractional parts of the cube roots (for [K]) and of the square roots
    (for [H0]) of the first primes. *)
Definition is_prime (n : Z) : bool :=
  forallb (fun d => negb (n mod Z.of_nat d =? 0)) (seq 2 (Z.to_nat n - 2)).

Definition primes : list Z :=
  filter is_prime (map Z.of_nat (seq 2 310)).

(** The largest [r] below [2 ^ bits] with [r ^ 3 <= n]. *)
Fixpoint cube_root (bits : nat) (n r : Z) : Z :=
  match bits with
  | O => r
  | S b =>
    let r' := r + 2 ^ Z.of_nat b in
    cube_root b n (if r' * r' * r' <=? n then r' else r)
  end.

Definition K : list Z :=
  map (fun p => word (cube_root 40 (p * 2 ^ 96) 0)) primes.

Definition H0 : list Z :=
  map (fun p => word (Z.sqrt (p * 2 ^ 64))) (firstn 8 primes).

(** Padding: a 1 bit, zeros up to 56 mod 64 bytes, the bit length on
    eight bytes. *)
Definition pad (data : list byte) : list byte :=
  let n := Z.of_nat (length data) in
  let zeros := Z.to_nat ((55 - n) mod 64) in
  data ++ [byte_of_Z 0x80] ++ repeat x00 zeros ++ be_bytes 8 (8 * n).

(** Big-endian 32-bit words of a byte string. *)
Fixpoint words_of (bs : list byte) : list Z :=
  match bs with
  | b0 :: b1 :: b2 :: b3 :: r =>
    (((Z_of_byte b0 * 256 + Z_of_byte b1) * 256 + Z_of_byte b2) * 256
     + Z_of_byte b3) :: words_of r
  | _ => []
  end.

(** The message schedule, newest word first: [rw] holds W(t-1), W(t-2),
    ... and [extend] adds [n] more words. *)
Fixpoint extend (n : nat) (rw : list Z) : list Z :=
  match n with
  | O => rw
  | S n' =>
    let w := add (add (sigma1 (nth 1 rw 0)) (nth 6 rw 0))
                 (add (sigma0 (nth 14 rw 0)) (nth 15 rw 0)) in
    extend n' (w :: rw)
  end.

Definition schedule (block : list Z) : list Z :=
  rev (extend 48 (rev block)).

Record regs := Regs { ra : Z; rb : Z; rc : Z; rd : Z;
                      re : Z; rf : Z; rg : Z; rh : Z }.

Definition round (s : regs) (kw : Z * Z) : regs :=
  let (k, w) := kw in
  let t1 := add (add (add (rh s) (Sigma1 (re s)))
                     (add (Ch (re s) (rf s) (rg s)) k)) w in
  let t2 := add (Sigma0 (ra s)) (Maj (ra s) (rb s) (rc s)) in
  Regs (add t1 t2) (ra s) (rb s) (rc s) (add (rd s) t1) (re s) (rf s) (rg s).

Definition regs_of (h : list Z) : regs :=
  Regs (nth 0 h 0) (nth 1 h 0) (nth 2 h 0) (nth 3 h 0)
       (nth 4 h 0) (nth 5 h 0) (nth 6 h 0) (nth 7 h 0).

Definition list_of (s : regs) : list Z :=
  [ra s; rb s; rc s; rd s; re s; rf s; rg s; rh s].

Definition compress (h : list Z) (block : list Z) : list Z :=
  let s := fold_left round (combine K (schedule block)) (regs_of h) in
  map (fun p => add (fst p) (snd p)) (combine h (list_of s)).

(** One step per 16-word block; [n] bounds the number of blocks. *)
Fixpoint blocks (n : nat) (h : list Z) (ws : list Z) : list Z :=
  match n, ws with
  | S n', _ :: _ => blocks n' (compress h (firstn 16 ws)) (skipn 16 ws)
  | _, _ => h
  end.

Definition digest (data : list byte) : list byte :=
  let ws := words_of (pad data) in
  flat_map (be_bytes 4) (blocks (length ws) H0 ws).

End Sha256.

(** ** Diffie-Hellman constants and modular power *)

(** [DH_PRIME] is given in the source as eight groups of 64 hexadecimal
    digits, concatenated and read in base 16. *)
Definition DH_PRIME_groups : list Z :=
  [ 0xC71CAEB9C6B1C9048E6C522F70F13F73980D40238E3E21C14934D037563D930F;
    0x48198A0AA7C14058229493D22530F4DBFA336F6E0AC925139543AED44CCE7C37;
    0x20FD51F69458705AC68CD4FE6B6B13ABDC9746512969328454F18FAF8C595F64;
    0x2477FE96BB2A941D5BCD1D4AC8CC49880708FA9B378E3C4F3A9060BEE67CF9A4;
    0xA4A695811051907E162753B56B0F6B410DBA74D8A84B2A14B3144E0EF1284754;
    0xFD17ED950D5965B4B9DD46582DB1178D169C6BC465B0D6FF9CA3928FEF5B9AE4;
    0xE418FC15E83EBEA0F87FA9FF5EED70050DED2849F47BF959D956850CE929851F;
    0x0D8115F635B105EE2E4E15D04B2454BF6F4FADF034B10403119CD8E3B92FCC5B ].

Definition DH_PRIME : Z :=
  fold_left (fun acc g => acc * 2 ^ 256 + g) DH_PRIME_groups 0.

Definition DH_GENERATOR : Z := 3.

(** [pow(b, e, m)] by repeated squaring along the bits of [e]. *)
Fixpoint pow_mod_pos (b : Z) (e : positive) (m : Z) : Z :=
  match e with
  | xH => b mod m
  | xO e' => let r := pow_mod_pos b e' m in (r * r) mod m
  | xI e' => let r := pow_mod_pos b e' m in ((r * r) mod m * b) mod m
  end.

(** The script only calls [pow] with the exponent drawn by
    [secrets.randbits], which is never negative; the last case is not
    Python's (a modular inverse) and is never reached. *)
Definition pow_mod (b e m : Z) : Z :=
  match e with
  | 0 => 1 mod m
  | Zpos p => pow_mod_pos b p m
  | Zneg _ => 0
  end.

(** ** Exceptions and results *)

(** The exception classes the script tells apart.  [KeyboardInterrupt] and
    [CancelledError] derive from [BaseException] but not from [Exception];
    every other class here derives from [Exception].  [OtherException]
    stands for any [Exception] subclass that is none of the three named
    ones; [msg] is what [str(e)] returns. *)
Inductive exn :=
| UserPrivacyRestrictedError
| FloodWaitError (seconds : Z)
| ValueError (msg : pystr)
| OtherException (msg : pystr)
| KeyboardInterrupt
| CancelledError.

(** [isinstance(e, Exception)] *)
Definition is_Exception (e : exn) : bool :=
  match e with
  | KeyboardInterrupt | CancelledError => false
  | _ => true
  end.

Inductive result (A : Type) :=
| Ok (a : A)
| Raise (e : exn).
Arguments Ok {A} a.
Arguments Raise {A} e.

(** ** Call results *)

Inductive CallStatus := SUCCESS | PRIVACY | NOT_FOUND | FLOOD | FAILED.

Definition CallStatus_value (s : CallStatus) : pystr :=
  match s with
  | SUCCESS => text "✅ Успешно"
  | PRIVACY => text "🔒 Приватность"
  | NOT_FOUND => text "❓ Не найден"
  | FLOOD => text "⏳ Flood wait"
  | FAILED => text "❌ Ошибка"
  end.

Record CallResult := mkCallResult {
  username : pystr;
  status : CallStatus;
  message : pystr
}.

(** ** The Telethon client and the other effects *)

Record User := { user_username : option pystr; user_id : Z }.

Record PhoneCall := { phone_call_id : Z; phone_call_access_hash : Z }.

Record PhoneCallProtocol := {
  min_layer : Z;
  max_layer : Z;
  library_versions : list pystr;
  udp_p2p : bool;
  udp_reflector : bool
}.

Record RequestCallRequest := {
  req_user_id : User;
  req_g_a_hash : list byte;
  req_protocol : PhoneCallProtocol;
  req_video : bool;
  req_random_id : Z
}.

Record InputPhoneCall := { peer_id : Z; peer_access_hash : Z }.

Inductive DiscardReason := PhoneCallDiscardReasonHangup.

Record DiscardCallRequest := {
  dis_peer : InputPhoneCall;
  dis_duration : Z;
  dis_reason : DiscardReason;
  dis_connection_id : Z
}.

(** Everything outside the script that answers it: the Telethon client
    (with the Telegram servers behind it) and the system's entropy source.
    [W] is the state of that world; each operation may change it, so the
    same request can be answered differently each time. *)
Class Environment (W : Type) := {
  get_entity : Z + pystr -> W -> result User * W;
  send_message : User -> pystr -> W -> result unit * W;
  request_call : RequestCallRequest -> W -> result PhoneCall * W;
  discard_call : DiscardCallRequest -> W -> result unit * W;
  entropy : W -> Z * W
}.

(** What the script does to the world, in order. *)
Inductive event :=
| EGetEntity (key : Z + pystr) (r : result User)
| ESendMessage (u : User) (msg : pystr) (r : result unit)
| ERequestCall (req : RequestCallRequest) (r : result PhoneCall)
| EDiscardCall (req : DiscardCallRequest) (r : result unit)
| ERandBits (k : Z) (x : Z)
| ERandBelow (n : Z) (x : Z)
| ESleep (d : float)
| EPrint (s : pystr).

(** A computation takes the world and the trace so far, and gives a value
    or an exception with the new world and trace. *)
Definition M (W A : Type) : Type :=
  W * list event -> result A * (W * list event).

Section Effects.

Context {W : Type} {Env : Environment W}.

Definition ret {A} (a : A) : M W A := fun s => (Ok a, s).

Definition raise {A} (e : exn) : M W A := fun s => (Raise e, s).

Definition bind {A B} (m : M W A) (k : A -> M W B) : M W B :=
  fun s =>
    match m s with
    | (Ok a, s') => k a s'
    | (Raise e, s') => (Raise e, s')
    end.

(** Run [m] and hand its outcome, value or exception, to the caller:
    the body of a [try]. *)
Definition attempt {A} (m : M W A) : M W (result A) :=
  fun s => let (r, s') := m s in (Ok r, s').

Definition emit (ev : event) : M W unit :=
  fun s => (Ok tt, (fst s, snd s ++ [ev])).

(** A library call: ask the world, log the request with its answer. *)
Definition perform {A} (op : W -> result A * W)
           (log : result A -> event) : M W A :=
  fun s =>
    let (r, w') := op (fst s) in
    (r, (w', snd s ++ [log r])).

Definition draw (bound : Z) (log : Z -> event) : M W Z :=
  fun s =>
    let (raw, w') := entropy (fst s) in
    let x := raw mod bound in
    (Ok x, (w', snd s ++ [log x])).

(** What a computation gives back, and the trace it leaves. *)
Definition returned {A} (m : M W A) (s : W * list event) : result A :=
  fst (m s).

Definition logged {A} (m : M W A) (s : W * list event) : list event :=
  snd (snd (m s)).

End Effects.

Notation "x <- m ;; k" := (bind m (fun x => k))
  (at level 61, m at next level, right associativity).
Notation "m ;;; k" := (bind m (fun _ => k))
  (at level 61, right associativity).

Section Caller.

Context {RT : PyRuntime} {W : Type} {Env : Environment W}.

(** [await self.client.get_entity(key)] and the other awaited calls. *)
Definition client_get_entity (key : Z + pystr) : M W User :=
  perform (get_entity key) (EGetEntity key).

Definition client_send_message (u : User) (msg : pystr) : M W unit :=
  perform (send_message u msg) (ESendMessage u msg).

Definition client_request_call (req : RequestCallRequest) : M W PhoneCall :=
  perform (request_call req) (ERequestCall req).

Definition client_discard_call (req : DiscardCallRequest) : M W unit :=
  perform (discard_call req) (EDiscardCall req).

(** [secrets.randbits(k)]: any integer of [k] bits. *)
Definition randbits (k : Z) : M W Z := draw (2 ^ k) (ERandBits k).

(** [secrets.randbelow(n)]: any integer from 0 to [n - 1]. *)
Definition randbelow (n : Z) : M W Z := draw n (ERandBelow n).

Definition sleep (d : float) : M W unit := emit (ESleep d).

(** [print(s)] and [print(s, end="")]. *)
Definition print (s : pystr) : M W unit := emit (EPrint (s ++ [10])).
Definition print_no_newline (s : pystr) : M W unit := emit (EPrint s).

Definition _generate_dh_params : M W (list byte * Z) :=
  private_key <- randbits 256 ;;
  let g_a := pow_mod DH_GENERATOR private_key DH_PRIME in
  match to_bytes_big g_a 256 with
  | None => raise (OtherException (text "int too big to convert"))
  | Some g_a_bytes =>
    let g_a_hash := Sha256.digest g_a_bytes in
    ret (g_a_hash, g_a)
  end.

(** The truth value of an [Optional[str]]. *)
Definition truthy (m : option pystr) : option pystr :=
  match m with
  | Some (c :: r) => Some (c :: r)
  | _ => None
  end.

Definition call_protocol : PhoneCallProtocol := {|
  min_layer := 92;
  max_layer := 92;
  library_versions := [text "5.0.0"; text "6.0.0"];
  udp_p2p := true;
  udp_reflector := true
|}.

(** The first lines of [call]: [target] from [username]. *)
Definition normalize (username0 : pystr) : pystr :=
  let target := strip username0 in
  if startswith (text "@") target then skipn 1 target else target.

(** The lookup inside the inner [try]: [int(target)] raises [ValueError]
    on digit characters that are not decimal digits. *)
Definition resolve (target : pystr) : M W User :=
  if isdigit target then
    match py_int target with
    | Some n => client_get_entity (inl n)
    | None =>
      raise (ValueError (text "invalid literal for int() with base 10"))
    end
  else client_get_entity (inr target).

(** The request built for [phone.RequestCallRequest]. *)
Definition make_request (user : User) (g_a_hash : list byte)
           (random_id : Z) : RequestCallRequest := {|
  req_user_id := user;
  req_g_a_hash := g_a_hash;
  req_protocol := call_protocol;
  req_video := false;
  req_random_id := random_id
|}.

(** The request built for [phone.DiscardCallRequest]. *)
Definition make_discard (call_id access_hash : Z) : DiscardCallRequest := {|
  dis_peer := {| peer_id := call_id; peer_access_hash := access_hash |};
  dis_duration := 0;
  dis_reason := PhoneCallDiscardReasonHangup;
  dis_connection_id := 0
|}.

Definition user_display (user : User) : pystr :=
  match truthy (user_username user) with
  | Some name => text "@" ++ name
  | None => text "ID:" ++ str_int (user_id user)
  end.

(** The outer [try] after the entity is known, in the three steps the
    source marks: the message if one is given, then the call request
    with fresh Diffie-Hellman parameters, the wait and the discard. *)
Definition send_pre_message (user : User) (message0 : option pystr)
  : M W unit :=
  match truthy message0 with
  | Some msg => client_send_message user msg ;;; sleep 0.3%float
  | None => ret tt
  end.

Definition place (username0 : pystr) (user : User) (duration : float)
  : M W CallResult :=
  dh <- _generate_dh_params ;;
  let g_a_hash := fst dh in
  random_id <- randbelow (2 ^ 31) ;;
  phone_call <- client_request_call
                  (make_request user g_a_hash random_id) ;;
  let call_id := phone_call_id phone_call in
  let access_hash := phone_call_access_hash phone_call in
  print_no_newline (text "   📞 Звоню " ++ user_display user
                    ++ text "...") ;;;
  sleep duration ;;;
  discarded <- attempt (client_discard_call
                          (make_discard call_id access_hash)) ;;
  match discarded with
  | Raise e => if is_Exception e then ret tt else raise e
  | Ok _ => ret tt
  end ;;;
  print (text " ✅ (" ++ format_1f duration ++ text "с)") ;;;
  ret (mkCallResult username0 SUCCESS
         (text "Звонок " ++ format_1f duration ++ text "с")).

Definition ring (username0 : pystr) (user : User) (duration : float)
           (message0 : option pystr) : M W CallResult :=
  send_pre_message user message0 ;;;
  place username0 user duration.

(** The three [except] clauses of the outer [try]. *)
Definition handle (username0 : pystr) (e : exn) : M W CallResult :=
  match e with
  | UserPrivacyRestrictedError =>
    print (text "   🔒 " ++ username0
           ++ text " — приватность запрещает звонки") ;;;
    ret (mkCallResult username0 PRIVACY
           (text "Звонки запрещены настройками приватности"))
  | FloodWaitError seconds =>
    print (text "   ⏳ Flood wait: " ++ str_int seconds ++ text "с") ;;;
    ret (mkCallResult username0 FLOOD
           (text "Подождите " ++ str_int seconds ++ text "с"))
  | ValueError error_msg | OtherException error_msg =>
    if contains (text "PRIVACY") (str_upper error_msg) then
      print (text "   🔒 " ++ username0 ++ text " — приватность") ;;;
      ret (mkCallResult username0 PRIVACY (text "Звонки запрещены"))
    else
      print (text "   ❌ " ++ username0 ++ text " — ошибка: "
             ++ firstn 50 error_msg) ;;;
      ret (mkCallResult username0 FAILED error_msg)
  | KeyboardInterrupt | CancelledError => raise e
  end.

Definition call (username0 : pystr) (duration : float)
           (message0 : option pystr) : M W CallResult :=
  let target := normalize username0 in
  outcome <- attempt (
    found <- attempt (resolve target) ;;
    match found with
    | Raise (ValueError _) =>
      ret (mkCallResult username0 NOT_FOUND
             (text "Пользователь не найден"))
    | Raise e => raise e
    | Ok user => ring username0 user duration message0
    end) ;;
  match outcome with
  | Ok r => ret r
  | Raise e => handle username0 e
  end.

(** The line [f"\n[{i}/{len(usernames)}] {username}"]. *)
Definition progress_line (i total : Z) (username0 : pystr) : pystr :=
  [10] ++ text "[" ++ str_int i ++ text "/" ++ str_int total
  ++ text "] " ++ username0.

(** The loop of [call_multiple]: [i] counts from 1, [total] is
    [len(usernames)], [results] the list built so far. *)
Fixpoint call_multiple_loop (i total : Z) (rest : list pystr)
         (duration delay : float) (results : list CallResult)
  : M W (list CallResult) :=
  match rest with
  | [] => ret results
  | username0 :: rest' =>
    print (progress_line i total username0) ;;;
    r <- call username0 duration None ;;
    (if i <? total then sleep delay else ret tt) ;;;
    call_multiple_loop (i + 1) total rest' duration delay (results ++ [r])
  end.

Definition call_multiple (usernames : list pystr) (duration delay : float)
  : M W (list CallResult) :=
  call_multiple_loop 1 (Z.of_nat (length usernames)) usernames
                     duration delay [].

End Caller.

(** ** Describing a call attempt

    The notions below are used to state what a run of [call] looks like:
    the name under which the target is looked up, the value and hash that
    an exponent gives, and the events of the successive stages. *)

Section Attempts.

Context {RT : PyRuntime}.

(** The argument of [get_entity]; [None] when [int] rejects the target. *)
Definition lookup_key (target : pystr) : option (Z + pystr) :=
  if isdigit target then option_map inl (py_int target)
  else Some (inr target).

(** The public value [g_a] for the exponent [x], and its hash. *)
Definition dh_public (x : Z) : Z := DH_GENERATOR ^ x mod DH_PRIME.

Definition dh_hash (x : Z) : list byte :=
  Sha256.digest (be_bytes 256 (dh_public x)).

(** The events of a pre-call message that went through. *)
Definition sent (message0 : option pystr) (user : User) : list event :=
  match truthy message0 with
  | Some msg => [ESendMessage user msg (Ok tt); ESleep 0.3%float]
  | None => []
  end.

(** From the lookup to the answer to the call request. *)
Definition dialled (message0 : option pystr) (key : Z + pystr)
           (user : User) (x random_id : Z) (answer : result PhoneCall)
  : list event :=
  [EGetEntity key (Ok user)] ++ sent message0 user
  ++ [ERandBits 256 x; ERandBelow (2 ^ 31) random_id;
      ERequestCall (make_request user (dh_hash x) random_id) answer].

(** From the accepted request to the answer to the discard. *)
Definition rung (duration : float) (user : User) (phone_call : PhoneCall)
           (answer : result unit) : list event :=
  [EPrint (text "   📞 Звоню " ++ user_display user ++ text "...");
   ESleep duration;
   EDiscardCall (make_discard (phone_call_id phone_call)
                              (phone_call_access_hash phone_call)) answer].

(** The events of an attempt that an exception [e] stops before the call
    rings; the flag tells whether [e] came out of the entity lookup. *)
Inductive cut_short (username0 : pystr) (message0 : option pystr)
  : list event -> bool -> exn -> Prop :=
| cut_int :
    isdigit (normalize username0) = true ->
    py_int (normalize username0) = None ->
    cut_short username0 message0 [] true
      (ValueError (text "invalid literal for int() with base 10"))
| cut_lookup key e :
    lookup_key (normalize username0) = Some key ->
    cut_short username0 message0 [EGetEntity key (Raise e)] true e
| cut_send key user msg e :
    lookup_key (normalize username0) = Some key ->
    truthy message0 = Some msg ->
    cut_short username0 message0
      [EGetEntity key (Ok user); ESendMessage user msg (Raise e)] false e
| cut_request key user x random_id e :
    lookup_key (normalize username0) = Some key ->
    0 <= x < 2 ^ 256 ->
    0 <= random_id < 2 ^ 31 ->
    cut_short username0 message0
      (dialled message0 key user x random_id (Raise e)) false e.

(** The status the [except] clauses give to an exception; [None] for
    one that no clause catches. *)
Definition generic_status (error_msg : pystr) : CallStatus :=
  if contains (text "PRIVACY") (str_upper error_msg) then PRIVACY
  else FAILED.

Definition status_for (at_lookup : bool) (e : exn) : option CallStatus :=
  match e with
  | UserPrivacyRestrictedError => Some PRIVACY
  | FloodWaitError _ => Some FLOOD
  | ValueError error_msg =>
    Some (if at_lookup then NOT_FOUND else generic_status error_msg)
  | OtherException error_msg => Some (generic_status error_msg)
  | KeyboardInterrupt | CancelledError => None
  end.

(** The exception, if any, with which a request was answered. *)
Definition raised (ev : event) : option exn :=
  match ev with
  | EGetEntity _ (Raise e) | ESendMessage _ _ (Raise e)
  | ERequestCall _ (Raise e) | EDiscardCall _ (Raise e) => Some e
  | _ => None
  end.

(** The same for the requests that come before the discard, with the
    flag that tells the lookup from the others. *)
Definition raised_before_discard (ev : event) : option (bool * exn) :=
  match ev with
  | EGetEntity _ (Raise e) => Some (true, e)
  | ESendMessage _ _ (Raise e) | ERequestCall _ (Raise e) =>
    Some (false, e)
  | _ => None
  end.

Definition is_print (ev : event) : bool :=
  match ev with
  | EPrint _ => true
  | _ => false
  end.

(** The messages that were handed to [send_message]. *)
Definition messages_sent (evs : list event) : list pystr :=
  flat_map (fun ev => match ev with
                      | ESendMessage _ msg _ => [msg]
                      | _ => []
                      end) evs.

(** The durations that were slept. *)
Definition sleeps (evs : list event) : list float :=
  flat_map (fun ev => match ev with
                      | ESleep d => [d]
                      | _ => []
                      end) evs.

End Attempts.

Section Outcomes.

Context {RT : PyRuntime} {W : Type}.

(** How [call] ends once the discard request has been answered. *)
Definition finished (username0 : pystr) (duration : float) (w' : W)
           (tr' : list event) (answer : result unit)
  : result CallResult * (W * list event) :=
  let done :=
      (Ok (mkCallResult username0 SUCCESS
             (text "Звонок " ++ format_1f duration ++ text "с")),
       (w', tr' ++ [EPrint ((text " ✅ (" ++ format_1f duration
                             ++ text "с)") ++ [10])])) in
  match answer with
  | Raise e => if is_Exception e then done else (Raise e, (w', tr'))
  | Ok _ => done
  end.

(** How [call] ends when the exception [e] stops it before. *)
Definition stopped (username0 : pystr) (s : W * list event)
           (at_lookup : bool) (e : exn)
  : result CallResult * (W * list event) :=
  match at_lookup, e with
  | true, ValueError _ =>
    (Ok (mkCallResult username0 NOT_FOUND (text "Пользователь не найден")),
     s)
  | _, _ => handle username0 e s
  end.

End Outcomes.

(** ** The interactive loop *)

Definition DEFAULT_RING_DURATION : float := 5.0%float.

(** The text printed by [print_help]. *)
Definition help_text : pystr := text "
╭─────────────────────────────────────────────────────────────────╮
│                        📋 КОМАНДЫ                               │
├─────────────────────────────────────────────────────────────────┤
│  @username           Позвонить пользователю (5 сек)             │
│  @user1 @user2       Позвонить нескольким (через пробел)        │
│  123456789           Позвонить по ID                            │
│                                                                 │
│  /time 10            Установить длительность звонка (сек)       │
│  /msg Привет!        Установить сообщение перед звонком         │
│  /msg off            Отключить сообщение                        │
│  /me                 Показать текущий аккаунт                   │
│  /status             Показать настройки                         │
│  /help               Показать эту справку                       │
│  /quit               Выход                                      │
╰─────────────────────────────────────────────────────────────────╯
    ".

(** [caller.me] *)
Record Account := {
  me_username : option pystr;
  me_first_name : option pystr;
  me_last_name : option pystr;
  me_id : Z
}.

(** The two settings of a session. *)
Record settings := {
  ring_duration : float;
  pre_message : option pystr
}.

(** What [input] meets at the console; the end of the list is the end of
    the input ([EOFError]). *)
Inductive console :=
| Line (s : pystr)
| Interrupt.

(** How one pass through the loop body ends: [continue] with the settings,
    or [break]. *)
Inductive flow :=
| Next (st : settings)
| Stop.

Fixpoint str_eqb (a b : pystr) : bool :=
  match a, b with
  | [], [] => true
  | x :: a', y :: b' => (x =? y) && str_eqb a' b'
  | _, _ => false
  end.

(** [str(x)] inside an f-string for an [Optional[str]]. *)
Definition str_opt (o : option pystr) : pystr :=
  match o with
  | Some s => s
  | None => text "None"
  end.

Section Interactive.

Context {RT : PyRuntime} {W : Type} {Env : Environment W}.

Definition print_help : M W unit := print help_text.

Definition quote : pystr := [34].

(** The branch of the loop body for a line that starts with a slash. *)
Definition command (me : Account) (st : settings) (user_input : pystr)
  : M W flow :=
  let cmd_parts := split_max1 user_input in
  let cmd := str_lower (nth 0 cmd_parts []) in
  let arg := if (1 <? length cmd_parts)%nat then nth 1 cmd_parts [] else [] in
  if existsb (str_eqb cmd) [text "/quit"; text "/exit"; text "/q"] then
    print ([10] ++ text "👋 До свидания!") ;;;
    ret Stop
  else if str_eqb cmd (text "/help") then
    print_help ;;;
    ret (Next st)
  else if str_eqb cmd (text "/me") then
    print ([10] ++ text "👤 Аккаунт: @" ++ str_opt (me_username me)) ;;;
    print (text "   Имя: " ++ str_opt (me_first_name me) ++ text " "
           ++ match truthy (me_last_name me) with
              | Some n => n
              | None => []
              end) ;;;
    print (text "   ID: " ++ str_int (me_id me)) ;;;
    ret (Next st)
  else if str_eqb cmd (text "/time") then
    match arg with
    | _ :: _ =>
      match float_parse arg with
      | Some d =>
        print (text "⏱️  Длительность звонка: " ++ float_str d
               ++ text " сек") ;;;
        ret (Next {| ring_duration := d; pre_message := pre_message st |})
      | None =>
        print (text "❌ Укажите число секунд") ;;;
        ret (Next st)
      end
    | [] =>
      print (text "⏱️  Текущая длительность: "
             ++ float_str (ring_duration st) ++ text " сек") ;;;
      ret (Next st)
    end
  else if str_eqb cmd (text "/msg") then
    if str_eqb (str_lower arg) (text "off") then
      print (text "💬 Сообщение перед звонком: отключено") ;;;
      ret (Next {| ring_duration := ring_duration st;
                   pre_message := None |})
    else
      match arg with
      | _ :: _ =>
        print (text "💬 Сообщение перед звонком: " ++ quote ++ arg
               ++ quote) ;;;
        ret (Next {| ring_duration := ring_duration st;
                     pre_message := Some arg |})
      | [] =>
        match truthy (pre_message st) with
        | Some m =>
          print (text "💬 Текущее сообщение: " ++ quote ++ m ++ quote)
        | None => print (text "💬 Сообщение не установлено")
        end ;;;
        ret (Next st)
      end
  else if str_eqb cmd (text "/status") then
    print ([10] ++ text "📊 Текущие настройки:") ;;;
    print (text "   ⏱️  Длительность: " ++ float_str (ring_duration st)
           ++ text " сек") ;;;
    print (text "   💬 Сообщение: "
           ++ match truthy (pre_message st) with
              | Some m => m
              | None => text "(нет)"
              end) ;;;
    print (text "   👤 Аккаунт: @" ++ str_opt (me_username me)) ;;;
    ret (Next st)
  else
    print (text "❓ Неизвестная команда: " ++ cmd) ;;;
    print (text "   Введите /help для справки") ;;;
    ret (Next st).

(** The targets named on a line: the parts between spaces and commas. *)
Fixpoint collect (parts : list pystr) : list pystr :=
  match parts with
  | [] => []
  | part :: more =>
    match strip part with
    | [] => collect more
    | part' => part' :: collect more
    end
  end.

Definition parse_usernames (user_input : pystr) : list pystr :=
  collect (split_ws (replace_char 44 32 user_input)).

(** The branch of the loop body for a line of targets. *)
Definition place_calls (st : settings) (user_input : pystr) : M W unit :=
  let usernames := parse_usernames user_input in
  match usernames with
  | [] => ret tt
  | [only] =>
    call only (ring_duration st) (pre_message st) ;;;
    ret tt
  | _ =>
    print ([10] ++ text "📞 Звоню " ++ str_int (Z.of_nat (length usernames))
           ++ text " пользователям...") ;;;
    call_multiple usernames (ring_duration st) 1.0%float ;;;
    print ([10] ++ text "✅ Завершено")
  end.

Definition loop_body (me : Account) (st : settings) (user_input : pystr)
  : M W flow :=
  if startswith (text "/") user_input then command me st user_input
  else place_calls st user_input ;;; ret (Next st).

(** The [while True] loop, one pass per console input. *)
Fixpoint interactive_loop (me : Account) (inputs : list console)
         (st : settings) : M W unit :=
  print [] ;;;
  print_no_newline (text "📞 > ") ;;;
  match inputs with
  | [] => ret tt
  | Interrupt :: _ =>
    print ([10; 10] ++ text "👋 Прервано. До свидания!")
  | Line raw :: later =>
    match strip raw with
    | [] => interactive_loop me later st
    | user_input =>
      pass <- attempt (loop_body me st user_input) ;;
      match pass with
      | Ok (Next st') => interactive_loop me later st'
      | Ok Stop => ret tt
      | Raise KeyboardInterrupt =>
        print ([10; 10] ++ text "👋 Прервано. До свидания!")
      | Raise e => raise e
      end
    end
  end.

Definition interactive_mode (me : Account) (inputs : list console)
  : M W unit :=
  print ([10] ++ text "✅ Подключено как: @" ++ str_opt (me_username me)
         ++ text " (" ++ str_opt (me_first_name me) ++ text ")") ;;;
  print (text "   ID: " ++ str_int (me_id me)) ;;;
  print_help ;;;
  interactive_loop me inputs
    {| ring_duration := DEFAULT_RING_DURATION; pre_message := None |}.

End Interactive.

(** ** Describing a batch and a line of the session

    Notions used to state what [call_multiple] and the loop body do. *)

(** The sleeps of a batch whose targets ended with the given statuses: the
    ring duration for each call that rang, and the delay between two
    targets. *)
Fixpoint batch_sleeps (duration delay : float) (statuses : list CallStatus)
  : list float :=
  match statuses with
  | [] => []
  | st :: more =>
    match st with SUCCESS => [duration] | _ => [] end
    ++ match more with
       | [] => []
       | _ :: _ => delay :: batch_sleeps duration delay more
       end
  end.

(** A character that separates targets on a line, and a piece between two
    separators. *)
Definition separator (c : char) : bool := isspace_char c || (c =? 44).

Definition piece (t : pystr) : Prop :=
  t <> [] /\ forallb (fun c => negb (separator c)) t = true.

Section CommandWords.

Context {RT : PyRuntime}.

(** The command word and the argument that [command] reads off a line. *)
Definition command_word (user_input : pystr) : pystr :=
  str_lower (nth 0 (split_max1 user_input) []).

Definition command_arg (user_input : pystr) : pystr :=
  if (1 <? length (split_max1 user_input))%nat
  then nth 1 (split_max1 user_input) []
  else [].

Definition quits (user_input : pystr) : bool :=
  existsb (str_eqb (command_word user_input))
          [text "/quit"; text "/exit"; text "/q"].

End CommandWords.

(** ** Starting up: [connect], [_authorize], [disconnect] and [main]

    The start-up runs in a second layer over the call layer: its steps
    are the requests of the log-in and of the config file, and the events
    of the call layer ([print] among them) wrapped in [Did].  [input] is
    modelled as in the interactive loop: the prompt is printed, then the
    next console item is taken; the end of the console is [EOFError]. *)

Definition SESSION_FILE : pystr := text "caller_session".

(** The text printed by [print_banner]. *)
Definition banner_text : pystr := text "
╔═══════════════════════════════════════════════════════════════╗
║                    📞 TELEGRAM CALLER                         ║
║                                                               ║
║  Звонки через Telegram для уведомлений                        ║
╚═══════════════════════════════════════════════════════════════╝
    ".

(** The log-in errors of Telethon that [_authorize] names. *)
Inductive login_error :=
| PhoneNumberInvalidError
| PhoneCodeInvalidError
| SessionPasswordNeededError.

(** The answer to [send_code_request] and to [sign_in] with a code, the
    two requests around which [_authorize] names log-in errors: a value,
    one of the named log-in errors, or an exception of any other class.
    The other requests answer with a [result], where [OtherException]
    stands for a log-in error as well. *)
Inductive answer (A : Type) :=
| Fine (a : A)
| Refused (why : login_error)
| Failed (e : exn).
Arguments Fine {A} a.
Arguments Refused {A} why.
Arguments Failed {A} e.

(** What [main] meets besides the requests of a call: the config file,
    the Telethon client as it is created, connected, logged in and
    disconnected, and the text [str(e)] of an error that Telethon words. *)
Class Host (W : Type) := {
  (** The config file as [load_config] finds it. *)
  look_config : W -> config_file * W;
  (** [open(CONFIG_FILE, 'w')] and [f.write(raw)]. *)
  write_config : pystr -> W -> result unit * W;
  (** [TelegramClient(session_name, api_id, api_hash)] *)
  new_client : pystr -> Z -> pystr -> W -> result unit * W;
  (** [client.connect()] and [client.is_user_authorized()] *)
  connect_client : W -> result unit * W;
  is_user_authorized : W -> result bool * W;
  (** [client.send_code_request(phone)], [client.sign_in(phone, code)] and
      [client.sign_in(password=password)] *)
  send_code_request : pystr -> W -> answer unit * W;
  sign_in : pystr -> pystr -> W -> answer unit * W;
  sign_in_password : pystr -> W -> result unit * W;
  (** [client.get_me()]: the account, or [None]. *)
  get_me : W -> result (option Account) * W;
  (** [client.disconnect()] *)
  disconnect_client : W -> result unit * W;
  (** [str(e)] for the error that Telethon has just raised. *)
  rpc_error_text : W -> exn -> pystr;
  login_error_text : W -> login_error -> pystr
}.

(** What the script does while it starts up, in order; [Did] is a step
    that a call or a [print] makes. *)
Inductive step :=
| Did (ev : event)
| ELookConfig (f : config_file)
| EWriteConfig (raw : pystr) (r : result unit)
| ENewClient (session_name : pystr) (api_id : Z) (api_hash : pystr)
             (r : result unit)
| EConnect (r : result unit)
| EIsAuthorized (r : result bool)
| ESendCode (phone : pystr) (r : answer unit)
| ESignIn (phone code : pystr) (r : answer unit)
| ESignInPassword (password : pystr) (r : result unit)
| EGetMe (r : result (option Account))
| EDisconnect (r : result unit).

(** The state [main] runs in: the world, the two fields of the
    [TelegramCaller] object that change ([self.client] is set or not,
    [self.me]), and the steps so far. *)
Record machine (W : Type) := {
  world : W;
  self_client : bool;
  self_me : option Account;
  steps : list step
}.
Arguments world {W} m.
Arguments self_client {W} m.
Arguments self_me {W} m.
Arguments steps {W} m.

Definition Boot (W A : Type) : Type := machine W -> result A * machine W.

Declare Scope boot_scope.
Delimit Scope boot_scope with boot.

Section Startup.

Context {RT : PyRuntime} {W : Type} {Env : Environment W} {Hst : Host W}.

Definition done {A} (a : A) : Boot W A := fun s => (Ok a, s).

Definition throw {A} (e : exn) : Boot W A := fun s => (Raise e, s).

Definition and_then {A B} (m : Boot W A) (k : A -> Boot W B) : Boot W B :=
  fun s =>
    match m s with
    | (Ok a, s') => k a s'
    | (Raise e, s') => (Raise e, s')
    end.

(** The body of a [try]. *)
Definition trying {A} (m : Boot W A) : Boot W (result A) :=
  fun s => let (r, s') := m s in (Ok r, s').

(** A request to the host, logged with its answer. *)
Definition ask {A} (op : W -> A * W) (log : A -> step) : Boot W A :=
  fun s =>
    let (a, w') := op (world s) in
    (Ok a, {| world := w'; self_client := self_client s;
              self_me := self_me s; steps := steps s ++ [log a] |}).

(** A request that raises when it fails. *)
Definition request {A} (op : W -> result A * W) (log : result A -> step)
  : Boot W A :=
  and_then (ask op log)
           (fun r => match r with Ok a => done a | Raise e => throw e end).

(** A computation of the call layer, run at this point. *)
Definition lift {A} (m : M W A) : Boot W A :=
  fun s =>
    let '(r, (w', evs)) := m (world s, []) in
    (r, {| world := w'; self_client := self_client s;
           self_me := self_me s; steps := steps s ++ map Did evs |}).

Definition current : Boot W (machine W) := fun s => (Ok s, s).

(** [TelegramCaller.__init__]: no client and no account yet. *)
Definition __init__ : Boot W unit :=
  fun s => (Ok tt, {| world := world s; self_client := false;
                      self_me := None; steps := steps s |}).

Definition set_client : Boot W unit :=
  fun s => (Ok tt, {| world := world s; self_client := true;
                      self_me := self_me s; steps := steps s |}).

Definition set_me (me : option Account) : Boot W unit :=
  fun s => (Ok tt, {| world := world s; self_client := self_client s;
                      self_me := me; steps := steps s |}).

End Startup.

Notation "x <- m ;; k" := (and_then m (fun x => k))
  (at level 61, m at next level, right associativity) : boot_scope.
Notation "m ;;; k" := (and_then m (fun _ => k))
  (at level 61, right associativity) : boot_scope.

Section Main.

Context {RT : PyRuntime} {W : Type} {Env : Environment W} {Hst : Host W}.

Local Open Scope boot_scope.

Definition say (s : pystr) : Boot W unit := lift (print s).

Definition say_no_newline (s : pystr) : Boot W unit :=
  lift (print_no_newline s).

(** [EOFError], as [input] raises it. *)
Definition EOFError : exn := OtherException (text "EOF when reading a line").

(** [str(e)] *)
Definition str_exn (w : W) (e : exn) : pystr :=
  match e with
  | ValueError msg | OtherException msg => msg
  | _ => rpc_error_text w e
  end.

(** A named log-in error where no handler names it: an [Exception] with
    its text. *)
Definition unnamed (why : login_error) : Boot W exn :=
  s <- current ;;
  done (OtherException (login_error_text (world s) why)).

(** [input(prompt)]: the end of the console is [EOFError]. *)
Definition input (prompt : pystr) (inputs : list console)
  : Boot W (pystr * list console) :=
  say_no_newline prompt ;;;
  match inputs with
  | [] => throw EOFError
  | Interrupt :: _ => throw KeyboardInterrupt
  | Line raw :: later => done (raw, later)
  end.

(** ["─" * 40] *)
Definition rule : pystr := concat (repeat (text "─") 40).

(** The first loop of [_authorize]: the phone number for which a code was
    sent, or [None] where the source returns [False]. *)
Fixpoint ask_phone (inputs : list console)
  : Boot W (option pystr * list console) :=
  say_no_newline (text "Введите номер телефона (с +): ") ;;;
  match inputs with
  | [] => throw EOFError
  | Interrupt :: _ => throw KeyboardInterrupt
  | Line raw :: later =>
    match strip raw with
    | [] => ask_phone later
    | phone =>
      sent <- ask (send_code_request phone) (ESendCode phone) ;;
      match sent with
      | Fine _ => done (Some phone, later)
      | Refused PhoneNumberInvalidError =>
        say (text "❌ Неверный формат номера. Попробуйте снова.") ;;;
        ask_phone later
      | Failed (FloodWaitError seconds) =>
        say (text "⏳ Слишком много попыток. Подождите "
             ++ str_int seconds ++ text " секунд.") ;;;
        done (None, later)
      | Refused why => e <- unnamed why ;; throw e
      | Failed e => throw e
      end
    end
  end.

(** The branch for [SessionPasswordNeededError]: [true] where the source
    breaks out of the loop, [false] where it returns [False]. *)
Definition ask_password (inputs : list console)
  : Boot W (bool * list console) :=
  say ([10] ++ text "🔐 Требуется пароль двухфакторной аутентификации") ;;;
  typed <- input (text "Введите пароль: ") inputs ;;
  let password := strip (fst typed) in
  signed <- trying (request (sign_in_password password)
                            (ESignInPassword password)) ;;
  match signed with
  | Ok _ => done (true, snd typed)
  | Raise e =>
    if is_Exception e then
      s <- current ;;
      say (text "❌ Ошибка: " ++ str_exn (world s) e) ;;;
      done (false, snd typed)
    else throw e
  end.

(** The second loop of [_authorize], with the same two ends. *)
Fixpoint ask_code (phone : pystr) (inputs : list console)
  : Boot W (bool * list console) :=
  say_no_newline (text "Введите код из Telegram: ") ;;;
  match inputs with
  | [] => throw EOFError
  | Interrupt :: _ => throw KeyboardInterrupt
  | Line raw :: later =>
    match strip raw with
    | [] => ask_code phone later
    | code =>
      signed <- ask (sign_in phone code) (ESignIn phone code) ;;
      match signed with
      | Fine _ => done (true, later)
      | Refused PhoneCodeInvalidError =>
        say (text "❌ Неверный код. Попробуйте снова.") ;;;
        ask_code phone later
      | Refused SessionPasswordNeededError => ask_password later
      | Refused why => e <- unnamed why ;; throw e
      | Failed e => throw e
      end
    end
  end.

Definition _authorize (inputs : list console)
  : Boot W (bool * list console) :=
  say ([10] ++ text "📱 Авторизация в Telegram") ;;;
  say rule ;;;
  phoned <- ask_phone inputs ;;
  match fst phoned with
  | None => done (false, snd phoned)
  | Some phone =>
    coded <- ask_code phone (snd phoned) ;;
    if fst coded then
      me <- request get_me EGetMe ;;
      set_me me ;;;
      done (true, snd coded)
    else done (false, snd coded)
  end.

Definition connect (session_name : pystr) (api_id : Z) (api_hash : pystr)
           (inputs : list console) : Boot W (bool * list console) :=
  request (new_client session_name api_id api_hash)
          (ENewClient session_name api_id api_hash) ;;;
  set_client ;;;
  request connect_client EConnect ;;;
  authorized <- request is_user_authorized EIsAuthorized ;;
  if negb authorized then _authorize inputs
  else
    me <- request get_me EGetMe ;;
    set_me me ;;;
    done (true, inputs).

Definition disconnect : Boot W unit :=
  s <- current ;;
  if self_client s then request disconnect_client EDisconnect
  else done tt.

Definition print_banner : Boot W unit := say banner_text.

(** The text [save_config] writes. *)
Definition written (f : config_file) : pystr :=
  match f with
  | Stored raw => raw
  | _ => []
  end.

(** The loop that reads the API ID. *)
Fixpoint ask_api_id (inputs : list console) : Boot W (Z * list console) :=
  say_no_newline (text "API ID: ") ;;;
  match inputs with
  | [] => throw EOFError
  | Interrupt :: _ => throw KeyboardInterrupt
  | Line raw :: later =>
    match py_int (strip raw) with
    | Some api_id => done (api_id, later)
    | None =>
      say (text "❌ API ID должен быть числом") ;;;
      ask_api_id later
    end
  end.

(** The first-run setup of [main]. *)
Definition setup (inputs : list console)
  : Boot W (Z * pystr * list console) :=
  say (text "🔧 Первоначальная настройка") ;;;
  say rule ;;;
  say (text "Получите API ID и API Hash на: https://my.telegram.org") ;;;
  say [] ;;;
  numbered <- ask_api_id inputs ;;
  let api_id := fst numbered in
  typed <- input (text "API Hash: ") (snd numbered) ;;
  let api_hash := strip (fst typed) in
  request (write_config (written (save_config api_id api_hash)))
          (EWriteConfig (written (save_config api_id api_hash))) ;;;
  say (text "✅ Credentials сохранены") ;;;
  done (api_id, api_hash, snd typed).

(** The loaded credentials where [not api_id or not api_hash] is false:
    an API ID that is not 0 and a hash that is not empty. *)
Definition usable (loaded : option Z * option pystr) : option (Z * pystr) :=
  match loaded with
  | (Some api_id, Some (c :: r)) =>
    if api_id =? 0 then None else Some (api_id, c :: r)
  | _ => None
  end.

(** The [try] block of [main]. *)
Definition session_body (api_id : Z) (api_hash : pystr)
           (inputs : list console) : Boot W unit :=
  say ([10] ++ text "🔄 Подключение к Telegram...") ;;;
  connected <- connect SESSION_FILE api_id api_hash inputs ;;
  if fst connected then
    s <- current ;;
    match self_me s with
    | Some me => lift (interactive_mode me (snd connected))
    | None =>
      throw (OtherException
              (text "'NoneType' object has no attribute 'username'"))
    end
  else say (text "❌ Не удалось подключиться").

(** The [except Exception] clause of [main]. *)
Definition report (outcome : result unit) : Boot W unit :=
  match outcome with
  | Ok _ => done tt
  | Raise e =>
    if is_Exception e then
      s <- current ;;
      say ([10] ++ text "❌ Ошибка: " ++ str_exn (world s) e)
    else throw e
  end.

(** The [try] statement of [main] with its handler and its [finally]. *)
Definition guarded (api_id : Z) (api_hash : pystr) (inputs : list console)
  : Boot W unit :=
  outcome <- trying (session_body api_id api_hash inputs) ;;
  handled <- trying (report outcome) ;;
  disconnect ;;;
  match handled with
  | Ok _ => done tt
  | Raise e => throw e
  end.

Definition main (inputs : list console) : Boot W unit :=
  print_banner ;;;
  f <- ask look_config ELookConfig ;;
  creds <- match usable (load_config f) with
           | Some (api_id, api_hash) => done (api_id, api_hash, inputs)
           | None => setup inputs
           end ;;
  __init__ ;;;
  guarded (fst (fst creds)) (snd (fst creds)) (snd creds).

End Main.

(** ** Describing a start-up *)

(** The steps that create the client or disconnect it. *)
Definition client_made (st : step) : bool :=
  match st with
  | ENewClient _ _ _ (Ok _) => true
  | _ => false
  end.

Definition is_new_client (st : step) : bool :=
  match st with
  | ENewClient _ _ _ _ => true
  | _ => false
  end.

Definition is_disconnect (st : step) : bool :=
  match st with
  | EDisconnect _ => true
  | _ => false
  end.

Definition client_step (st : step) : bool :=
  is_new_client st || is_disconnect st.

(** The steps that are requests, not prints or steps of a call. *)
Definition is_request (st : step) : bool :=
  match st with
  | Did _ => false
  | _ => true
  end.

Definition requests (l : list step) : list step := filter is_request l.

(** A code request refused for its phone number, and a sign-in refused for
    its code. *)
Definition refused_phone (phone : pystr) : step :=
  ESendCode phone (Refused PhoneNumberInvalidError).

Definition refused_code (phone code : pystr) : step :=
  ESignIn phone code (Refused PhoneCodeInvalidError).

(** The requests that end a log-in: a code that is accepted, or a code that
    calls for the password and a password that is accepted. *)
Definition signed_in (phone : pystr) (ending : list step) : Prop :=
  (exists code, ending = [ESignIn phone code (Fine tt)]) \/
  (exists code password,
      ending = [ESignIn phone code (Refused SessionPasswordNeededError);
                ESignInPassword password (Ok tt)]).

(** The machine after more steps. *)
Definition push {W} (s : machine W) (new : list step) : machine W :=
  {| world := world s; self_client := self_client s; self_me := self_me s;
     steps := steps s ++ new |}.

(** How a computation ends, and the steps it adds. *)
Definition ended {W A} (m : Boot W A) (s : machine W) : result A :=
  fst (m s).

Definition added {W A} (m : Boot W A) (s : machine W) : list step :=
  skipn (length (steps s)) (steps (snd (m s))).

(** A step that neither creates the client nor disconnects it. *)
Definition quiet (st : step) : bool := negb (client_step st).

(** A step that is not a code request for an empty phone number, nor a
    sign-in with an empty code. *)
Definition filled (st : step) : bool :=
  match st with
  | ESendCode [] _ => false
  | ESignIn _ [] _ => false
  | _ => true
  end.

Section StartupNotions.

Context {W : Type}.

(** A computation that only adds steps accepted by [ok] and leaves
    [self.client] as it is. *)
Definition adds {A} (ok : step -> bool) (m : Boot W A) : Prop :=
  forall s, exists new,
    steps (snd (m s)) = steps s ++ new /\
    forallb ok new = true /\
    self_client (snd (m s)) = self_client s.

(** [connect] creates the client first; nothing after that is a client
    step. *)
Definition creates {A} (api_id : Z) (api_hash : pystr) (m : Boot W A)
  : Prop :=
  forall s, exists pre r rest,
    steps (snd (m s)) = steps s ++ pre
                        ++ ENewClient SESSION_FILE api_id api_hash r :: rest /\
    forallb quiet pre = true /\
    forallb quiet rest = true /\
    self_client (snd (m s))
    = match r with Ok _ => true | Raise _ => self_client s end.

(** What a computation has added when it returns. *)
Definition yields {A} (P : A -> list step -> Prop) (m : Boot W A) : Prop :=
  forall s a, fst (m s) = Ok a ->
    exists new, steps (snd (m s)) = steps s ++ new /\ P a new.

End StartupNotions.

(** ** Concrete instances, for running the model *)

(** An instance of the runtime for running the model: it is right on
    ASCII text and on whole numbers of seconds written in digits, the only
    inputs it is used on. *)
Definition ascii_upper (c : char) : char :=
  if (97 <=? c) && (c <=? 122) then c - 32 else c.
Definition ascii_lower (c : char) : char :=
  if (65 <=? c) && (c <=? 90) then c + 32 else c.
Definition ascii_digit (c : char) : bool := (48 <=? c) && (c <=? 57).

(** The whole number a float is, if it is one. *)
Definition whole (x : float) : option Z :=
  match FloatOps.Prim2SF x with
  | SpecFloat.S754_zero _ => Some 0
  | SpecFloat.S754_finite false m e =>
    if 0 <=? e then Some (Zpos m * 2 ^ e)
    else if Zpos m mod 2 ^ (- e) =? 0 then Some (Zpos m / 2 ^ (- e))
    else None
  | _ => None
  end.

Definition ascii_runtime : PyRuntime := {|
  decimal_value := fun _ => None;
  digit_char := ascii_digit;
  str_upper := map ascii_upper;
  str_lower := map ascii_lower;
  float_str := fun x => match whole x with
                        | Some n => str_int n ++ text ".0"
                        | None => []
                        end;
  float_parse := fun s =>
    match s with
    | [] => None
    | _ =>
      if forallb ascii_digit s && (length s <=? 15)%nat
      then Some (PrimFloat.of_uint63 (Uint63.of_Z (dval s 0)))
      else None
    end
|}.

(** A world that answers every request the same way each time. *)
Record fixed_world := {
  fw_entity : Z + pystr -> result User;
  fw_send : result unit;
  fw_request : result PhoneCall;
  fw_discard : result unit;
  fw_entropy : Z
}.

Definition fixed_env : Environment fixed_world := {|
  get_entity := fun key w => (fw_entity w key, w);
  send_message := fun _ _ w => (fw_send w, w);
  request_call := fun _ w => (fw_request w, w);
  discard_call := fun _ w => (fw_discard w, w);
  entropy := fun w => (fw_entropy w, w)
|}.

Definition alice : User :=
  {| user_username := Some (text "alice"); user_id := 1001 |}.

Definition a_call : PhoneCall :=
  {| phone_call_id := 77; phone_call_access_hash := 4242 |}.

(** Every request succeeds. *)
Definition friendly : fixed_world := {|
  fw_entity := fun _ => Ok alice;
  fw_send := Ok tt;
  fw_request := Ok a_call;
  fw_discard := Ok tt;
  fw_entropy := 77
|}.

(** The same world with another answer to the call request, or to the
    discard request. *)
Definition answering_request (r : result PhoneCall) : fixed_world := {|
  fw_entity := fw_entity friendly;
  fw_send := fw_send friendly;
  fw_request := r;
  fw_discard := fw_discard friendly;
  fw_entropy := fw_entropy friendly
|}.

Definition answering_discard (r : result unit) : fixed_world := {|
  fw_entity := fw_entity friendly;
  fw_send := fw_send friendly;
  fw_request := fw_request friendly;
  fw_discard := r;
  fw_entropy := fw_entropy friendly
|}.

(** The friendly world with another answer to the entity lookup. *)
Definition answering_lookup (r : result User) : fixed_world := {|
  fw_entity := fun _ => r;
  fw_send := fw_send friendly;
  fw_request := fw_request friendly;
  fw_discard := fw_discard friendly;
  fw_entropy := fw_entropy friendly
|}.

Definition bob_line : pystr := text " @bob ".

Definition an_account : Account := {|
  me_username := Some (text "operator");
  me_first_name := Some (text "Op");
  me_last_name := None;
  me_id := 5
|}.

Definition run_call (w : fixed_world) (message0 : option pystr) :=
  call (RT := ascii_runtime) (Env := fixed_env) bob_line 5.0%float message0
       (w, []).


Definition long_error_text : pystr :=
  text "RPCError 400: CALL_PROTOCOL_FLAGS_INVALID (caused by RequestCallRequest)".

(** The trace of a whole interactive session in the friendly world. *)
Definition session (lines : list pystr) : list event :=
  logged (interactive_mode (RT := ascii_runtime) (Env := fixed_env)
                           an_account (map Line lines))
         (friendly, []).

(** A host for running the start-up: a config file that keeps what is
    written, a Telegram that sends one code and may ask for a password,
    and the fixed world of the calls. *)
Record desk := {
  desk_calls : fixed_world;
  desk_config : config_file;
  desk_authorized : bool;
  desk_code : pystr;
  desk_password : option pystr
}.

Definition desk_login (w : desk) : desk := {|
  desk_calls := desk_calls w;
  desk_config := desk_config w;
  desk_authorized := true;
  desk_code := desk_code w;
  desk_password := desk_password w
|}.

Definition desk_file (f : config_file) (w : desk) : desk := {|
  desk_calls := desk_calls w;
  desk_config := f;
  desk_authorized := desk_authorized w;
  desk_code := desk_code w;
  desk_password := desk_password w
|}.

Definition desk_env : Environment desk := {|
  get_entity := fun key w => (fw_entity (desk_calls w) key, w);
  send_message := fun _ _ w => (fw_send (desk_calls w), w);
  request_call := fun _ w => (fw_request (desk_calls w), w);
  discard_call := fun _ w => (fw_discard (desk_calls w), w);
  entropy := fun w => (fw_entropy (desk_calls w), w)
|}.

Definition desk_host : Host desk := {|
  look_config := fun w => (desk_config w, w);
  write_config := fun raw w => (Ok tt, desk_file (Stored raw) w);
  new_client := fun _ api_id api_hash w =>
    (match api_hash with
     | [] => Raise (ValueError (text "Your API ID or Hash cannot be empty"))
     | _ => if api_id =? 0
            then Raise (ValueError
                          (text "Your API ID or Hash cannot be empty"))
            else Ok tt
     end, w);
  connect_client := fun w => (Ok tt, w);
  is_user_authorized := fun w => (Ok (desk_authorized w), w);
  send_code_request := fun phone w =>
    (if startswith (text "+") phone then Fine tt
     else Refused PhoneNumberInvalidError, w);
  sign_in := fun _ code w =>
    if str_eqb code (desk_code w) then
      match desk_password w with
      | None => (Fine tt, desk_login w)
      | Some _ => (Refused SessionPasswordNeededError, w)
      end
    else (Refused PhoneCodeInvalidError, w);
  sign_in_password := fun password w =>
    match desk_password w with
    | Some p =>
      if str_eqb password p then (Ok tt, desk_login w)
      else (Raise (OtherException (text "PASSWORD_HASH_INVALID")), w)
    | None => (Raise (ValueError (text "no password is set")), w)
    end;
  get_me := fun w =>
    (Ok (if desk_authorized w then Some an_account else None), w);
  disconnect_client := fun w => (Ok tt, w);
  rpc_error_text := fun _ _ => text "RPCError";
  login_error_text := fun _ _ => text "RPCError"
|}.

(** A first run: no config file, no session, the code 12345. *)
Definition first_run : desk := {|
  desk_calls := friendly;
  desk_config := Absent;
  desk_authorized := false;
  desk_code := text "12345";
  desk_password := None
|}.

(** The same with a password set. *)
Definition with_password : desk := {|
  desk_calls := friendly;
  desk_config := Absent;
  desk_authorized := false;
  desk_code := text "12345";
  desk_password := Some (text "secret")
|}.

(** The machine before [main] starts. *)
Definition boot {W} (w : W) : machine W :=
  {| world := w; self_client := false; self_me := None; steps := [] |}.

(** * Properties *)

(** ** Strings *)

Section StringFacts.


Lemma rstrip_by_keep (p : char -> bool) (s : pystr) (c : char) :
  p c = false -> rstrip_by p (s ++ [c]) = s ++ [c].
Proof.
  intros H. unfold rstrip_by. rewrite rev_app_distr. simpl.
  rewrite H. simpl. now rewrite rev_involutive.
Qed.


(** A string whose first and last characters are kept is its own strip. *)
Lemma strip_by_keep (p : char -> bool) (s : pystr) (b : char) :
  p (hd b s) = false -> p b = false ->
  strip_by p (s ++ [b]) = s ++ [b].
Proof.
  intros Hhd Hb. unfold strip_by.
  destruct s as [|a s]; simpl in *.
  - rewrite Hb. now apply (rstrip_by_keep p []).
  - rewrite Hhd. now apply (rstrip_by_keep p (a :: s)).
Qed.




(** ** Decimal text of an integer *)







End StringFacts.

(** ** [int] reads back what [str] wrote *)

Section IntFacts.

Context {RT : PyRuntime}.







End IntFacts.

(** ** The config file *)

Section ConfigFacts.

Context {RT : PyRuntime}.



End ConfigFacts.





(** ** Bytes and the Diffie-Hellman parameters *)

Section ByteFacts.

Lemma Z_of_byte_of_Z (z : Z) : Z_of_byte (byte_of_Z z) = z mod 256.
Proof.
  unfold Z_of_byte, byte_of_Z.
  pose proof (Z.mod_pos_bound z 256 eq_refl) as Hb.
  destruct (Byte.of_N (Z.to_N (z mod 256))) as [b|] eqn:E.
  - apply Byte.to_of_N in E. rewrite E. lia.
  - apply Byte.of_N_None_iff in E. lia.
Qed.

Lemma be_bytes_length (len : nat) :
  forall n, length (be_bytes len n) = len.
Proof.
  induction len as [|l IH]; intros n; [reflexivity|].
  cbn [be_bytes]. rewrite length_app, IH. cbn. lia.
Qed.

Lemma be_value_snoc (bs : list byte) (b : byte) :
  be_value (bs ++ [b]) = be_value bs * 256 + Z_of_byte b.
Proof. unfold be_value. now rewrite fold_left_app. Qed.

(** Reading the big-endian bytes gives the number back, reduced to the
    width. *)
Lemma be_value_be_bytes (len : nat) :
  forall n, be_value (be_bytes len n) = n mod 256 ^ Z.of_nat len.
Proof.
  induction len as [|l IH]; intros n.
  - cbn. now rewrite Z.mod_1_r.
  - cbn [be_bytes]. rewrite be_value_snoc, IH, Z_of_byte_of_Z.
    rewrite Nat2Z.inj_succ, Z.pow_succ_r by lia.
    rewrite Z.rem_mul_r; [lia|lia|]. apply Z.pow_pos_nonneg; lia.
Qed.

Lemma to_bytes_big_fits (n : Z) (len : nat) :
  0 <= n < 256 ^ Z.of_nat len ->
  to_bytes_big n len = Some (be_bytes len n) /\
  length (be_bytes len n) = len /\
  be_value (be_bytes len n) = n.
Proof.
  intros H. unfold to_bytes_big.
  destruct (Z.leb_spec 0 n); [|lia].
  destruct (Z.ltb_spec n (256 ^ Z.of_nat len)); [|lia].
  cbn. split; [reflexivity|split].
  - apply be_bytes_length.
  - rewrite be_value_be_bytes. now apply Z.mod_small.
Qed.

End ByteFacts.

Section PowFacts.

Lemma pow_mod_pos_correct (b m : Z) (e : positive) :
  0 < m -> pow_mod_pos b e m = b ^ Zpos e mod m.
Proof.
  intros Hm. induction e as [e IH|e IH|]; cbn [pow_mod_pos].
  - rewrite IH.
    rewrite Pos2Z.inj_xI.
    replace (2 * Z.pos e + 1) with (Z.pos e + Z.pos e + 1) by lia.
    rewrite !Z.pow_add_r, Z.pow_1_r by lia.
    rewrite <- Z.mul_mod by lia.
    rewrite Z.mul_mod_idemp_l by lia. reflexivity.
  - rewrite IH.
    rewrite Pos2Z.inj_xO.
    replace (2 * Z.pos e) with (Z.pos e + Z.pos e) by lia.
    rewrite Z.pow_add_r by lia.
    now rewrite <- Z.mul_mod by lia.
  - now rewrite Z.pow_1_r.
Qed.

(** [pow(b, e, m)] is [b ** e % m]. *)
Lemma pow_mod_correct (b e m : Z) :
  0 <= e -> 0 < m -> pow_mod b e m = b ^ e mod m.
Proof.
  intros He Hm. destruct e as [|p|p]; cbn [pow_mod].
  - reflexivity.
  - now apply pow_mod_pos_correct.
  - lia.
Qed.

Lemma DH_PRIME_bits : 2 ^ 2047 <= DH_PRIME < 2 ^ 2048.
Proof. split; [vm_compute; discriminate|vm_compute; reflexivity]. Qed.

Lemma DH_PRIME_fits : DH_PRIME < 256 ^ Z.of_nat 256.
Proof. vm_compute. reflexivity. Qed.

End PowFacts.

Section Sha256Facts.

Import Sha256.

Lemma compress_length (h block : list Z) :
  length h = 8%nat -> length (compress h block) = 8%nat.
Proof.
  intros H. unfold compress.
  rewrite length_map, length_combine, H. reflexivity.
Qed.

Lemma blocks_length (n : nat) :
  forall h ws, length h = 8%nat -> length (blocks n h ws) = 8%nat.
Proof.
  induction n as [|n IH]; intros h ws H; cbn [blocks]; [assumption|].
  destruct ws; [assumption|].
  apply IH. now apply compress_length.
Qed.

(** A SHA-256 digest has 32 bytes. *)
Lemma digest_length (data : list byte) : length (digest data) = 32%nat.
Proof.
  unfold digest.
  rewrite (flat_map_constant_length (c := 4%nat)).
  - rewrite blocks_length; reflexivity.
  - intros x _. apply be_bytes_length.
Qed.

End Sha256Facts.

(** ** Running the call routine *)

Section EffectFacts.

Context {RT : PyRuntime} {W : Type} {Env : Environment W}.

Lemma DH_PRIME_pos : 0 < DH_PRIME.
Proof.
  pose proof DH_PRIME_bits as [HP _].
  eapply Z.lt_le_trans; [|exact HP]. reflexivity.
Qed.

Lemma dh_public_range (x : Z) : 0 <= dh_public x < 256 ^ Z.of_nat 256.
Proof.
  unfold dh_public.
  pose proof (Z.mod_pos_bound (DH_GENERATOR ^ x) DH_PRIME DH_PRIME_pos)
    as [H1 H2].
  split; [exact H1|]. eapply Z.lt_trans; [exact H2|exact DH_PRIME_fits].
Qed.

Lemma draw_range (raw bound : Z) : 0 < bound -> 0 <= raw mod bound < bound.
Proof. apply Z.mod_pos_bound. Qed.

Lemma dh_params_run (w : W) (tr : list event) :
  _generate_dh_params (w, tr)
  = (Ok (dh_hash (fst (entropy w) mod 2 ^ 256),
         dh_public (fst (entropy w) mod 2 ^ 256)),
     (snd (entropy w),
      tr ++ [ERandBits 256 (fst (entropy w) mod 2 ^ 256)])).
Proof.
  unfold _generate_dh_params, bind, randbits, draw. cbn [fst snd].
  destruct (entropy w) as [raw w']. cbn [fst snd].
  generalize (draw_range raw (2 ^ 256) eq_refl).
  generalize (raw mod 2 ^ 256). intros x [Hx _].
  rewrite (pow_mod_correct DH_GENERATOR x DH_PRIME Hx DH_PRIME_pos).
  fold (dh_public x).
  destruct (to_bytes_big_fits (dh_public x) 256 (dh_public_range x))
    as (E & _).
  rewrite E. unfold ret, dh_hash. reflexivity.
Qed.

Lemma bind_run {A B} (m : M W A) (k : A -> M W B) (s : W * list event) :
  bind m k s = match m s with
               | (Ok a, s') => k a s'
               | (Raise e, s') => (Raise e, s')
               end.
Proof. reflexivity. Qed.

Lemma attempt_run {A} (m : M W A) (s : W * list event) :
  attempt m s = (Ok (fst (m s)), snd (m s)).
Proof. unfold attempt. now destruct (m s). Qed.

Lemma emit_run (ev : event) (w : W) (tr : list event) :
  emit ev (w, tr) = (Ok tt, (w, tr ++ [ev])).
Proof. reflexivity. Qed.

Lemma perform_run {A} (op : W -> result A * W) (log : result A -> event)
      (w : W) (tr : list event) :
  perform op log (w, tr)
  = (fst (op w), (snd (op w), tr ++ [log (fst (op w))])).
Proof. unfold perform. cbn [fst snd]. now destruct (op w). Qed.

Lemma draw_run (bound : Z) (log : Z -> event) (w : W) (tr : list event) :
  draw bound log (w, tr)
  = (Ok (fst (entropy w) mod bound),
     (snd (entropy w), tr ++ [log (fst (entropy w) mod bound)])).
Proof. unfold draw. cbn [fst snd]. now destruct (entropy w). Qed.

Lemma place_run (username0 : pystr) (user : User) (duration : float)
      (w : W) (tr : list event) :
  exists w' x random_id,
    0 <= x < 2 ^ 256 /\ 0 <= random_id < 2 ^ 31 /\
    ((exists e,
         place username0 user duration (w, tr)
         = (Raise e,
            (w', tr ++ [ERandBits 256 x; ERandBelow (2 ^ 31) random_id;
                        ERequestCall
                          (make_request user (dh_hash x) random_id)
                          (Raise e)])))
     \/
     (exists phone_call answer,
         place username0 user duration (w, tr)
         = finished username0 duration w'
             (tr ++ [ERandBits 256 x; ERandBelow (2 ^ 31) random_id;
                     ERequestCall
                       (make_request user (dh_hash x) random_id)
                       (Ok phone_call)]
                 ++ rung duration user phone_call answer)
             answer)).
Proof.
  unfold place.
  rewrite bind_run, dh_params_run. cbv beta iota. cbn [fst].
  rewrite bind_run. unfold randbelow. rewrite draw_run. cbv beta iota.
  set (x := fst (entropy w) mod 2 ^ 256).
  set (w1 := snd (entropy w)).
  set (rid := fst (entropy w1) mod 2 ^ 31).
  set (w2 := snd (entropy w1)).
  assert (Hx : 0 <= x < 2 ^ 256) by (apply Z.mod_pos_bound; reflexivity).
  assert (Hr : 0 <= rid < 2 ^ 31) by (apply Z.mod_pos_bound; reflexivity).
  rewrite bind_run. unfold client_request_call. rewrite perform_run.
  set (req := make_request user (dh_hash x) rid).
  destruct (request_call req w2) as [[pc|e] w3]; cbn [fst snd].
  2:{ exists w3, x, rid. split; [exact Hx|split; [exact Hr|]].
      left. exists e. now rewrite <- !app_assoc. }
  rewrite bind_run. unfold print_no_newline. rewrite emit_run.
  rewrite bind_run. unfold sleep. rewrite emit_run.
  rewrite bind_run, attempt_run.
  unfold client_discard_call. rewrite perform_run. cbn [fst snd].
  set (dreq := make_discard (phone_call_id pc) (phone_call_access_hash pc)).
  destruct (discard_call dreq w3) as [answer w4]; cbn [fst snd].
  exists w4, x, rid. split; [exact Hx|split; [exact Hr|]].
  right. exists pc, answer.
  unfold finished, rung. fold dreq. fold req.
  rewrite bind_run.
  destruct answer as [[]|e]; [|destruct (is_Exception e)];
    unfold ret, raise, print; cbv beta iota;
    rewrite ?bind_run, ?emit_run; cbv beta iota;
    rewrite <- ?app_assoc; reflexivity.
Qed.

Lemma call_run (username0 : pystr) (duration : float)
      (message0 : option pystr) (w : W) (tr : list event) :
  exists w',
    (exists pre at_lookup e,
        cut_short username0 message0 pre at_lookup e /\
        call username0 duration message0 (w, tr)
        = stopped username0 (w', tr ++ pre) at_lookup e)
    \/
    (exists key user x random_id phone_call answer,
        lookup_key (normalize username0) = Some key /\
        0 <= x < 2 ^ 256 /\ 0 <= random_id < 2 ^ 31 /\
        call username0 duration message0 (w, tr)
        = finished username0 duration w'
            (tr ++ dialled message0 key user x random_id (Ok phone_call)
                ++ rung duration user phone_call answer)
            answer).
Proof.
  unfold call. set (target := normalize username0).
  rewrite bind_run, attempt_run, bind_run, attempt_run.
  cbn [fst snd].
  assert (Hres :
    (isdigit target = true /\ py_int target = None /\
     resolve target (w, tr)
     = (Raise (ValueError (text "invalid literal for int() with base 10")),
        (w, tr)))
    \/ exists key, lookup_key target = Some key /\
                   resolve target (w, tr)
                   = (fst (get_entity key w),
                      (snd (get_entity key w),
                       tr ++ [EGetEntity key (fst (get_entity key w))]))).
  { unfold resolve, lookup_key.
    destruct (isdigit target).
    - destruct (py_int target) as [n|].
      + right. exists (inl n). split; [reflexivity|].
        unfold client_get_entity. now rewrite perform_run.
      + left. auto.
    - right. exists (inr target). split; [reflexivity|].
      unfold client_get_entity. now rewrite perform_run. }
  destruct Hres as [(Hd & Hi & ->)|(key & Hkey & ->)].
  - exists w. left.
    exists [], true,
      (ValueError (text "invalid literal for int() with base 10")).
    split; [now constructor|].
    cbn [fst snd]. unfold stopped, ret. now rewrite app_nil_r.
  - destruct (get_entity key w) as [[user|e] w1]; cbn [fst snd].
    2:{ exists w1. left. exists [EGetEntity key (Raise e)], true, e.
        split; [now constructor|].
        unfold stopped. destruct e; reflexivity. }
    unfold ring. rewrite bind_run.
    set (tr1 := tr ++ [EGetEntity key (Ok user)]).
    assert (Hsend :
      (exists msg e w2,
          truthy message0 = Some msg /\
          send_pre_message user message0 (w1, tr1)
          = (Raise e, (w2, tr1 ++ [ESendMessage user msg (Raise e)])))
      \/ exists w2,
          send_pre_message user message0 (w1, tr1)
          = (Ok tt, (w2, tr1 ++ sent message0 user))).
    { unfold send_pre_message, sent.
      destruct (truthy message0) as [msg|].
      - rewrite bind_run. unfold client_send_message.
        rewrite perform_run.
        destruct (send_message user msg w1) as [[[]|e] w2]; cbn [fst snd].
        + right. exists w2. unfold sleep. rewrite emit_run.
          now rewrite <- app_assoc.
        + left. exists msg, e, w2. auto.
      - right. exists w1. unfold ret. now rewrite app_nil_r. }
    destruct Hsend as [(msg & e & w2 & Hmsg & ->)|(w2 & ->)].
    + exists w2. left.
      exists [EGetEntity key (Ok user); ESendMessage user msg (Raise e)],
        false, e.
      split; [now constructor|].
      cbn [fst snd]. unfold stopped, tr1. now rewrite <- app_assoc.
    + destruct (place_run username0 user duration w2
                          (tr1 ++ sent message0 user))
        as (w3 & x & rid & Hx & Hr & [(e & ->)|(pc & answer & ->)]).
      * exists w3. left.
        exists (dialled message0 key user x rid (Raise e)), false, e.
        split; [now constructor|].
        cbn [fst snd]. unfold stopped, dialled, tr1.
        now rewrite <- !app_assoc.
      * exists w3. right. exists key, user, x, rid, pc, answer.
        split; [exact Hkey|split; [exact Hx|split; [exact Hr|]]].
        unfold finished, dialled, tr1.
        destruct answer as [[]|e]; [|destruct e]; cbn [fst snd is_Exception];
          unfold ret; cbn [handle]; unfold raise;
          rewrite <- ?app_assoc; reflexivity.
Qed.

End EffectFacts.

Section CallFacts.

Context {RT : PyRuntime} {W : Type} {Env : Environment W}.

(** *** The end of a stopped attempt *)

Lemma stopped_privacy (username0 : pystr) (w : W) (tr : list event)
      (at_lookup : bool) :
  stopped username0 (w, tr) at_lookup UserPrivacyRestrictedError
  = (Ok (mkCallResult username0 PRIVACY
           (text "Звонки запрещены настройками приватности")),
     (w, tr ++ [EPrint ((text "   🔒 " ++ username0
                         ++ text " — приватность запрещает звонки")
                        ++ [10])])).
Proof. now destruct at_lookup. Qed.

Lemma stopped_flood (username0 : pystr) (w : W) (tr : list event)
      (at_lookup : bool) (seconds : Z) :
  stopped username0 (w, tr) at_lookup (FloodWaitError seconds)
  = (Ok (mkCallResult username0 FLOOD
           (text "Подождите " ++ str_int seconds ++ text "с")),
     (w, tr ++ [EPrint ((text "   ⏳ Flood wait: " ++ str_int seconds
                         ++ text "с") ++ [10])])).
Proof. now destruct at_lookup. Qed.

Lemma handle_generic (username0 : pystr) (w : W) (tr : list event)
      (e : exn) (error_msg : pystr) :
  e = ValueError error_msg \/ e = OtherException error_msg ->
  handle username0 e (w, tr)
  = if contains (text "PRIVACY") (str_upper error_msg) then
      (Ok (mkCallResult username0 PRIVACY (text "Звонки запрещены")),
       (w, tr ++ [EPrint ((text "   🔒 " ++ username0
                           ++ text " — приватность") ++ [10])]))
    else
      (Ok (mkCallResult username0 FAILED error_msg),
       (w, tr ++ [EPrint ((text "   ❌ " ++ username0
                           ++ text " — ошибка: " ++ firstn 50 error_msg)
                          ++ [10])])).
Proof.
  intros [-> | ->]; cbn [handle];
    destruct (contains (text "PRIVACY") (str_upper error_msg));
    reflexivity.
Qed.

(** A stopped attempt ends with the status of its exception and prints at
    most one line. *)
Lemma stopped_run (username0 : pystr) (w : W) (tr : list event)
      (at_lookup : bool) (e : exn) :
  exists prints,
    snd (stopped username0 (w, tr) at_lookup e) = (w, tr ++ prints) /\
    forallb is_print prints = true /\
    match status_for at_lookup e with
    | Some st =>
      exists r, fst (stopped username0 (w, tr) at_lookup e) = Ok r /\
                status r = st /\ username r = username0
    | None => fst (stopped username0 (w, tr) at_lookup e) = Raise e /\
              prints = []
    end.
Proof.
  assert (Hok : forall r s prints st,
             s = (w, tr ++ prints) -> forallb is_print prints = true ->
             status r = st -> username r = username0 ->
             stopped username0 (w, tr) at_lookup e = (Ok r, s) ->
             status_for at_lookup e = Some st ->
             exists prints,
               snd (stopped username0 (w, tr) at_lookup e)
               = (w, tr ++ prints) /\
               forallb is_print prints = true /\
               match status_for at_lookup e with
               | Some st =>
                 exists r,
                   fst (stopped username0 (w, tr) at_lookup e) = Ok r /\
                   status r = st /\ username r = username0
               | None =>
                 fst (stopped username0 (w, tr) at_lookup e) = Raise e /\
                 prints = []
               end).
  { intros r s prints st -> Hp Hst Hu -> ->. exists prints.
    split; [reflexivity|]. split; [exact Hp|]. exists r. auto. }
  destruct e as [|seconds|msg|msg| |].
  - eapply Hok; [| | | |apply stopped_privacy|]; reflexivity.
  - eapply Hok; [| | | |apply stopped_flood|]; reflexivity.
  - destruct at_lookup.
    + eapply (Hok _ _ []); [| | | |reflexivity|];
        [now rewrite app_nil_r|reflexivity..].
    + unfold stopped in *.
      pose proof (handle_generic username0 w tr _ msg (or_introl eq_refl))
        as E.
      cbn [status_for] in *. unfold generic_status in *.
      destruct (contains (text "PRIVACY") (str_upper msg));
        (eapply Hok; [| | | |exact E|]; reflexivity).
  - assert (E0 : stopped username0 (w, tr) at_lookup (OtherException msg)
                 = handle username0 (OtherException msg) (w, tr))
      by now destruct at_lookup.
    pose proof (handle_generic username0 w tr _ msg (or_intror eq_refl))
      as E.
    rewrite <- E0 in E.
    cbn [status_for] in *. unfold generic_status in *.
    destruct (contains (text "PRIVACY") (str_upper msg));
      (eapply Hok; [| | | |exact E|]; reflexivity).
  - exists []. rewrite app_nil_r. destruct at_lookup; repeat split.
  - exists []. rewrite app_nil_r. destruct at_lookup; repeat split.
Qed.

Lemma status_for_not_success (at_lookup : bool) (e : exn) :
  status_for at_lookup e <> Some SUCCESS.
Proof.
  destruct e, at_lookup; cbn [status_for]; unfold generic_status;
    try discriminate;
    match goal with
    | |- context [contains ?a ?b] => destruct (contains a b)
    end; discriminate.
Qed.

Lemma sent_quiet (message0 : option pystr) (user : User) (ev : event) :
  In ev (sent message0 user) ->
  raised ev = None /\ (forall key ans, ev <> EGetEntity key ans).
Proof.
  unfold sent. destruct (truthy message0); cbn [In].
  - intros [<-|[<-|[]]]; split; try reflexivity; discriminate.
  - intros [].
Qed.

Lemma cut_short_raised (username0 : pystr) (message0 : option pystr)
      (pre : list event) (at_lookup : bool) (e : exn) :
  cut_short username0 message0 pre at_lookup e ->
  forall ev, In ev pre ->
    (raised ev = None /\ raised_before_discard ev = None) \/
    (raised ev = Some e /\ raised_before_discard ev = Some (at_lookup, e)).
Proof.
  intros H ev Hin. destruct H; cbn [In] in Hin.
  - destruct Hin.
  - destruct Hin as [<-|[]]. now right.
  - destruct Hin as [<-|[<-|[]]]; [now left|now right].
  - unfold dialled in Hin. rewrite !in_app_iff in Hin. cbn [In] in Hin.
    destruct Hin as [[<-|[]]|[Hin|[<-|[<-|[<-|[]]]]]];
      try (now left); try (now right).
    apply sent_quiet in Hin as [Hq _].
    left. split; [exact Hq|].
    destruct ev as [? []|? ? []|? []|? []| | | |]; try reflexivity;
      discriminate.
Qed.

Lemma print_quiet (prints : list event) (ev : event) :
  forallb is_print prints = true -> In ev prints ->
  raised ev = None /\ raised_before_discard ev = None.
Proof.
  intros H Hin. rewrite forallb_forall in H. specialize (H ev Hin).
  destruct ev; try discriminate. now split.
Qed.

Lemma rang_quiet (message0 : option pystr) (key : Z + pystr) (user : User)
      (x random_id : Z) (phone_call : PhoneCall) (duration : float)
      (answer : result unit) (prints : list event) (ev : event) :
  forallb is_print prints = true ->
  In ev (dialled message0 key user x random_id (Ok phone_call)
         ++ rung duration user phone_call answer ++ prints) ->
  raised_before_discard ev = None.
Proof.
  intros Hp. unfold dialled, rung. rewrite !in_app_iff. cbn [In].
  intros [[[<-|[]]|[Hin|[<-|[<-|[<-|[]]]]]]|[[<-|[<-|[<-|[]]]]|Hin]];
    try reflexivity.
  - apply sent_quiet in Hin as [Hq _].
    destruct ev as [? []|? ? []|? []|? []| | | |]; try reflexivity;
      discriminate.
  - now apply (print_quiet prints).
Qed.

(** The last event of a stopped attempt is the request that raised. *)
Lemma cut_short_end (username0 : pystr) (message0 : option pystr)
      (pre : list event) (at_lookup : bool) (e : exn) :
  cut_short username0 message0 pre at_lookup e ->
  (pre = [] /\ at_lookup = true /\ exists msg, e = ValueError msg) \/
  (exists front ev,
      pre = front ++ [ev] /\
      raised_before_discard ev = Some (at_lookup, e) /\
      forall ev', In ev' front -> raised ev' = None).
Proof.
  intros H. destruct H.
  - left. eauto.
  - right. exists [], (EGetEntity key (Raise e)).
    split; [reflexivity|split; [reflexivity|]]. intros ev' [].
  - right. exists [EGetEntity key (Ok user)],
                  (ESendMessage user msg (Raise e)).
    split; [reflexivity|split; [reflexivity|]].
    intros ev' [<-|[]]. reflexivity.
  - right.
    exists ([EGetEntity key (Ok user)] ++ sent message0 user
            ++ [ERandBits 256 x; ERandBelow (2 ^ 31) random_id]),
      (ERequestCall (make_request user (dh_hash x) random_id) (Raise e)).
    split; [|split; [reflexivity|]].
    + unfold dialled. now rewrite <- !app_assoc.
    + intros ev'. rewrite !in_app_iff. cbn [In].
      intros [[<-|[]]|[Hin|[<-|[<-|[]]]]]; try reflexivity.
      now apply sent_quiet in Hin.
Qed.

Lemma call_appends (username0 : pystr) (duration : float)
      (message0 : option pystr) (w : W) (tr : list event) :
  exists evs,
    logged (call username0 duration message0) (w, tr) = tr ++ evs.
Proof.
  unfold logged.
  destruct (call_run username0 duration message0 w tr)
    as (w' & [(pre & b & e & _ & ->)|
              (key & user & x & rid & pc & answer & _ & _ & _ & ->)]).
  - destruct (stopped_run username0 w' (tr ++ pre) b e)
      as (prints & -> & _).
    exists (pre ++ prints). cbn [snd]. now rewrite app_assoc.
  - unfold finished.
    destruct answer as [[]|e]; [|destruct (is_Exception e)]; cbn [snd];
      eexists; rewrite <- ?app_assoc; reflexivity.
Qed.

(** When a request before the discard raises, the attempt stops right
    there: nothing raised before, and the exception goes to the handlers
    with the trace ending in that request. *)
Lemma call_interrupted (username0 : pystr) (duration : float)
      (message0 : option pystr) (w : W) (tr evs : list event)
      (ev : event) (at_lookup : bool) (e : exn) :
  logged (call username0 duration message0) (w, tr) = tr ++ evs ->
  In ev evs ->
  raised_before_discard ev = Some (at_lookup, e) ->
  exists w' front,
    (forall ev', In ev' front -> raised ev' = None) /\
    call username0 duration message0 (w, tr)
    = stopped username0 (w', tr ++ front ++ [ev]) at_lookup e.
Proof.
  unfold logged. intros Hlog Hin Hev.
  destruct (call_run username0 duration message0 w tr)
    as (w' & [(pre & b & e0 & Hcut & E)|
              (key & user & x & rid & pc & answer & _ & _ & _ & E)]).
  - rewrite E in Hlog.
    destruct (stopped_run username0 w' (tr ++ pre) b e0)
      as (prints & Hs & Hp & _).
    rewrite Hs in Hlog. cbn [snd] in Hlog.
    rewrite <- app_assoc in Hlog. apply app_inv_head in Hlog. subst evs.
    apply in_app_iff in Hin as [Hin|Hin].
    2:{ apply (print_quiet prints ev Hp) in Hin as [_ Hq]. congruence. }
    destruct (cut_short_raised _ _ _ _ _ Hcut ev Hin) as [[_ Hq]|[_ Hq]];
      [congruence|].
    rewrite Hev in Hq. injection Hq as -> ->.
    destruct (cut_short_end _ _ _ _ _ Hcut)
      as [(-> & _)|(front & ev0 & -> & Hev0 & Hfront)]; [destruct Hin|].
    exists w', front.
    assert (ev0 = ev) as ->.
    { apply in_app_iff in Hin as [Hin|[<-|[]]]; [|reflexivity].
      apply Hfront in Hin.
      destruct ev as [? []|? ? []|? []|? []| | | |]; discriminate. }
    split; [exact Hfront|]. rewrite E. reflexivity.
  - exfalso. rewrite E in Hlog. unfold finished in Hlog.
    assert (Hq : raised_before_discard ev = None); [|congruence].
    destruct answer as [[]|e1]; [|destruct (is_Exception e1)];
      cbn [snd] in Hlog; rewrite <- ?app_assoc in Hlog;
      apply app_inv_head in Hlog; subst evs.
    + eapply rang_quiet; [|exact Hin]. reflexivity.
    + eapply rang_quiet; [|exact Hin]. reflexivity.
    + apply (rang_quiet message0 key user x rid pc duration (Raise e1)
                          [] ev eq_refl).
      rewrite app_nil_r. exact Hin.
Qed.

End CallFacts.

(** C4: on the success path the call routine does its steps in this order:
    it resolves the target entity, then (only if a message is set) sends the
    message, then draws the Diffie-Hellman exponent and computes the hash of
    the public value, then invokes the request-call procedure with that
    hash, then sleeps for the ring duration, then invokes the discard-call
    procedure. *)
Theorem call_success_order {RT : PyRuntime} {W : Type} {Env : Environment W}
        (username0 : pystr) (duration : float) (message0 : option pystr)
        (w : W) (tr : list event) (r : CallResult) :
  returned (call username0 duration message0) (w, tr) = Ok r ->
  status r = SUCCESS ->
  exists key user x random_id phone_call answer,
    lookup_key (normalize username0) = Some key /\
    0 <= x < 2 ^ 256 /\
    logged (call username0 duration message0) (w, tr)
    = tr ++ [EGetEntity key (Ok user)]
         ++ match truthy message0 with
            | Some msg => [ESendMessage user msg (Ok tt); ESleep 0.3%float]
            | None => []
            end
         ++ [ERandBits 256 x;
             ERandBelow (2 ^ 31) random_id;
             ERequestCall (make_request user (dh_hash x) random_id)
                          (Ok phone_call);
             EPrint (text "   📞 Звоню " ++ user_display user ++ text "...");
             ESleep duration;
             EDiscardCall (make_discard (phone_call_id phone_call)
                                        (phone_call_access_hash phone_call))
                          answer;
             EPrint ((text " ✅ (" ++ format_1f duration ++ text "с)")
                     ++ [10])].
Proof.
  intros Hret Hst. unfold returned, logged in *.
  destruct (call_run username0 duration message0 w tr)
    as (w' & [(pre & b & e & Hcut & E)|
              (key & user & x & rid & pc & answer & Hkey & Hx & _ & E)]).
  - exfalso. rewrite E in Hret.
    destruct (stopped_run username0 w' (tr ++ pre) b e)
      as (prints & _ & _ & Hcase).
    destruct (status_for b e) as [st|] eqn:Es.
    + destruct Hcase as (r' & Hr' & Hst' & _).
      rewrite Hr' in Hret. injection Hret as <-.
      apply (status_for_not_success b e). congruence.
    + destruct Hcase as [Hr' _]. congruence.
  - exists key, user, x, rid, pc, answer.
    split; [exact Hkey|split; [exact Hx|]].
    rewrite E in *. unfold finished, dialled, rung, sent in *.
    destruct answer as [[]|e]; [|destruct (is_Exception e)];
      cbn [fst snd] in *; try discriminate;
      rewrite <- ?app_assoc; reflexivity.
Qed.

Lemma call_success_order_witness :
  exists key user x random_id phone_call answer,
    lookup_key (RT := ascii_runtime) (normalize bob_line) = Some key /\
    0 <= x < 2 ^ 256 /\
    logged (call (RT := ascii_runtime) (Env := fixed_env)
                 bob_line 5.0%float (Some (text "hi"))) (friendly, [])
    = [] ++ [EGetEntity key (Ok user)]
         ++ match truthy (Some (text "hi")) with
            | Some msg => [ESendMessage user msg (Ok tt); ESleep 0.3%float]
            | None => []
            end
         ++ [ERandBits 256 x;
             ERandBelow (2 ^ 31) random_id;
             ERequestCall (make_request user (dh_hash x) random_id)
                          (Ok phone_call);
             EPrint (text "   📞 Звоню " ++ user_display user ++ text "...");
             ESleep 5.0%float;
             EDiscardCall (make_discard (phone_call_id phone_call)
                                        (phone_call_access_hash phone_call))
                          answer;
             EPrint ((text " ✅ ("
                      ++ format_1f 5.0%float
                      ++ text "с)") ++ [10])].
Proof.
  apply (call_success_order (RT := ascii_runtime) (Env := fixed_env)
           bob_line 5.0%float (Some (text "hi")) friendly []
           (mkCallResult bob_line SUCCESS
              (text "Звонок " ++ format_1f 5.0%float ++ text "с"))).
  - vm_compute. reflexivity.
  - reflexivity.
Defined.

Section MoreFacts.
Context {RT : PyRuntime} {W : Type} {Env : Environment W}.

Lemma status_for_none (at_lookup : bool) (e : exn) :
  status_for at_lookup e = None <-> is_Exception e = false.
Proof. destruct e; cbn; split; intros; congruence. Qed.


Lemma finished_logged (username0 : pystr) (duration : float) (w' : W)
      (tr' : list event) (answer : result unit) :
  exists prints,
    snd (snd (finished username0 duration w' tr' answer)) = tr' ++ prints
    /\ forallb is_print prints = true.
Proof.
  unfold finished.
  destruct answer as [[]|e]; [|destruct (is_Exception e)]; cbn [snd].
  - eexists. split; reflexivity.
  - eexists. split; reflexivity.
  - exists []. now rewrite app_nil_r.
Qed.
End MoreFacts.


Section TextFacts.

Lemma startswith_app (p rest : pystr) : startswith p (p ++ rest) = true.
Proof.
  induction p as [|c p IH]; [reflexivity|].
  cbn [app startswith]. now rewrite Z.eqb_refl, IH.
Qed.

Lemma contains_app (needle before rest : pystr) :
  contains needle (before ++ needle ++ rest) = true.
Proof.
  induction before as [|c before IH]; cbn [app].
  - destruct (needle ++ rest) eqn:E; cbn [contains];
      rewrite <- E, startswith_app; reflexivity.
  - cbn [contains]. rewrite IH. apply orb_true_r.
Qed.

End TextFacts.

(** C7 (as amended): when the lookup, the message or the call request
    raises a [FloodWaitError], the returned [CallResult] has FLOOD status
    and its message contains the wait seconds of the exception; the request
    that raised is the last one of the attempt, followed only by the printed
    line (no retry, no sleep), and no earlier request raised.  In a batch,
    whatever the result of a target that is not the last, the loop sleeps
    the inter-call delay and goes on with the next target. *)
Theorem flood_wait_reported {RT : PyRuntime} {W : Type} {Env : Environment W}
        (username0 : pystr) (duration : float) (message0 : option pystr)
        (w : W) (tr : list event) :
  (exists evs,
      logged (call username0 duration message0) (w, tr) = tr ++ evs /\
      forall ev at_lookup seconds,
        In ev evs ->
        raised_before_discard ev = Some (at_lookup, FloodWaitError seconds) ->
        returned (call username0 duration message0) (w, tr)
        = Ok (mkCallResult username0 FLOOD
                (text "Подождите " ++ str_int seconds ++ text "с")) /\
        contains (str_int seconds)
                 (text "Подождите " ++ str_int seconds ++ text "с") = true /\
        exists front,
          evs = front ++ [ev; EPrint ((text "   ⏳ Flood wait: "
                                       ++ str_int seconds ++ text "с")
                                      ++ [10])] /\
          forall ev', In ev' front -> raised ev' = None)
  /\
  (forall i total rest delay results r w1 tr1,
      call username0 duration None
           (w, tr ++ [EPrint (progress_line i total username0 ++ [10])])
      = (Ok r, (w1, tr1)) ->
      i < total ->
      call_multiple_loop i total (username0 :: rest) duration delay results
                         (w, tr)
      = call_multiple_loop (i + 1) total rest duration delay (results ++ [r])
                           (w1, tr1 ++ [ESleep delay])).
Proof.
  split.
  - destruct (call_appends username0 duration message0 w tr) as (evs & Hlog).
    exists evs. split; [exact Hlog|].
    intros ev b seconds Hin Hev.
    destruct (call_interrupted _ _ _ _ _ _ _ _ _ Hlog Hin Hev)
      as (w' & front & Hfront & E).
    unfold returned, logged in *. rewrite E in *.
    rewrite stopped_flood in *. cbn [fst snd] in *.
    split; [reflexivity|split].
    + apply contains_app.
    + exists front. split; [|exact Hfront].
      rewrite <- (app_assoc tr (front ++ [ev])) in Hlog.
      apply app_inv_head in Hlog.
      rewrite <- (app_assoc front [ev]) in Hlog.
      exact (eq_sym Hlog).
  - intros i total rest delay results r w1 tr1 Hcall Hlt.
    cbn [call_multiple_loop].
    rewrite bind_run. unfold print at 1. rewrite emit_run.
    rewrite bind_run, Hcall.
    rewrite bind_run.
    destruct (Z.ltb_spec i total); [|lia].
    unfold sleep. rewrite emit_run. reflexivity.
Qed.

(** C8 (as amended): when a call attempt fails with a generic exception
    (one below [Exception] that is mapped to FAILED), the message of the
    returned [CallResult] is the whole exception message; only the line
    printed on the console holds the message cut to its first 50
    characters. *)
Theorem generic_failure_message {RT : PyRuntime} {W : Type}
        {Env : Environment W}
        (username0 : pystr) (duration : float) (message0 : option pystr)
        (w : W) (tr : list event) :
  exists evs,
    logged (call username0 duration message0) (w, tr) = tr ++ evs /\
    forall ev at_lookup e error_msg,
      In ev evs ->
      raised_before_discard ev = Some (at_lookup, e) ->
      e = OtherException error_msg \/
      (e = ValueError error_msg /\ at_lookup = false) ->
      contains (text "PRIVACY") (str_upper error_msg) = false ->
      returned (call username0 duration message0) (w, tr)
      = Ok (mkCallResult username0 FAILED error_msg) /\
      exists front,
        evs = front ++ [ev; EPrint ((text "   ❌ " ++ username0
                                     ++ text " — ошибка: "
                                     ++ firstn 50 error_msg) ++ [10])].
Proof.
  destruct (call_appends username0 duration message0 w tr) as (evs & Hlog).
  exists evs. split; [exact Hlog|].
  intros ev b e error_msg Hin Hev He Hno.
  destruct (call_interrupted _ _ _ _ _ _ _ _ _ Hlog Hin Hev)
    as (w' & front & _ & E).
  assert (Es : stopped username0 (w', tr ++ front ++ [ev]) b e
               = handle username0 e (w', tr ++ front ++ [ev])).
  { destruct He as [->|[-> ->]]; [now destruct b|reflexivity]. }
  assert (Hg : e = ValueError error_msg \/ e = OtherException error_msg)
    by (destruct He as [->|[-> _]]; auto).
  unfold returned, logged in *. rewrite E, Es in *.
  rewrite (handle_generic username0 w' _ e error_msg Hg), Hno in *.
  cbn [fst snd] in *.
  split; [reflexivity|].
  exists front.
  rewrite <- (app_assoc tr (front ++ [ev])) in Hlog.
  apply app_inv_head in Hlog.
  rewrite <- (app_assoc front [ev]) in Hlog.
  exact (eq_sym Hlog).
Qed.


Section StripFacts.

Variable p : char -> bool.




End StripFacts.

Section NormalizeFacts.

Context {RT : PyRuntime} {W : Type} {Env : Environment W}.



End NormalizeFacts.


(** C5: [_generate_dh_params] draws one 256-bit exponent [x], computes
    [g_a = 3 ^ x mod DH_PRIME] with the 2048-bit constant [DH_PRIME], encodes
    [g_a] on 256 big-endian bytes (which never overflows) and returns the
    pair of the SHA-256 digest of these bytes and [g_a]. *)
Theorem generate_dh_params_spec {W : Type} {Env : Environment W}
        (w : W) (tr : list event) :
  exists x g_a_bytes,
    x = fst (entropy w) mod 2 ^ 256 /\
    0 <= x < 2 ^ 256 /\
    2 ^ 2047 <= DH_PRIME < 2 ^ 2048 /\
    to_bytes_big (3 ^ x mod DH_PRIME) 256 = Some g_a_bytes /\
    length g_a_bytes = 256%nat /\
    be_value g_a_bytes = 3 ^ x mod DH_PRIME /\
    length (Sha256.digest g_a_bytes) = 32%nat /\
    _generate_dh_params (w, tr)
    = (Ok (Sha256.digest g_a_bytes, 3 ^ x mod DH_PRIME),
       (snd (entropy w), tr ++ [ERandBits 256 x])).
Proof.
  exists (fst (entropy w) mod 2 ^ 256).
  exists (be_bytes 256 (dh_public (fst (entropy w) mod 2 ^ 256))).
  rewrite dh_params_run.
  generalize (fst (entropy w) mod 2 ^ 256) (draw_range (fst (entropy w))
                                              (2 ^ 256) eq_refl).
  intros x Hx.
  change (3 ^ x mod DH_PRIME) with (dh_public x).
  destruct (to_bytes_big_fits (dh_public x) 256 (dh_public_range x))
    as (Hb & Hl & Hv).
  split; [reflexivity|]. split; [exact Hx|].
  split; [exact DH_PRIME_bits|].
  split; [exact Hb|]. split; [exact Hl|]. split; [exact Hv|].
  split; [apply digest_length|].
  unfold dh_hash. reflexivity.
Qed.

Section BatchFacts.

Context {RT : PyRuntime} {W : Type} {Env : Environment W}.

Lemma messages_sent_app (a b : list event) :
  messages_sent (a ++ b) = messages_sent a ++ messages_sent b.
Proof. unfold messages_sent. apply flat_map_app. Qed.

Lemma messages_sent_prints (prints : list event) :
  forallb is_print prints = true -> messages_sent prints = [].
Proof.
  induction prints as [|ev prints IH]; [reflexivity|].
  cbn [forallb]. intros H. apply andb_prop in H as [Hev Hp].
  destruct ev; try discriminate. cbn. now apply IH.
Qed.

(** A call made without a message sends none. *)
Lemma call_without_message (username0 : pystr) (duration : float)
      (w : W) (tr : list event) :
  messages_sent (logged (call username0 duration None) (w, tr))
  = messages_sent tr.
Proof.
  unfold logged.
  destruct (call_run username0 duration None w tr)
    as (w' & [(pre & b & e & Hcut & ->)|
              (key & user & x & rid & pc & answer & _ & _ & _ & ->)]).
  - destruct (stopped_run username0 w' (tr ++ pre) b e)
      as (prints & -> & Hp & _).
    cbn [snd]. rewrite !messages_sent_app, (messages_sent_prints _ Hp).
    inversion Hcut; subst; try discriminate; cbn;
      now rewrite ?app_nil_r.
  - destruct (finished_logged username0 duration w'
                (tr ++ dialled None key user x rid (Ok pc)
                    ++ rung duration user pc answer) answer)
      as (prints & -> & Hp).
    rewrite !messages_sent_app, (messages_sent_prints _ Hp).
    cbn. now rewrite ?app_nil_r.
Qed.

Lemma call_multiple_loop_sends_nothing (rest : list pystr) :
  forall i total duration delay results w tr,
    messages_sent
      (logged (call_multiple_loop i total rest duration delay results)
              (w, tr))
    = messages_sent tr.
Proof.
  induction rest as [|username0 rest IH];
    intros i total duration delay results w tr; [reflexivity|].
  unfold logged in *. cbn [call_multiple_loop].
  rewrite bind_run. unfold print at 1. rewrite emit_run.
  rewrite bind_run.
  pose proof (call_without_message username0 duration w
                (tr ++ [EPrint (progress_line i total username0 ++ [10])]))
    as Hc.
  unfold logged in Hc. rewrite messages_sent_app in Hc.
  cbn [messages_sent flat_map app] in Hc. rewrite app_nil_r in Hc.
  destruct (call username0 duration None _) as [[r|e] [w1 tr1]];
    cbn [snd] in *; [|exact Hc].
  rewrite bind_run.
  destruct (i <? total).
  - unfold sleep. rewrite emit_run. rewrite IH.
    rewrite messages_sent_app. cbn. now rewrite app_nil_r.
  - unfold ret. now rewrite IH.
Qed.

(** Whatever the settings, a line that names two targets or more sends
    no message. *)
Lemma batch_sends_nothing (st : settings) (user_input : pystr)
      (first second : pystr) (more : list pystr) (w : W)
      (tr : list event) :
  parse_usernames user_input = first :: second :: more ->
  messages_sent (logged (place_calls st user_input) (w, tr))
  = messages_sent tr.
Proof.
  intros Hparse. unfold place_calls. rewrite Hparse.
  unfold logged. rewrite bind_run. unfold print at 1. rewrite emit_run.
  rewrite bind_run. unfold call_multiple.
  pose proof (call_multiple_loop_sends_nothing
                (first :: second :: more) 1
                (Z.of_nat (length (first :: second :: more)))
                (ring_duration st) 1.0%float [] w
                (tr ++ [EPrint (([10] ++ text "📞 Звоню "
                   ++ str_int (Z.of_nat (length (first :: second :: more)))
                   ++ text " пользователям...") ++ [10])])) as Hl.
  unfold logged in Hl. rewrite messages_sent_app in Hl.
  cbn [messages_sent flat_map app] in Hl. rewrite app_nil_r in Hl.
  destruct (call_multiple_loop _ _ _ _ _ _ _) as [[rs|e] [w1 tr1]];
    cbn [snd] in *; [|exact Hl].
  unfold print. rewrite emit_run. cbn [snd].
  rewrite messages_sent_app. cbn. now rewrite app_nil_r.
Qed.

End BatchFacts.

(** ** The model at concrete inputs *)


(** C7 (as stated) fails: a [FloodWaitError] raised by the discard request
    is raised during the call attempt, and the result is SUCCESS. *)
Lemma flood_at_discard_gives_success :
  In (EDiscardCall (make_discard 77 4242) (Raise (FloodWaitError 30)))
     (snd (snd (run_call (answering_discard (Raise (FloodWaitError 30)))
                         None)))
  /\ fst (run_call (answering_discard (Raise (FloodWaitError 30))) None)
     = Ok (mkCallResult bob_line SUCCESS (text "Звонок 5.0с"))
  /\ SUCCESS <> FLOOD.
Proof.
  split; [|split; [vm_compute; reflexivity|discriminate]].
  vm_compute. do 6 right. left. reflexivity.
Qed.

(** C8 (as stated) fails: the message of the result is the exception
    message in full, 72 characters here, not its first 50. *)
Lemma failure_message_not_truncated :
  fst (run_call (answering_request (Raise (OtherException long_error_text)))
                None)
  = Ok (mkCallResult bob_line FAILED long_error_text)
  /\ length long_error_text = 72%nat
  /\ firstn 50 long_error_text <> long_error_text.
Proof.
  split; [vm_compute; reflexivity|].
  split; [vm_compute; reflexivity|].
  vm_compute. discriminate.
Qed.


(** C1 at the failing input: with a pre-call message set by [/msg], a line
    with one target sends the message before the call, and a line with two
    targets sends nothing; the configured ring duration is used in both. *)
Theorem batch_drops_pre_message :
  messages_sent (session [text "/time 10"; text "/msg hello"; text "@alice"])
  = [text "hello"]
  /\ sleeps (session [text "/time 10"; text "/msg hello"; text "@alice"])
     = [0.3%float; 10.0%float]
  /\ messages_sent
       (session [text "/time 10"; text "/msg hello"; text "@alice @bob"])
     = []
  /\ sleeps (session [text "/time 10"; text "/msg hello"; text "@alice @bob"])
     = [10.0%float; 1.0%float; 10.0%float].
Proof. repeat split; vm_compute; reflexivity. Qed.

(** A flood wait at the call request, and the SHA-256 of a short text. *)
Example flood_at_request :
  fst (run_call (answering_request (Raise (FloodWaitError 30))) None)
  = Ok (mkCallResult bob_line FLOOD (text "Подождите 30с")).
Proof. vm_compute. reflexivity. Qed.

Example sha256_abc :
  map Z_of_byte (Sha256.digest (list_byte_of_string "abc"))
  = [0xba; 0x78; 0x16; 0xbf; 0x8f; 0x01; 0xcf; 0xea;
     0x41; 0x41; 0x40; 0xde; 0x5d; 0xae; 0x22; 0x23;
     0xb0; 0x03; 0x61; 0xa3; 0x96; 0x17; 0x7a; 0x9c;
     0xb4; 0x10; 0xff; 0x61; 0xf2; 0x00; 0x15; 0xad].
Proof. vm_compute. reflexivity. Qed.

Example format_1f_samples :
  map format_1f [5.0; 0.25; 0.35; 9.96]%float
  = [text "5.0"; text "0.2"; text "0.3"; text "10.0"].
Proof. vm_compute. reflexivity. Qed.

(** ** Batches, lines and commands *)

Section BatchRunFacts.

Context {RT : PyRuntime} {W : Type} {Env : Environment W}.

Lemma sleeps_app (a b : list event) : sleeps (a ++ b) = sleeps a ++ sleeps b.
Proof. unfold sleeps. apply flat_map_app. Qed.

Lemma sleeps_prints (prints : list event) :
  forallb is_print prints = true -> sleeps prints = [].
Proof.
  induction prints as [|ev prints IH]; [reflexivity|].
  cbn [forallb]. intros H. apply andb_prop in H as [Hev Hp].
  destruct ev; try discriminate. cbn. now apply IH.
Qed.

(** What a call made without a message gives back: the given identifier,
    and one sleep of the ring duration exactly when the status is SUCCESS. *)
Lemma call_without_message_run (username0 : pystr) (duration : float)
      (w : W) (tr : list event) (r : CallResult) (w' : W)
      (tr' : list event) :
  call username0 duration None (w, tr) = (Ok r, (w', tr')) ->
  username r = username0 /\
  exists evs,
    tr' = tr ++ evs /\
    sleeps evs = match status r with SUCCESS => [duration] | _ => [] end.
Proof.
  intros Hcall.
  destruct (call_run username0 duration None w tr)
    as (w1 & [(pre & b & e & Hcut & E)|
              (key & user & x & rid & pc & answer & _ & _ & _ & E)]).
  - rewrite E in Hcall.
    destruct (stopped_run username0 w1 (tr ++ pre) b e)
      as (prints & Hs & Hp & Hcase).
    destruct (status_for b e) as [st|] eqn:Est.
    2:{ destruct Hcase as [Hr _]. rewrite Hcall in Hr. discriminate. }
    destruct Hcase as (r' & Hr' & Hst & Hu).
    rewrite Hcall in Hr', Hs. cbn [fst snd] in *. injection Hr' as <-.
    injection Hs as -> ->.
    split; [exact Hu|]. exists (pre ++ prints).
    split; [now rewrite app_assoc|].
    rewrite sleeps_app, (sleeps_prints _ Hp), app_nil_r, Hst.
    assert (Hnot : st <> SUCCESS).
    { intros ->. now apply (status_for_not_success b e). }
    assert (Hpre : sleeps pre = []).
    { inversion Hcut; subst; try discriminate; reflexivity. }
    rewrite Hpre. destruct st; try reflexivity. now elim Hnot.
  - rewrite E in Hcall. unfold finished in Hcall.
    assert (Hr : r = mkCallResult username0 SUCCESS
                       (text "Звонок " ++ format_1f duration ++ text "с") /\
                 tr' = (tr ++ dialled None key user x rid (Ok pc)
                           ++ rung duration user pc answer)
                       ++ [EPrint ((text " ✅ (" ++ format_1f duration
                                    ++ text "с)") ++ [10])]).
    { destruct answer as [[]|e]; [|destruct (is_Exception e)];
        try discriminate; injection Hcall as <- _ <-; auto. }
    destruct Hr as [-> ->].
    split; [reflexivity|].
    eexists. split; [rewrite <- !app_assoc; reflexivity|].
    rewrite !sleeps_app. reflexivity.
Qed.

(** An exception that leaves [call] is one that no handler catches. *)
Lemma call_raises_only_base (username0 : pystr) (duration : float)
      (message0 : option pystr) (s : W * list event) (e : exn) :
  returned (call username0 duration message0) s = Raise e ->
  is_Exception e = false.
Proof.
  destruct s as [w tr]. unfold returned.
  destruct (call_run username0 duration message0 w tr)
    as (w1 & [(pre & b & e0 & Hcut & ->)|
              (key & user & x & rid & pc & answer & _ & _ & _ & ->)]).
  - destruct (stopped_run username0 w1 (tr ++ pre) b e0)
      as (prints & _ & _ & Hcase).
    destruct (status_for b e0) as [st|] eqn:Est.
    + destruct Hcase as (r' & -> & _). discriminate.
    + destruct Hcase as [-> _]. intros [= <-].
      now apply status_for_none in Est.
  - unfold finished.
    destruct answer as [[]|e1]; [|destruct (is_Exception e1) eqn:Ee];
      cbn [fst]; try discriminate.
    intros [= <-]. exact Ee.
Qed.

Lemma call_multiple_loop_run (rest : list pystr) :
  forall i total duration delay results w tr,
    total = i + Z.of_nat (length rest) - 1 ->
    match call_multiple_loop i total rest duration delay results (w, tr) with
    | (Ok rs, (w', tr')) =>
      exists rs' evs,
        rs = results ++ rs' /\ map username rs' = rest /\
        tr' = tr ++ evs /\
        sleeps evs = batch_sleeps duration delay (map status rs')
    | (Raise e, _) => is_Exception e = false
    end.
Proof.
  induction rest as [|username0 rest IH];
    intros i total duration delay results w tr Htotal.
  - cbn [call_multiple_loop]. unfold ret.
    exists [], []. now rewrite !app_nil_r.
  - cbn [call_multiple_loop].
    rewrite bind_run. unfold print at 1. rewrite emit_run.
    rewrite bind_run.
    set (tr0 := tr ++ [EPrint (progress_line i total username0 ++ [10])]).
    destruct (call username0 duration None (w, tr0)) as [[r|e] [w1 tr1]] eqn:Ec.
    2:{ apply (call_raises_only_base username0 duration None (w, tr0)).
        unfold returned. now rewrite Ec. }
    destruct (call_without_message_run _ _ _ _ _ _ _ Ec)
      as (Hu & cevs & -> & Hsl).
    rewrite bind_run.
    cbn [length] in Htotal.
    destruct rest as [|next rest'].
    + destruct (Z.ltb_spec i total); [cbn [length] in Htotal; lia|].
      unfold ret at 1. cbn [call_multiple_loop]. unfold ret.
      exists [r], ([EPrint (progress_line i total username0 ++ [10])] ++ cevs).
      split; [reflexivity|]. split; [cbn; now rewrite Hu|].
      split; [unfold tr0; now rewrite <- !app_assoc|].
      rewrite sleeps_app. cbn [batch_sleeps map]. rewrite Hsl.
      cbn. now rewrite app_nil_r.
    + destruct (Z.ltb_spec i total); [|cbn [length] in Htotal; lia].
      unfold sleep. rewrite emit_run.
      specialize (IH (i + 1) total duration delay (results ++ [r]) w1
                     ((tr0 ++ cevs) ++ [ESleep delay])).
      destruct (call_multiple_loop (i + 1) total (next :: rest') duration
                  delay (results ++ [r]) (w1, (tr0 ++ cevs) ++ [ESleep delay]))
        as [[rs|e] [w2 tr2]].
      2:{ apply IH. cbn [length] in *. lia. }
      destruct IH as (rs' & evs & -> & Hmap & -> & Hsl');
        [cbn [length] in *; lia|].
      exists (r :: rs'),
        ([EPrint (progress_line i total username0 ++ [10])] ++ cevs
         ++ [ESleep delay] ++ evs).
      split; [now rewrite <- app_assoc|].
      split; [cbn [map]; now rewrite Hu, Hmap|].
      split; [unfold tr0; now rewrite <- !app_assoc|].
      rewrite !sleeps_app, Hsl, Hsl'.
      destruct rs' as [|r' rs'']; [discriminate Hmap|].
      cbn [batch_sleeps map]. cbn [sleeps flat_map app].
      reflexivity.
Qed.

End BatchRunFacts.

(** X1: when [call_multiple] returns, its results are those of the given
    usernames, one each and in order, and the batch has slept the ring
    duration once for every call that rang and the delay once between two
    successive targets, with no delay after the last. *)
Theorem call_multiple_results {RT : PyRuntime} {W : Type}
        {Env : Environment W}
        (usernames : list pystr) (duration delay : float)
        (w : W) (tr : list event) (results : list CallResult) :
  returned (call_multiple usernames duration delay) (w, tr) = Ok results ->
  map username results = usernames /\
  exists evs,
    logged (call_multiple usernames duration delay) (w, tr) = tr ++ evs /\
    sleeps evs = batch_sleeps duration delay (map status results).
Proof.
  unfold returned, logged, call_multiple.
  pose proof (call_multiple_loop_run usernames 1
                (Z.of_nat (length usernames)) duration delay [] w tr) as H.
  destruct (call_multiple_loop 1 (Z.of_nat (length usernames)) usernames
              duration delay [] (w, tr)) as [[rs|e] [w' tr']];
    cbn [fst snd]; [|discriminate].
  intros [= <-].
  destruct H as (rs' & evs & -> & Hmap & -> & Hsl); [lia|].
  cbn [app]. split; [exact Hmap|]. exists evs. auto.
Qed.


(** X3: [call_multiple] makes no [send_message] request. *)
Theorem call_multiple_sends_nothing {RT : PyRuntime} {W : Type}
        {Env : Environment W}
        (usernames : list pystr) (duration delay : float)
        (w : W) (tr : list event) :
  messages_sent (logged (call_multiple usernames duration delay) (w, tr))
  = messages_sent tr.
Proof. apply call_multiple_loop_sends_nothing. Qed.

Section ParseFacts.

Context {RT : PyRuntime}.

Lemma words_split (a : pystr) :
  forall cur c b,
    isspace_char c = true ->
    words cur (a ++ c :: b) = words cur a ++ words [] b.
Proof.
  induction a as [|x a IH]; intros cur c b Hc.
  - cbn [app words]. rewrite Hc. now destruct cur.
  - cbn [app words]. destruct (isspace_char x).
    + destruct cur; [now apply IH|].
      cbn [app]. f_equal. now apply IH.
    + now apply IH.
Qed.

Lemma words_run (t : pystr) :
  forall cur,
    forallb (fun c => negb (isspace_char c)) t = true ->
    words cur t = match rev cur ++ t with
                  | [] => []
                  | run => [run]
                  end.
Proof.
  induction t as [|x t IH]; intros cur Ht.
  - cbn [words]. rewrite app_nil_r.
    destruct cur as [|y cur]; [reflexivity|].
    cbn [rev]. now destruct (rev cur).
  - cbn [forallb] in Ht. apply andb_prop in Ht as [Hx Ht].
    cbn [words]. apply negb_true_iff in Hx. rewrite Hx.
    rewrite (IH (x :: cur) Ht). cbn [rev]. now rewrite <- app_assoc.
Qed.

Lemma replace_comma_app (a b : pystr) :
  replace_char 44 32 (a ++ b) = replace_char 44 32 a ++ replace_char 44 32 b.
Proof. unfold replace_char. apply map_app. Qed.

Lemma replace_comma_piece (t : pystr) :
  forallb (fun c => negb (separator c)) t = true ->
  replace_char 44 32 t = t /\
  forallb (fun c => negb (isspace_char c)) t = true.
Proof.
  induction t as [|x t IH]; intros H; [now split|].
  cbn [forallb] in H. apply andb_prop in H as [Hx Ht].
  destruct (IH Ht) as [E F].
  unfold separator in Hx. apply negb_true_iff, orb_false_iff in Hx as [Hs Hc].
  unfold replace_char in *. cbn [map forallb]. rewrite Hc, E, Hs, F.
  now split.
Qed.

Lemma strip_piece (t : pystr) :
  t <> [] -> forallb (fun c => negb (isspace_char c)) t = true ->
  strip t = t.
Proof.
  intros Hne Ht.
  destruct (exists_last Hne) as (front & b & ->).
  rewrite forallb_forall in Ht.
  apply strip_by_keep.
  - apply negb_true_iff, Ht.
    destruct front; cbn; [now left|now left].
  - apply negb_true_iff, Ht, in_app_iff. right. now left.
Qed.

End ParseFacts.

Section ParseFacts2.

Lemma parse_usernames_piece (t : pystr) :
  piece t -> parse_usernames t = [t].
Proof.
  intros [Hne Ht]. unfold parse_usernames, split_ws.
  destruct (replace_comma_piece t Ht) as [-> Hs].
  rewrite (words_run t [] Hs). cbn [rev app].
  destruct t as [|x t]; [now elim Hne|].
  cbn [collect]. rewrite (strip_piece (x :: t) Hne Hs). reflexivity.
Qed.

Lemma collect_app (l1 l2 : list pystr) :
  collect (l1 ++ l2) = collect l1 ++ collect l2.
Proof.
  induction l1 as [|p l1 IH]; [reflexivity|].
  cbn [app collect]. destruct (strip p); rewrite IH; reflexivity.
Qed.

Lemma parse_usernames_cut (a b : pystr) (c : char) :
  separator c = true ->
  parse_usernames (a ++ c :: b) = parse_usernames a ++ parse_usernames b.
Proof.
  intros Hc. unfold parse_usernames, split_ws.
  rewrite replace_comma_app.
  change (replace_char 44 32 (c :: b))
    with ((if c =? 44 then 32 else c) :: replace_char 44 32 b).
  rewrite words_split; [apply collect_app|].
  unfold separator in Hc. destruct (Z.eqb_spec c 44); [reflexivity|].
  now rewrite orb_false_r in Hc.
Qed.

Lemma parse_usernames_separators (s : pystr) :
  forallb separator s = true -> parse_usernames s = [].
Proof.
  induction s as [|c s IH]; intros H; [reflexivity|].
  cbn [forallb] in H. apply andb_prop in H as [Hc Hs].
  change (c :: s) with ([] ++ c :: s).
  rewrite (parse_usernames_cut [] s c Hc), (IH Hs). reflexivity.
Qed.

End ParseFacts2.

(** X4: the targets of a line are its pieces between separators: the
    empty line has none, a non-empty text without whitespace or comma is
    its own single target, and the targets of two texts joined by a
    whitespace character or a comma are those of the first followed by
    those of the second. *)
Theorem parse_usernames_splits (a b t : pystr) (c : char) :
  parse_usernames [] = [] /\
  (piece t -> parse_usernames t = [t]) /\
  (separator c = true ->
   parse_usernames (a ++ c :: b) = parse_usernames a ++ parse_usernames b).
Proof.
  split; [reflexivity|split].
  - apply parse_usernames_piece.
  - apply parse_usernames_cut.
Qed.

(** X5: a line that holds nothing but commas and whitespace places no
    call: nothing is requested or printed. *)
Theorem separators_place_no_call {RT : PyRuntime} {W : Type}
        {Env : Environment W}
        (st : settings) (user_input : pystr) (s : W * list event) :
  forallb separator user_input = true ->
  place_calls st user_input s = (Ok tt, s).
Proof.
  intros H. unfold place_calls.
  now rewrite (parse_usernames_separators user_input H).
Qed.

Lemma separators_place_no_call_witness :
  place_calls (RT := ascii_runtime) (Env := fixed_env)
              {| ring_duration := 5.0%float; pre_message := None |}
              (text ", ,,") (friendly, [])
  = (Ok tt, (friendly, [])).
Proof.
  apply (separators_place_no_call (RT := ascii_runtime) (Env := fixed_env)).
  reflexivity.
Defined.

Section CommandFacts.

Context {RT : PyRuntime} {W : Type} {Env : Environment W}.

Lemma str_eqb_eq (a b : pystr) : str_eqb a b = true -> a = b.
Proof.
  revert b. induction a as [|x a IH]; intros [|y b] H; try discriminate.
  - reflexivity.
  - cbn [str_eqb] in H. apply andb_prop in H as [Hx Ha].
    apply Z.eqb_eq in Hx. now rewrite Hx, (IH b Ha).
Qed.

Ltac run_prints :=
  repeat first [rewrite bind_run | rewrite emit_run
               | progress unfold print, print_help, ret];
  cbv beta iota;
  eexists _, _; split; [rewrite <- ?app_assoc; reflexivity|];
  split; [reflexivity|].

(** What a command does: it prints, gives back settings or stops, and
    leaves the world alone. *)
Lemma command_run (me : Account) (st : settings) (user_input : pystr)
      (w : W) (tr : list event) :
  exists prints fl,
    command me st user_input (w, tr) = (Ok fl, (w, tr ++ prints)) /\
    forallb is_print prints = true /\
    match fl with
    | Stop => quits user_input = true
    | Next st' =>
      quits user_input = false /\
      (ring_duration st' = ring_duration st \/
       (command_word user_input = text "/time" /\
        float_parse (command_arg user_input) = Some (ring_duration st'))) /\
      (pre_message st' = pre_message st \/
       (command_word user_input = text "/msg" /\
        ((str_eqb (str_lower (command_arg user_input)) (text "off") = true /\
          pre_message st' = None) \/
         (str_eqb (str_lower (command_arg user_input)) (text "off") = false /\
          command_arg user_input <> [] /\
          pre_message st' = Some (command_arg user_input)))))
    end.
Proof.
  unfold command, quits.
  fold (command_word user_input). fold (command_arg user_input).
  destruct (existsb (str_eqb (command_word user_input)) _) eqn:Hq;
    [run_prints; reflexivity|].
  destruct (str_eqb (command_word user_input) (text "/help"));
    [run_prints; auto|].
  destruct (str_eqb (command_word user_input) (text "/me"));
    [run_prints; auto|].
  destruct (str_eqb (command_word user_input) (text "/time")) eqn:Ht.
  { apply str_eqb_eq in Ht.
    destruct (command_arg user_input) as [|c arg] eqn:Ea;
      [run_prints; auto|].
    destruct (float_parse (c :: arg)) as [d|] eqn:Ef;
      run_prints; cbn [ring_duration pre_message]; auto. }
  destruct (str_eqb (command_word user_input) (text "/msg")) eqn:Hm.
  { apply str_eqb_eq in Hm.
    destruct (str_eqb (str_lower (command_arg user_input)) (text "off"))
      eqn:Eo.
    { run_prints. cbn [ring_duration pre_message].
      split; [reflexivity|]. split; [now left|]. right.
      split; [exact Hm|]. left. now split. }
    destruct (command_arg user_input) as [|c arg] eqn:Ea.
    - destruct (truthy (pre_message st)); run_prints; auto.
    - run_prints. cbn [ring_duration pre_message].
      split; [reflexivity|]. split; [now left|]. right.
      split; [exact Hm|]. right. split; [reflexivity|].
      split; [discriminate|reflexivity]. }
  destruct (str_eqb (command_word user_input) (text "/status"));
    run_prints; auto.
Qed.

End CommandFacts.

Section LoopFacts.

Context {RT : PyRuntime} {W : Type} {Env : Environment W}.

Lemma print_run (text0 : pystr) (w : W) (tr : list event) :
  print text0 (w, tr) = (Ok tt, (w, tr ++ [EPrint (text0 ++ [10])])).
Proof. reflexivity. Qed.

Lemma print_no_newline_run (text0 : pystr) (w : W) (tr : list event) :
  print_no_newline text0 (w, tr) = (Ok tt, (w, tr ++ [EPrint text0])).
Proof. reflexivity. Qed.




End LoopFacts.

(** X6: a slash command only prints: it makes no request, leaves the
    world as it is and raises nothing. *)
Theorem command_only_prints {RT : PyRuntime} {W : Type}
        {Env : Environment W}
        (me : Account) (st : settings) (user_input : pystr)
        (w : W) (tr : list event) :
  exists fl prints,
    command me st user_input (w, tr) = (Ok fl, (w, tr ++ prints)) /\
    forallb is_print prints = true.
Proof.
  destruct (command_run me st user_input w tr) as (prints & fl & E & Hp & _).
  now exists fl, prints.
Qed.

(** X7: a command changes the ring duration only when it is [/time] with
    an argument that [float] accepts, and the pre-call message only when it
    is [/msg], to nothing for the argument [off] and to the argument
    otherwise. *)
Theorem command_settings {RT : PyRuntime} {W : Type} {Env : Environment W}
        (me : Account) (st st' : settings) (user_input : pystr)
        (s : W * list event) :
  returned (command me st user_input) s = Ok (Next st') ->
  (ring_duration st' = ring_duration st \/
   (command_word user_input = text "/time" /\
    float_parse (command_arg user_input) = Some (ring_duration st'))) /\
  (pre_message st' = pre_message st \/
   (command_word user_input = text "/msg" /\
    ((str_eqb (str_lower (command_arg user_input)) (text "off") = true /\
      pre_message st' = None) \/
     (str_eqb (str_lower (command_arg user_input)) (text "off") = false /\
      command_arg user_input <> [] /\
      pre_message st' = Some (command_arg user_input))))).
Proof.
  destruct s as [w tr]. unfold returned.
  destruct (command_run me st user_input w tr) as (prints & fl & -> & _ & H).
  cbn [fst]. intros [= ->]. now destruct H as (_ & H1 & H2).
Qed.

(** X8: after a line whose command word is [/quit], [/exit] or [/q] the
    loop ends normally and reads no later line. *)
Theorem quit_ends_session {RT : PyRuntime} {W : Type} {Env : Environment W}
        (me : Account) (st : settings) (raw : pystr)
        (later later' : list console) (s : W * list event) :
  startswith (text "/") (strip raw) = true ->
  quits (strip raw) = true ->
  interactive_loop me (Line raw :: later) st s
  = interactive_loop me (Line raw :: later') st s /\
  returned (interactive_loop me (Line raw :: later) st) s = Ok tt.
Proof.
  intros Hslash Hquit. destruct s as [w tr]. unfold returned.
  cbn [interactive_loop].
  rewrite !bind_run, !print_run, !bind_run, !print_no_newline_run.
  destruct (strip raw) as [|c ui] eqn:Es; [discriminate Hslash|].
  rewrite !bind_run, !attempt_run. unfold loop_body. rewrite Hslash.
  match goal with
  | |- context [command me st (c :: ui) (w, ?t)] =>
    destruct (command_run me st (c :: ui) w t) as (prints & fl & -> & _ & H)
  end.
  cbn [fst snd]. destruct fl as [st'|].
  - destruct H as [H _]. congruence.
  - now split.
Qed.


Lemma call_multiple_results_witness :
  map username
      [mkCallResult (text "@alice") SUCCESS (text "Звонок 5.0с");
       mkCallResult (text "@bob") SUCCESS (text "Звонок 5.0с")]
  = [text "@alice"; text "@bob"] /\
  exists evs,
    logged (call_multiple (RT := ascii_runtime) (Env := fixed_env)
                          [text "@alice"; text "@bob"] 5.0%float 1.0%float)
           (friendly, [])
    = [] ++ evs /\
    sleeps evs
    = batch_sleeps 5.0%float 1.0%float
        (map status
             [mkCallResult (text "@alice") SUCCESS (text "Звонок 5.0с");
              mkCallResult (text "@bob") SUCCESS (text "Звонок 5.0с")]).
Proof.
  apply (call_multiple_results (RT := ascii_runtime) (Env := fixed_env)
           [text "@alice"; text "@bob"] 5.0%float 1.0%float friendly []).
  vm_compute. reflexivity.
Defined.

Lemma command_settings_witness :
  (ring_duration {| ring_duration := 10.0%float; pre_message := None |}
   = ring_duration {| ring_duration := DEFAULT_RING_DURATION;
                      pre_message := None |} \/
   (command_word (RT := ascii_runtime) (text "/time 10") = text "/time" /\
    float_parse (PyRuntime := ascii_runtime)
                (command_arg (text "/time 10"))
    = Some (ring_duration {| ring_duration := 10.0%float;
                             pre_message := None |}))) /\
  (pre_message {| ring_duration := 10.0%float; pre_message := None |}
   = pre_message {| ring_duration := DEFAULT_RING_DURATION;
                    pre_message := None |} \/
   (command_word (RT := ascii_runtime) (text "/time 10") = text "/msg" /\
    ((str_eqb (str_lower (PyRuntime := ascii_runtime)
                         (command_arg (text "/time 10")))
              (text "off") = true /\
      pre_message {| ring_duration := 10.0%float; pre_message := None |}
      = None) \/
     (str_eqb (str_lower (PyRuntime := ascii_runtime)
                         (command_arg (text "/time 10")))
              (text "off") = false /\
      command_arg (text "/time 10") <> [] /\
      pre_message {| ring_duration := 10.0%float; pre_message := None |}
      = Some (command_arg (text "/time 10")))))).
Proof.
  apply (command_settings (RT := ascii_runtime) (Env := fixed_env)
           an_account
           {| ring_duration := DEFAULT_RING_DURATION; pre_message := None |}
           {| ring_duration := 10.0%float; pre_message := None |}
           (text "/time 10") (friendly, [])).
  vm_compute. reflexivity.
Defined.

Lemma quit_ends_session_witness :
  interactive_loop (RT := ascii_runtime) (Env := fixed_env) an_account
                   [Line (text " /QUIT now"); Line (text "@alice")]
                   {| ring_duration := 5.0%float; pre_message := None |}
                   (friendly, [])
  = interactive_loop (RT := ascii_runtime) (Env := fixed_env) an_account
                     [Line (text " /QUIT now")]
                     {| ring_duration := 5.0%float; pre_message := None |}
                     (friendly, []) /\
  returned (interactive_loop (RT := ascii_runtime) (Env := fixed_env)
                             an_account
                             [Line (text " /QUIT now"); Line (text "@alice")]
                             {| ring_duration := 5.0%float;
                                pre_message := None |})
           (friendly, [])
  = Ok tt.
Proof.
  apply (quit_ends_session (RT := ascii_runtime) (Env := fixed_env)
           an_account {| ring_duration := 5.0%float; pre_message := None |}
           (text " /QUIT now") [Line (text "@alice")] [] (friendly, []));
    vm_compute; reflexivity.
Defined.

(** ** The saved config and the public value, again *)

Section ReloadFacts.

Context {RT : PyRuntime}.





End ReloadFacts.



Section PublicValueFacts.

Lemma DH_PRIME_no_three : Z.gcd DH_GENERATOR DH_PRIME = 1.
Proof. vm_compute. reflexivity. Qed.

Lemma dh_public_positive (x : Z) : 0 <= x -> 0 < dh_public x < DH_PRIME.
Proof.
  intros Hx. pose proof DH_PRIME_pos as Hp.
  pose proof DH_PRIME_bits as [Hbig _].
  unfold dh_public.
  pose proof (Z.mod_pos_bound (DH_GENERATOR ^ x) DH_PRIME Hp) as [H0 H1].
  split; [|exact H1].
  destruct (Z.eq_dec (DH_GENERATOR ^ x mod DH_PRIME) 0) as [E|]; [|lia].
  exfalso.
  apply Z.mod_divide in E; [|lia].
  assert (Hc : Z.gcd (DH_GENERATOR ^ x) DH_PRIME = 1).
  { apply (Z.coprime_pow_l DH_GENERATOR DH_PRIME x Hx).
    exact DH_PRIME_no_three. }
  apply Z.divide_gcd_iff in E; [|lia].
  rewrite Z.gcd_comm, Hc in E.
  assert (2 <= 2 ^ 2047) by (apply (Z.pow_le_mono_r 2 1 2047); lia).
  lia.
Qed.

End PublicValueFacts.

(** X11: [_generate_dh_params] always returns, with a 32-byte hash and a
    public value that is strictly between 0 and [DH_PRIME]. *)
Theorem dh_public_value_range {RT : PyRuntime} {W : Type}
        {Env : Environment W} (s : W * list event) :
  exists g_a_hash g_a,
    returned _generate_dh_params s = Ok (g_a_hash, g_a) /\
    0 < g_a < DH_PRIME /\ length g_a_hash = 32%nat.
Proof.
  destruct s as [w tr]. unfold returned. rewrite dh_params_run. cbn [fst].
  eexists _, _. split; [reflexivity|]. split.
  - apply dh_public_positive.
    apply (draw_range (fst (entropy w)) (2 ^ 256) eq_refl).
  - apply digest_length.
Qed.

(** ** Starting up *)

Section StartupFacts.

Context {RT : PyRuntime} {W : Type} {Env : Environment W} {Hst : Host W}.

Local Open Scope boot_scope.

Lemma adds_done {A} ok (a : A) : adds (W := W) ok (done a).
Proof. intros s. exists []. cbn. now rewrite app_nil_r. Qed.

Lemma adds_throw {A} ok (e : exn) : adds (W := W) ok (throw (A := A) e).
Proof. intros s. exists []. cbn. now rewrite app_nil_r. Qed.

Lemma adds_current ok : adds (W := W) ok current.
Proof. intros s. exists []. cbn. now rewrite app_nil_r. Qed.

Lemma adds_set_me ok me : adds (W := W) ok (set_me me).
Proof. intros s. exists []. cbn. now rewrite app_nil_r. Qed.

Lemma adds_and_then {A B} ok (m : Boot W A) (k : A -> Boot W B) :
  adds (W := W) ok m -> (forall a, adds (W := W) ok (k a)) -> adds (W := W) ok (and_then m k).
Proof.
  intros Hm Hk s. unfold and_then.
  destruct (Hm s) as (n1 & E1 & F1 & C1).
  destruct (m s) as [[a|e] s1]; cbn [snd] in *.
  - destruct (Hk a s1) as (n2 & E2 & F2 & C2).
    exists (n1 ++ n2). rewrite E2, E1, C2, C1, forallb_app, F1, F2.
    now rewrite app_assoc.
  - exists n1. auto.
Qed.

Lemma adds_trying {A} ok (m : Boot W A) : adds (W := W) ok m -> adds (W := W) ok (trying m).
Proof.
  intros Hm s. unfold trying. destruct (Hm s) as (n1 & E1 & F1 & C1).
  destruct (m s) as [r s1]. exists n1. auto.
Qed.

Lemma adds_ask {A} ok (op : W -> A * W) (log : A -> step) :
  (forall a, ok (log a) = true) -> adds (W := W) ok (ask op log).
Proof.
  intros Hl s. unfold ask. destruct (op (world s)) as [a w'].
  exists [log a]. cbn. now rewrite Hl.
Qed.

Lemma adds_request {A} ok (op : W -> result A * W) (log : result A -> step) :
  (forall a, ok (log a) = true) -> adds (W := W) ok (request op log).
Proof.
  intros Hl. apply adds_and_then; [now apply adds_ask|].
  intros [a|e]; [apply adds_done|apply adds_throw].
Qed.

Lemma adds_lift {A} ok (m : M W A) :
  (forall ev, ok (Did ev) = true) -> adds (W := W) ok (lift m).
Proof.
  intros Hd s. unfold lift. destruct (m (world s, [])) as [r [w' evs]].
  exists (map Did evs). cbn. repeat split.
  induction evs as [|ev evs IH]; [reflexivity|].
  cbn. now rewrite Hd, IH.
Qed.

Lemma adds_weaken {A} (ok ok' : step -> bool) (m : Boot W A) :
  (forall st, ok st = true -> ok' st = true) -> adds (W := W) ok m -> adds (W := W) ok' m.
Proof.
  intros Hw Hm s. destruct (Hm s) as (n & E & F & C).
  exists n. repeat split; auto.
  rewrite forallb_forall in *. auto.
Qed.

End StartupFacts.

Ltac adds_step :=
  lazymatch goal with
  | |- adds _ (done _) => apply adds_done
  | |- adds _ (throw _) => apply adds_throw
  | |- adds _ current => apply adds_current
  | |- adds _ (set_me _) => apply adds_set_me
  | |- adds _ (lift _) => apply adds_lift; intros; reflexivity
  | |- adds _ (request _ _) => apply adds_request; intros; reflexivity
  | |- adds _ (ask _ _) => apply adds_ask; intros; reflexivity
  | |- adds _ (trying _) => apply adds_trying
  | |- adds _ (and_then _ _) => apply adds_and_then; [|intros]
  end.

Ltac adds_all :=
  unfold input, unnamed, print_banner; unfold say, say_no_newline;
  repeat (cbv zeta; adds_step).

Section QuietFacts.

Context {RT : PyRuntime} {W : Type} {Env : Environment W} {Hst : Host W}.

Local Open Scope boot_scope.

Lemma ask_phone_quiet (inputs : list console) : adds (W := W) quiet (ask_phone inputs).
Proof.
  induction inputs as [|[raw|] later IH]; cbn [ask_phone]; adds_all.
  destruct (strip raw) as [|c phone]; [exact IH|].
  adds_all.
  match goal with a : answer unit |- _ => destruct a as [?|[| |]|[]] end;
    adds_all; exact IH.
Qed.

Lemma ask_password_quiet (inputs : list console) :
  adds (W := W) quiet (ask_password inputs).
Proof.
  unfold ask_password. adds_all.
  - destruct inputs as [|[raw|] later]; adds_all.
  - match goal with r : result unit |- _ => destruct r as [?|e] end;
      adds_all.
    destruct (is_Exception e); adds_all.
Qed.

Lemma ask_code_quiet (phone : pystr) (inputs : list console) :
  adds (W := W) quiet (ask_code phone inputs).
Proof.
  induction inputs as [|[raw|] later IH]; cbn [ask_code]; adds_all.
  destruct (strip raw) as [|c code]; [exact IH|].
  adds_all.
  match goal with a : answer unit |- _ => destruct a as [?|[| |]|?] end.
  - adds_all.
  - adds_all.
  - adds_all. exact IH.
  - apply ask_password_quiet.
  - adds_all.
Qed.

Lemma authorize_quiet (inputs : list console) : adds (W := W) quiet (_authorize inputs).
Proof.
  unfold _authorize. adds_all; [apply ask_phone_quiet|].
  match goal with p : (option pystr * list console)%type |- _ =>
    destruct p as [[phone|] later] end; cbn [fst snd]; adds_all.
  - apply ask_code_quiet.
  - match goal with p : (bool * list console)%type |- _ =>
      destruct p as [[|] later'] end; cbn [fst snd]; adds_all.
Qed.

Lemma ask_api_id_quiet (inputs : list console) : adds (W := W) quiet (ask_api_id inputs).
Proof.
  induction inputs as [|[raw|] later IH]; cbn [ask_api_id]; adds_all.
  destruct (py_int (strip raw)); adds_all. exact IH.
Qed.

Lemma setup_quiet (inputs : list console) : adds (W := W) quiet (setup inputs).
Proof.
  unfold setup. adds_all; [apply ask_api_id_quiet|].
  match goal with p : (Z * list console)%type |- _ =>
    destruct p as [api_id later] end; cbn [fst snd].
  destruct later as [|[raw|] later]; adds_all.
Qed.

Lemma connect_creates (api_id : Z) (api_hash : pystr)
      (inputs : list console) :
  creates (W := W) api_id api_hash (connect SESSION_FILE api_id api_hash inputs).
Proof.
  intros s. unfold connect at 1 2.
  set (tail := (request connect_client EConnect ;;; _)%boot).
  assert (Ht : adds (W := W) quiet tail).
  { subst tail. adds_all.
    match goal with b : bool |- _ => destruct b end; cbn [negb]; adds_all.
    apply authorize_quiet. }
  unfold request at 1 2, and_then, ask.
  destruct (new_client SESSION_FILE api_id api_hash (world s)) as [[[]|e] w'].
  - cbn [done set_client].
    match goal with |- context [tail ?s1] =>
      destruct (Ht s1) as (n & E & F & C) end.
    exists [], (Ok tt), n. cbn [app]. rewrite E, C. cbn.
    rewrite <- app_assoc. auto.
  - exists [], (Raise e), []. cbn. auto.
Qed.

Lemma creates_after {A B} api_id api_hash (m : Boot W A)
      (k : A -> Boot W B) :
  adds (W := W) quiet m -> (forall a, creates (W := W) api_id api_hash (k a)) ->
  (forall s, exists a, fst (m s) = Ok a) ->
  creates (W := W) api_id api_hash (and_then m k).
Proof.
  intros Hm Hk Hok s. unfold and_then.
  destruct (Hm s) as (n1 & E1 & F1 & C1). destruct (Hok s) as [a Ha].
  destruct (m s) as [r s1]. cbn [fst snd] in *. subst r.
  destruct (Hk a s1) as (pre & r & rest & E & Fp & Fr & C).
  exists (n1 ++ pre), r, rest. rewrite E, E1, C, C1, forallb_app, F1, Fp.
  rewrite <- !app_assoc. auto.
Qed.

Lemma creates_before {A B} api_id api_hash (m : Boot W A)
      (k : A -> Boot W B) :
  creates (W := W) api_id api_hash m -> (forall a, adds (W := W) quiet (k a)) ->
  creates (W := W) api_id api_hash (and_then m k).
Proof.
  intros Hm Hk s. unfold and_then.
  destruct (Hm s) as (pre & r & rest & E & Fp & Fr & C).
  destruct (m s) as [[a|e] s1]; cbn [fst snd] in *.
  - destruct (Hk a s1) as (n2 & E2 & F2 & C2).
    exists pre, r, (rest ++ n2). rewrite E2, E, C2, C, forallb_app, Fr, F2.
    rewrite <- !app_assoc. auto.
  - exists pre, r, rest. auto.
Qed.

Lemma session_body_creates api_id api_hash inputs :
  creates (W := W) api_id api_hash (session_body api_id api_hash inputs).
Proof.
  unfold session_body. apply creates_after.
  - adds_all.
  - intros _. apply creates_before; [apply connect_creates|].
    intros [[|] later]; cbn [fst snd]; adds_all.
    match goal with m : machine W |- _ => destruct (self_me m) end; adds_all.
  - intros s. exists tt. reflexivity.
Qed.

Lemma report_quiet (outcome : result unit) : adds (W := W) quiet (report outcome).
Proof.
  unfold report. destruct outcome as [?|e]; adds_all.
  destruct (is_Exception e); adds_all.
Qed.

Lemma report_result (outcome : result unit) (s : machine W) :
  fst (report outcome s) = Ok tt \/
  exists e, fst (report outcome s) = Raise e /\ is_Exception e = false.
Proof.
  unfold report. destruct outcome as [?|e]; [now left|].
  destruct (is_Exception e) eqn:He; [now left|].
  right. now exists e.
Qed.

(** A run of the guarded part of [main], from a caller without client. *)
Lemma guarded_run (api_id : Z) (api_hash : pystr) (inputs : list console)
      (s : machine W) :
  self_client s = false ->
  exists pre r rest,
    forallb quiet pre = true /\ forallb quiet rest = true /\
    match r with
    | Raise _ =>
      steps (snd (guarded api_id api_hash inputs s))
      = steps s ++ pre ++ ENewClient SESSION_FILE api_id api_hash r :: rest /\
      (fst (guarded api_id api_hash inputs s) = Ok tt \/
       exists e, fst (guarded api_id api_hash inputs s) = Raise e /\
                 is_Exception e = false)
    | Ok _ =>
      exists d,
        steps (snd (guarded api_id api_hash inputs s))
        = steps s ++ pre ++ ENewClient SESSION_FILE api_id api_hash r
                  :: rest ++ [EDisconnect d] /\
        match d with
        | Raise e => fst (guarded api_id api_hash inputs s) = Raise e
        | Ok _ =>
          fst (guarded api_id api_hash inputs s) = Ok tt \/
          exists e, fst (guarded api_id api_hash inputs s) = Raise e /\
                    is_Exception e = false
        end
    end.
Proof.
  intros Hc. unfold guarded, and_then, trying.
  destruct (session_body_creates api_id api_hash inputs s)
    as (pre & r & rest & E & Fp & Fr & C).
  destruct (session_body api_id api_hash inputs s) as [outcome s1].
  cbn [fst snd] in *.
  destruct (report_quiet outcome s1) as (n2 & E2 & F2 & C2).
  pose proof (report_result outcome s1) as Hr.
  destruct (report outcome s1) as [handled s2]. cbn [fst snd] in *.
  exists pre, r, (rest ++ n2). rewrite forallb_app, Fr, F2.
  split; [exact Fp|]. split; [reflexivity|].
  unfold disconnect, and_then, current. rewrite C2, C.
  destruct r as [[]|e0].
  - unfold request, and_then, ask.
    destruct (disconnect_client (world s2)) as [d w'].
    exists d. rewrite E2, E.
    destruct d as [[]|e]; cbn [done throw fst snd steps].
    + destruct Hr as [->|(e & -> & He)]; cbn [done throw fst snd steps];
        (split; [rewrite <- !app_assoc; reflexivity|]);
        [now left|right; now exists e].
    + split; [rewrite <- !app_assoc; reflexivity|reflexivity].
  - rewrite Hc. cbn [done].
    destruct Hr as [->|(e & -> & He)]; cbn [done throw fst snd steps];
      rewrite E2, E;
      (split; [rewrite <- !app_assoc; reflexivity|]);
      [now left|right; now exists e].
Qed.

Lemma input_quiet (prompt : pystr) (inputs : list console) :
  adds (W := W) quiet (input prompt inputs).
Proof. adds_all. destruct inputs as [|[raw|] later]; adds_all. Qed.

Lemma yields_late {A B} ok (P : B -> list step -> Prop) (m : Boot W A)
      (k : A -> Boot W B) :
  adds (W := W) ok m -> (forall a, yields (W := W) P (k a)) ->
  (forall b n1 n2, P b n2 -> P b (n1 ++ n2)) ->
  yields (W := W) P (and_then m k).
Proof.
  intros Hm Hk Hmono s b. unfold and_then.
  destruct (Hm s) as (n1 & E1 & _).
  destruct (m s) as [[a|e] s1]; cbn [fst snd] in *; [|discriminate].
  intros Hb. destruct (Hk a s1 b Hb) as (n2 & E2 & P2).
  exists (n1 ++ n2). rewrite E2, E1, app_assoc. auto.
Qed.

Lemma setup_writes (inputs : list console) :
  yields (W := W) (fun creds new =>
            In (EWriteConfig
                  (written (save_config (fst (fst creds)) (snd (fst creds))))
                  (Ok tt)) new)
         (setup inputs).
Proof.
  unfold setup.
  repeat (apply (yields_late quiet);
          [adds_all| |intros b n1 n2 H; apply in_or_app; now right];
          intros _).
  apply (yields_late quiet);
    [apply ask_api_id_quiet| |intros b n1 n2 H; apply in_or_app; now right].
  intros [api_id later]. cbn [fst snd].
  apply (yields_late quiet);
    [apply input_quiet| |intros b n1 n2 H; apply in_or_app; now right].
  intros [raw later']. cbn [fst snd].
  intros s creds. unfold request, and_then, ask.
  destruct (write_config _ (world s)) as [[[]|e] w']; [|discriminate].
  cbn. intros [= <-]. eexists. split; [rewrite <- app_assoc; reflexivity|].
  now left.
Qed.

Lemma quiet_app_cons (pre rest : list step) (st : step) :
  forallb quiet pre = true -> quiet st = true ->
  forallb quiet (pre ++ [st]) = true.
Proof. intros Hp Hs. rewrite forallb_app, Hp. cbn. now rewrite Hs. Qed.

(** A run of [main]: it stops in the setup, or it goes through the guarded
    part with the credentials it loaded or wrote. *)
Lemma main_run (inputs : list console) (s : machine W) :
  exists new,
    steps (snd (main inputs s)) = steps s ++ new /\
    ((forallb quiet new = true /\ exists e, fst (main inputs s) = Raise e) \/
     exists f pre api_id api_hash r rest,
       forallb quiet pre = true /\ forallb quiet rest = true /\
       In (ELookConfig f) pre /\
       (usable (load_config f) = Some (api_id, api_hash) \/
        (usable (load_config f) = None /\
         In (EWriteConfig (written (save_config api_id api_hash)) (Ok tt))
            pre)) /\
       match r with
       | Raise _ =>
         new = pre ++ ENewClient SESSION_FILE api_id api_hash r :: rest /\
         (fst (main inputs s) = Ok tt \/
          exists e, fst (main inputs s) = Raise e /\ is_Exception e = false)
       | Ok _ =>
         exists d,
           new = pre ++ ENewClient SESSION_FILE api_id api_hash r
                     :: rest ++ [EDisconnect d] /\
           match d with
           | Raise e => fst (main inputs s) = Raise e
           | Ok _ =>
             fst (main inputs s) = Ok tt \/
             exists e, fst (main inputs s) = Raise e /\
                       is_Exception e = false
           end
       end).
Proof.
  remember (main inputs s) as out eqn:Hout.
  unfold main, and_then in Hout.
  assert (Hb : adds (W := W) quiet print_banner) by adds_all.
  destruct (Hb s) as (n0 & E0 & F0 & _).
  assert (Ob : exists s0, print_banner s = (Ok tt, s0))
    by (eexists; reflexivity).
  destruct Ob as [s0 Ob]. rewrite Ob in *. cbn [snd] in E0.
  unfold ask in Hout. destruct (look_config (world s0)) as [f w1].
  set (s1 := {| world := w1; self_client := self_client s0;
                self_me := self_me s0;
                steps := steps s0 ++ [ELookConfig f] |}) in *.
  set (creds := match usable (load_config f) with
                | Some (api_id, api_hash) => done (api_id, api_hash, inputs)
                | None => setup inputs
                end) in *.
  assert (Hq : adds (W := W) quiet creds).
  { subst creds. destruct (usable (load_config f)) as [[a h]|];
      [adds_all|apply setup_quiet]. }
  assert (Hw : yields (W := W) (fun c new =>
                         usable (load_config f)
                         = Some (fst (fst c), snd (fst c)) \/
                         (usable (load_config f) = None /\
                          In (EWriteConfig
                                (written (save_config (fst (fst c))
                                                      (snd (fst c))))
                                (Ok tt)) new)) creds).
  { subst creds. destruct (usable (load_config f)) as [[a h]|].
    - intros s2 c [= <-]. exists []. cbn. rewrite app_nil_r. auto.
    - intros s2 c Hc. destruct (setup_writes inputs s2 c Hc) as (n & E & I).
      exists n. auto. }
  destruct (Hq s1) as (n1 & E1 & F1 & _). specialize (Hw s1).
  destruct (creds s1) as [[[[api_id api_hash] later]|e] s2];
    cbn [fst snd] in *.
  - destruct (Hw _ eq_refl) as (n1' & E1' & Hcred).
    rewrite E1 in E1'. apply app_inv_head in E1'. subst n1'.
    unfold __init__ in Hout.
    match type of Hout with context [guarded _ _ _ ?s3] =>
      destruct (guarded_run api_id api_hash later s3 eq_refl)
        as (pre & r & rest & Fp & Fr & Hrun);
      set (s3' := s3) in *
    end.
    rewrite <- Hout in Hrun.
    assert (Es : steps s3' = steps s ++ (n0 ++ ELookConfig f :: n1)).
    { subst s3' s1. cbn [steps]. rewrite E1. cbn [steps].
      rewrite E0, <- !app_assoc. reflexivity. }
    assert (Fq : forallb quiet ((n0 ++ ELookConfig f :: n1) ++ pre) = true).
    { rewrite !forallb_app. cbn [forallb]. now rewrite F0, F1, Fp. }
    assert (Il : In (ELookConfig f) ((n0 ++ ELookConfig f :: n1) ++ pre)).
    { apply in_or_app. left. apply in_or_app. right. now left. }
    assert (Hc' : usable (load_config f) = Some (api_id, api_hash) \/
                  (usable (load_config f) = None /\
                   In (EWriteConfig (written (save_config api_id api_hash))
                                    (Ok tt))
                      ((n0 ++ ELookConfig f :: n1) ++ pre))).
    { destruct Hcred as [H|[Hn H]]; [now left|right].
      split; [exact Hn|].
      apply in_or_app. left. apply in_or_app. right. now right. }
    destruct r as [[]|e0].
    + destruct Hrun as (d & Er & Hd).
      eexists. split; [rewrite Er, Es, <- !app_assoc; reflexivity|].
      right. exists f, ((n0 ++ ELookConfig f :: n1) ++ pre), api_id, api_hash,
               (Ok tt), rest.
      repeat (split; [assumption|]).
      exists d. split; [now rewrite <- !app_assoc|exact Hd].
    + destruct Hrun as (Er & Hd).
      eexists. split; [rewrite Er, Es, <- !app_assoc; reflexivity|].
      right. exists f, ((n0 ++ ELookConfig f :: n1) ++ pre), api_id, api_hash,
               (Raise e0), rest.
      repeat (split; [assumption|]).
      split; [now rewrite <- !app_assoc|exact Hd].
  - subst out. exists (n0 ++ ELookConfig f :: n1). split.
    + cbn [snd]. rewrite E1. subst s1. cbn [steps].
      rewrite E0, <- !app_assoc. reflexivity.
    + left. split; [|now exists e].
      rewrite forallb_app. cbn [forallb]. now rewrite F0, F1.
Qed.

Lemma added_spec {A} (m : Boot W A) (s : machine W) (new : list step) :
  steps (snd (m s)) = steps s ++ new -> added m s = new.
Proof.
  intros E. unfold added. rewrite E, skipn_app, skipn_all, Nat.sub_diag.
  reflexivity.
Qed.

Lemma quiet_new_client (l : list step) :
  forallb quiet l = true -> existsb is_new_client l = false.
Proof.
  induction l as [|st l IH]; [reflexivity|].
  cbn [forallb existsb]. intros H. apply andb_prop in H as [Hs Hl].
  rewrite (IH Hl), orb_false_r.
  unfold quiet, client_step in Hs. apply negb_true_iff in Hs.
  now apply orb_false_iff in Hs.
Qed.

Lemma quiet_disconnect (l : list step) :
  forallb quiet l = true -> existsb is_disconnect l = false.
Proof.
  induction l as [|st l IH]; [reflexivity|].
  cbn [forallb existsb]. intros H. apply andb_prop in H as [Hs Hl].
  rewrite (IH Hl), orb_false_r.
  unfold quiet, client_step in Hs. apply negb_true_iff in Hs.
  now apply orb_false_iff in Hs.
Qed.

Lemma new_client_made (l : list step) :
  existsb is_new_client l = false -> existsb client_made l = false.
Proof.
  induction l as [|st l IH]; [reflexivity|].
  cbn [existsb]. intros H. apply orb_false_iff in H as [Hs Hl].
  rewrite (IH Hl), orb_false_r. now destruct st.
Qed.

End QuietFacts.

(** X12: whatever the console and Telegram do, [main] disconnects the client
    exactly when it has created it, once, and as its very last step. *)
Theorem main_disconnects_last {RT : PyRuntime} {W : Type}
        {Env : Environment W} {Hst : Host W}
        (inputs : list console) (s : machine W) :
  if existsb client_made (added (main inputs) s)
  then exists front d,
         added (main inputs) s = front ++ [EDisconnect d] /\
         existsb is_disconnect front = false
  else existsb is_disconnect (added (main inputs) s) = false.
Proof.
  destruct (main_run inputs s) as (new & E & H).
  rewrite (added_spec _ _ _ E).
  destruct H as [[Fq _]|(f & pre & api_id & api_hash & r & rest & Fp & Fr
                          & _ & _ & H)].
  - rewrite (new_client_made _ (quiet_new_client _ Fq)).
    now apply quiet_disconnect.
  - destruct r as [[]|e0].
    + destruct H as (d & -> & _).
      rewrite existsb_app. cbn [existsb client_made]. rewrite orb_true_r.
      exists (pre ++ ENewClient SESSION_FILE api_id api_hash (Ok tt) :: rest), d.
      split; [now rewrite <- app_assoc|].
      rewrite existsb_app. cbn [existsb is_disconnect].
      now rewrite (quiet_disconnect _ Fp), (quiet_disconnect _ Fr).
    + destruct H as (-> & _).
      rewrite !existsb_app. cbn [existsb client_made is_disconnect].
      rewrite (new_client_made _ (quiet_new_client _ Fp)).
      rewrite (new_client_made _ (quiet_new_client _ Fr)).
      now rewrite (quiet_disconnect _ Fp), (quiet_disconnect _ Fr).
Qed.


(** X14: the client is created at most once, under the session name
    [SESSION_FILE], and with the credentials that [load_config] gave if
    neither is falsy, and else with those that the setup has just written
    to the config file. *)
Theorem main_credentials {RT : PyRuntime} {W : Type}
        {Env : Environment W} {Hst : Host W}
        (inputs : list console) (s : machine W) :
  existsb is_new_client (added (main inputs) s) = false \/
  exists f pre api_id api_hash r rest,
    added (main inputs) s
    = pre ++ ENewClient SESSION_FILE api_id api_hash r :: rest /\
    existsb is_new_client pre = false /\
    existsb is_new_client rest = false /\
    In (ELookConfig f) pre /\
    (usable (load_config f) = Some (api_id, api_hash) \/
     (usable (load_config f) = None /\
      In (EWriteConfig (written (save_config api_id api_hash)) (Ok tt)) pre)).
Proof.
  destruct (main_run inputs s) as (new & E & H).
  rewrite (added_spec _ _ _ E).
  destruct H as [[Fq _]|(f & pre & api_id & api_hash & r & rest & Fp & Fr
                          & Il & Hc & H)].
  - left. now apply quiet_new_client.
  - right. destruct r as [[]|e0].
    + destruct H as (d & -> & _).
      exists f, pre, api_id, api_hash, (Ok tt), (rest ++ [EDisconnect d]).
      rewrite existsb_app. cbn [existsb is_new_client].
      rewrite (quiet_new_client _ Fp), (quiet_new_client _ Fr). auto.
    + destruct H as (-> & _).
      exists f, pre, api_id, api_hash, (Raise e0), rest.
      rewrite (quiet_new_client _ Fp), (quiet_new_client _ Fr). auto.
Qed.

Section LoginFacts.

Context {RT : PyRuntime} {W : Type} {Env : Environment W} {Hst : Host W}.

Local Open Scope boot_scope.

Lemma say_run (x : pystr) (s : machine W) :
  say x s = (Ok tt, push s [Did (EPrint (x ++ [10]))]).
Proof. reflexivity. Qed.

Lemma say_no_newline_run (x : pystr) (s : machine W) :
  say_no_newline x s = (Ok tt, push s [Did (EPrint x)]).
Proof. reflexivity. Qed.

Lemma requests_app (a b : list step) :
  requests (a ++ b) = requests a ++ requests b.
Proof. apply filter_app. Qed.

(** A run of the first loop of [_authorize]. *)
Lemma ask_phone_run (inputs : list console) :
  forall s, exists new,
    steps (snd (ask_phone inputs s)) = steps s ++ new /\
    self_me (snd (ask_phone inputs s)) = self_me s /\
    match fst (ask_phone inputs s) with
    | Ok (Some phone, _) =>
      exists wrong,
        requests new = map refused_phone wrong ++ [ESendCode phone (Fine tt)]
    | Ok (None, _) =>
      exists wrong phone seconds,
        requests new
        = map refused_phone wrong
          ++ [ESendCode phone (Failed (FloodWaitError seconds))]
    | Raise _ => True
    end.
Proof.
  induction inputs as [|[raw|] later IH]; intros s;
    remember (ask_phone _ s) as out eqn:Ho; cbn [ask_phone] in Ho;
    unfold and_then in Ho; rewrite say_no_newline_run in Ho.
  - subst out. eexists. cbn. split; [reflexivity|]. auto.
  - destruct (strip raw) as [|c phone].
    + match type of Ho with _ = ask_phone later ?s1 =>
        destruct (IH s1) as (new & E & Hm & H) end.
      rewrite <- Ho in *. eexists. split; [rewrite E; cbn [push steps];
        rewrite <- app_assoc; reflexivity|].
      split; [exact Hm|]. exact H.
    + unfold ask in Ho. cbn [push world] in Ho.
      destruct (send_code_request (c :: phone) (world s)) as [ans w'].
      destruct ans as [[]|[| |]|e].
      * subst out. eexists. cbn. split; [rewrite <- app_assoc; reflexivity|].
        split; [reflexivity|]. now exists [].
      * rewrite say_run in Ho.
        match type of Ho with _ = ask_phone later ?s1 =>
          destruct (IH s1) as (new & E & Hm & H) end.
        rewrite <- Ho in *. eexists.
        split; [rewrite E; cbn [push steps]; rewrite <- !app_assoc;
                reflexivity|].
        split; [exact Hm|].
        cbn [app requests filter is_request].
        fold (requests new).
        destruct (fst out) as [[[ph|] lt]|]; [| |exact I].
        -- destruct H as (wrong & ->). now exists ((c :: phone) :: wrong).
        -- destruct H as (wrong & ph & sec & ->).
           now exists ((c :: phone) :: wrong), ph, sec.
      * subst out. eexists. cbn. split; [rewrite <- app_assoc; reflexivity|].
        auto.
      * subst out. eexists. cbn. split; [rewrite <- app_assoc; reflexivity|].
        auto.
      * destruct e; try (subst out; eexists; cbn;
                         split; [rewrite <- app_assoc; reflexivity|];
                         now auto).
        rewrite say_run in Ho. subst out. eexists. cbn.
        split; [rewrite <- !app_assoc; reflexivity|].
        split; [reflexivity|]. now exists [], (c :: phone), seconds.
  - subst out. eexists. cbn. split; [reflexivity|]. auto.
Qed.

(** A run of the password branch. *)
Lemma ask_password_run (inputs : list console) (s : machine W) :
  exists new,
    steps (snd (ask_password inputs s)) = steps s ++ new /\
    self_me (snd (ask_password inputs s)) = self_me s /\
    match fst (ask_password inputs s) with
    | Ok (true, _) =>
      exists password, requests new = [ESignInPassword password (Ok tt)]
    | Ok (false, _) =>
      exists password e,
        requests new = [ESignInPassword password (Raise e)] /\
        is_Exception e = true
    | Raise _ => True
    end.
Proof.
  remember (ask_password inputs s) as out eqn:Ho.
  unfold ask_password, input, and_then in Ho.
  rewrite say_run, say_no_newline_run in Ho.
  destruct inputs as [|[raw|] later].
  - subst out. eexists. cbn. split; [rewrite <- app_assoc; reflexivity|].
    auto.
  - cbn [done fst snd] in Ho. unfold trying, request, and_then, ask in Ho.
    cbn [push world] in Ho.
    destruct (sign_in_password (strip raw) (world s)) as [[[]|e] w'].
    + subst out. eexists. cbn. split; [rewrite <- !app_assoc; reflexivity|].
      split; [reflexivity|]. now exists (strip raw).
    + cbn [done throw] in Ho. destruct (is_Exception e) eqn:He.
      * unfold current in Ho. rewrite say_run in Ho. subst out. eexists.
        cbn. split; [rewrite <- !app_assoc; reflexivity|].
        split; [reflexivity|]. now exists (strip raw), e.
      * subst out. eexists. cbn.
        split; [rewrite <- !app_assoc; reflexivity|]. auto.
  - subst out. eexists. cbn. split; [rewrite <- app_assoc; reflexivity|].
    auto.
Qed.

(** A run of the second loop of [_authorize]. *)
Lemma ask_code_run (phone : pystr) (inputs : list console) :
  forall s, exists new,
    steps (snd (ask_code phone inputs s)) = steps s ++ new /\
    self_me (snd (ask_code phone inputs s)) = self_me s /\
    match fst (ask_code phone inputs s) with
    | Ok (true, _) =>
      exists codes ending,
        requests new = map (refused_code phone) codes ++ ending /\
        signed_in phone ending
    | Ok (false, _) =>
      exists codes code password e,
        requests new
        = map (refused_code phone) codes
          ++ [ESignIn phone code (Refused SessionPasswordNeededError);
              ESignInPassword password (Raise e)] /\
        is_Exception e = true
    | Raise _ => True
    end.
Proof.
  induction inputs as [|[raw|] later IH]; intros s;
    remember (ask_code phone _ s) as out eqn:Ho; cbn [ask_code] in Ho;
    unfold and_then in Ho; rewrite say_no_newline_run in Ho.
  - subst out. eexists. cbn. split; [reflexivity|]. auto.
  - destruct (strip raw) as [|c code].
    + match type of Ho with _ = ask_code phone later ?s1 =>
        destruct (IH s1) as (new & E & Hm & H) end.
      rewrite <- Ho in *. eexists. split; [rewrite E; cbn [push steps];
        rewrite <- app_assoc; reflexivity|].
      split; [exact Hm|]. exact H.
    + unfold ask in Ho. cbn [push world] in Ho.
      destruct (sign_in phone (c :: code) (world s)) as [ans w'].
      destruct ans as [[]|[| |]|e].
      * subst out. eexists. cbn. split; [rewrite <- app_assoc; reflexivity|].
        split; [reflexivity|].
        exists [], [ESignIn phone (c :: code) (Fine tt)].
        split; [reflexivity|]. left. now exists (c :: code).
      * subst out. eexists. cbn. split; [rewrite <- app_assoc; reflexivity|].
        auto.
      * rewrite say_run in Ho.
        match type of Ho with _ = ask_code phone later ?s1 =>
          destruct (IH s1) as (new & E & Hm & H) end.
        rewrite <- Ho in *. eexists.
        split; [rewrite E; cbn [push steps]; rewrite <- !app_assoc;
                reflexivity|].
        split; [exact Hm|].
        cbn [app requests filter is_request].
        fold (requests new).
        destruct (fst out) as [[[|] lt]|]; [| |exact I].
        -- destruct H as (codes & ending & -> & Hs).
           now exists ((c :: code) :: codes), ending.
        -- destruct H as (codes & cd & pw & e & -> & He).
           now exists ((c :: code) :: codes), cd, pw, e.
      * match type of Ho with _ = ask_password later ?s1 =>
          destruct (ask_password_run later s1) as (new & E & Hm & H) end.
        rewrite <- Ho in *. eexists.
        split; [rewrite E; cbn [push steps]; rewrite <- !app_assoc;
                reflexivity|].
        split; [exact Hm|].
        cbn [app requests filter is_request].
        fold (requests new).
        destruct (fst out) as [[[|] lt]|]; [| |exact I].
        -- destruct H as (pw & ->).
           exists [], [ESignIn phone (c :: code)
                               (Refused SessionPasswordNeededError);
                       ESignInPassword pw (Ok tt)].
           split; [reflexivity|]. right. now exists (c :: code), pw.
        -- destruct H as (pw & e & -> & He).
           now exists [], (c :: code), pw, e.
      * subst out. eexists. cbn. split; [rewrite <- app_assoc; reflexivity|].
        auto.
  - subst out. eexists. cbn. split; [reflexivity|]. auto.
Qed.

(** A run of [_authorize]. *)
Lemma authorize_run (inputs : list console) (s : machine W) :
  exists new,
    steps (snd (_authorize inputs s)) = steps s ++ new /\
    match fst (_authorize inputs s) with
    | Ok (true, _) =>
      exists wrong phone codes ending me,
        requests new
        = map refused_phone wrong
          ++ ESendCode phone (Fine tt)
          :: map (refused_code phone) codes ++ ending ++ [EGetMe (Ok me)] /\
        signed_in phone ending /\
        self_me (snd (_authorize inputs s)) = me
    | Ok (false, _) =>
      self_me (snd (_authorize inputs s)) = self_me s /\
      ((exists wrong phone seconds,
           requests new
           = map refused_phone wrong
             ++ [ESendCode phone (Failed (FloodWaitError seconds))]) \/
       (exists wrong phone codes code password e,
           requests new
           = map refused_phone wrong
             ++ ESendCode phone (Fine tt)
             :: map (refused_code phone) codes
             ++ [ESignIn phone code (Refused SessionPasswordNeededError);
                 ESignInPassword password (Raise e)] /\
           is_Exception e = true))
    | Raise _ => True
    end.
Proof.
  remember (_authorize inputs s) as out eqn:Ho.
  unfold _authorize, and_then in Ho. rewrite !say_run in Ho.
  match type of Ho with context [ask_phone inputs ?s1] =>
    destruct (ask_phone_run inputs s1) as (n1 & E1 & M1 & H1);
    destruct (ask_phone inputs s1) as [[[[phone|] later]|e] s2]
  end; cbn [fst snd] in *.
  - match type of Ho with context [ask_code phone later ?s1] =>
      destruct (ask_code_run phone later s1) as (n2 & E2 & M2 & H2);
      destruct (ask_code phone later s1) as [[[[|] later']|e] s3]
    end; cbn [fst snd] in *.
    + unfold request, and_then, ask, set_me in Ho.
      destruct (get_me (world s3)) as [[me|e] w'].
      * subst out. cbn. rewrite E2, E1. cbn [push steps].
        eexists. split; [rewrite <- !app_assoc; reflexivity|].
        destruct H1 as (wrong & R1). destruct H2 as (codes & ending & R2 & Hs).
        exists wrong, phone, codes, ending, me.
        split; [|now split].
        rewrite !requests_app, R1, R2.
        cbn [requests filter is_request app].
        rewrite <- !app_assoc. reflexivity.
      * subst out. cbn. rewrite E2, E1. cbn [push steps].
        eexists. split; [rewrite <- !app_assoc; reflexivity|]. exact I.
    + subst out. cbn. rewrite E2, E1, M2, M1. cbn [push steps self_me].
      eexists. split; [rewrite <- !app_assoc; reflexivity|].
      split; [reflexivity|]. right.
      destruct H1 as (wrong & R1).
      destruct H2 as (codes & code & pw & e & R2 & He).
      exists wrong, phone, codes, code, pw, e. split; [|exact He].
      rewrite !requests_app, R1, R2.
      cbn [requests filter is_request app].
      rewrite <- !app_assoc. reflexivity.
    + subst out. cbn. rewrite E2, E1. cbn [push steps].
      eexists. split; [rewrite <- !app_assoc; reflexivity|]. exact I.
  - subst out. cbn. rewrite E1, M1. cbn [push steps self_me].
    eexists. split; [rewrite <- !app_assoc; reflexivity|].
    split; [reflexivity|]. left.
    destruct H1 as (wrong & ph & sec & R1). exists wrong, ph, sec.
    rewrite !requests_app, R1. reflexivity.
  - subst out. cbn. rewrite E1. cbn [push steps].
    eexists. split; [rewrite <- !app_assoc; reflexivity|]. exact I.
Qed.

End LoginFacts.

(** X15: a log-in that succeeds has made these requests, in this order: code
    requests refused for their phone number, the code request that was
    accepted, sign-ins with that phone number refused for their code, the
    sign-in that was accepted (by code, or by code and then password) and
    [get_me], whose answer becomes [self.me]. *)
Theorem authorize_success {W : Type} {Hst : Host W}
        (inputs later : list console) (s : machine W) :
  ended (_authorize inputs) s = Ok (true, later) ->
  exists wrong phone codes ending me,
    requests (added (_authorize inputs) s)
    = map refused_phone wrong
      ++ ESendCode phone (Fine tt)
      :: map (refused_code phone) codes ++ ending ++ [EGetMe (Ok me)] /\
    signed_in phone ending /\
    self_me (snd (_authorize inputs s)) = me.
Proof.
  unfold ended. intros H.
  destruct (authorize_run inputs s) as (new & E & Hr).
  rewrite (added_spec _ _ _ E). rewrite H in Hr. exact Hr.
Qed.

Lemma authorize_success_witness :
  exists wrong phone codes ending me,
    requests (added (_authorize (Hst := desk_host)
                                [Line (text "100"); Line (text " +100 ");
                                 Line (text "1"); Line (text "12345");
                                 Line (text "secret")])
                    (boot with_password))
    = map refused_phone wrong
      ++ ESendCode phone (Fine tt)
      :: map (refused_code phone) codes ++ ending ++ [EGetMe (Ok me)] /\
    signed_in phone ending /\
    self_me (snd (_authorize (Hst := desk_host)
                             [Line (text "100"); Line (text " +100 ");
                              Line (text "1"); Line (text "12345");
                              Line (text "secret")]
                             (boot with_password))) = me.
Proof.
  apply (authorize_success (Hst := desk_host) _ [] (boot with_password)).
  vm_compute. reflexivity.
Defined.

(** X16: a log-in that is given up ([_authorize] returns [False]) has ended
    with a flood wait at a code request, before any sign-in, or with a
    password sign-in that failed with an [Exception]; [get_me] is not
    asked and [self.me] stays as it was. *)
Theorem authorize_failure {W : Type} {Hst : Host W}
        (inputs later : list console) (s : machine W) :
  ended (_authorize inputs) s = Ok (false, later) ->
  self_me (snd (_authorize inputs s)) = self_me s /\
  ((exists wrong phone seconds,
       requests (added (_authorize inputs) s)
       = map refused_phone wrong
         ++ [ESendCode phone (Failed (FloodWaitError seconds))]) \/
   (exists wrong phone codes code password e,
       requests (added (_authorize inputs) s)
       = map refused_phone wrong
         ++ ESendCode phone (Fine tt)
         :: map (refused_code phone) codes
         ++ [ESignIn phone code (Refused SessionPasswordNeededError);
             ESignInPassword password (Raise e)] /\
       is_Exception e = true)).
Proof.
  unfold ended. intros H.
  destruct (authorize_run inputs s) as (new & E & Hr).
  rewrite (added_spec _ _ _ E). rewrite H in Hr. exact Hr.
Qed.

Lemma authorize_failure_witness :
  self_me (snd (_authorize (Hst := desk_host)
                           [Line (text "+100"); Line (text "12345");
                            Line (text "guess")]
                           (boot with_password)))
  = self_me (boot with_password) /\
  ((exists wrong phone seconds,
       requests (added (_authorize (Hst := desk_host)
                                   [Line (text "+100"); Line (text "12345");
                                    Line (text "guess")])
                       (boot with_password))
       = map refused_phone wrong
         ++ [ESendCode phone (Failed (FloodWaitError seconds))]) \/
   (exists wrong phone codes code password e,
       requests (added (_authorize (Hst := desk_host)
                                   [Line (text "+100"); Line (text "12345");
                                    Line (text "guess")])
                       (boot with_password))
       = map refused_phone wrong
         ++ ESendCode phone (Fine tt)
         :: map (refused_code phone) codes
         ++ [ESignIn phone code (Refused SessionPasswordNeededError);
             ESignInPassword password (Raise e)] /\
       is_Exception e = true)).
Proof.
  apply (authorize_failure (Hst := desk_host) _ [] (boot with_password)).
  vm_compute. reflexivity.
Defined.

(** X17: when [connect] returns [True], the client has been created and
    connected, [is_user_authorized] has answered, and the last request is a
    [get_me] whose answer is [self.me]; with a session that is already
    authorized nothing is asked at the console and no log-in request is
    made. *)
Theorem connect_success {W : Type} {Hst : Host W}
        (session_name : pystr) (api_id : Z) (api_hash : pystr)
        (inputs later : list console) (s : machine W) :
  ended (connect session_name api_id api_hash inputs) s = Ok (true, later) ->
  exists authorized login me,
    requests (added (connect session_name api_id api_hash inputs) s)
    = ENewClient session_name api_id api_hash (Ok tt)
      :: EConnect (Ok tt) :: EIsAuthorized (Ok authorized)
      :: login ++ [EGetMe (Ok me)] /\
    self_client (snd (connect session_name api_id api_hash inputs s)) = true /\
    self_me (snd (connect session_name api_id api_hash inputs s)) = me /\
    (authorized = true ->
     login = [] /\ later = inputs /\
     added (connect session_name api_id api_hash inputs) s
     = requests (added (connect session_name api_id api_hash inputs) s)).
Proof.
  unfold ended.
  remember (connect session_name api_id api_hash inputs s) as out eqn:Ho.
  assert (Ha : added (connect session_name api_id api_hash inputs) s
               = skipn (length (steps s)) (steps (snd out)))
    by (now rewrite Ho).
  rewrite Ha. clear Ha.
  unfold connect, request, and_then, ask, set_client in Ho.
  destruct (new_client session_name api_id api_hash (world s))
    as [[[]|e] w1]; cbn [done throw world steps self_client self_me] in Ho;
    [|subst out; discriminate].
  destruct (connect_client w1) as [[[]|e] w2];
    cbn [done throw world steps self_client self_me] in Ho;
    [|subst out; discriminate].
  destruct (is_user_authorized w2) as [[authorized|e] w3];
    cbn [done throw world steps self_client self_me] in Ho;
    [|subst out; discriminate].
  destruct authorized; cbn [negb world steps self_client self_me] in Ho.
  - destruct (get_me w3) as [[me|e] w4];
      cbn [done throw world steps self_client self_me set_me] in Ho;
      [|subst out; discriminate].
    subst out. cbn [done fst snd steps self_client self_me]. intros [= <-].
    exists true, [], me. rewrite <- !app_assoc, skipn_app, skipn_all.
    rewrite Nat.sub_diag. cbn.
    repeat split.
  - match type of Ho with _ = _authorize inputs ?s1 =>
      destruct (authorize_run inputs s1) as (new & E & H);
      destruct (authorize_quiet inputs s1) as (n' & _ & _ & C)
    end.
    rewrite <- Ho in *. intros Hr. rewrite Hr in H.
    destruct H as (wrong & phone & codes & ending & me & R & _ & Hm).
    exists false, (map refused_phone wrong
                   ++ ESendCode phone (Fine tt)
                   :: map (refused_code phone) codes ++ ending), me.
    rewrite E. cbn [steps]. rewrite <- !app_assoc, skipn_app, skipn_all.
    rewrite Nat.sub_diag. cbn [skipn app requests filter is_request].
    fold (requests new). rewrite R, C, <- !app_assoc.
    cbn [app]. repeat split; [exact Hm|discriminate..].
Qed.

Lemma connect_success_witness :
  exists authorized login me,
    requests (added (connect (Hst := desk_host) SESSION_FILE 12345
                             (text "0123abcdef")
                             [Line (text "+100"); Line (text "12345");
                              Line (text "@alice")])
                    (boot first_run))
    = ENewClient SESSION_FILE 12345 (text "0123abcdef") (Ok tt)
      :: EConnect (Ok tt) :: EIsAuthorized (Ok authorized)
      :: login ++ [EGetMe (Ok me)] /\
    self_client (snd (connect (Hst := desk_host) SESSION_FILE 12345
                              (text "0123abcdef")
                              [Line (text "+100"); Line (text "12345");
                               Line (text "@alice")]
                              (boot first_run))) = true /\
    self_me (snd (connect (Hst := desk_host) SESSION_FILE 12345
                          (text "0123abcdef")
                          [Line (text "+100"); Line (text "12345");
                           Line (text "@alice")]
                          (boot first_run))) = me /\
    (authorized = true ->
     login = [] /\
     [Line (text "@alice")]
     = [Line (text "+100"); Line (text "12345"); Line (text "@alice")] /\
     added (connect (Hst := desk_host) SESSION_FILE 12345
                    (text "0123abcdef")
                    [Line (text "+100"); Line (text "12345");
                     Line (text "@alice")])
           (boot first_run)
     = requests (added (connect (Hst := desk_host) SESSION_FILE 12345
                                (text "0123abcdef")
                                [Line (text "+100"); Line (text "12345");
                                 Line (text "@alice")])
                       (boot first_run))).
Proof.
  apply (connect_success (Hst := desk_host) SESSION_FILE 12345
                         (text "0123abcdef") _ _ (boot first_run)).
  vm_compute. reflexivity.
Defined.


(** A whole first run: setup, log-in, one command and the end. *)
Example first_run_requests :
  requests (added (main (RT := ascii_runtime) (Env := desk_env)
                        (Hst := desk_host)
                        [Line (text "12345"); Line (text " 0123abcdef ");
                         Line (text "+100"); Line (text "12345");
                         Line (text "/quit")])
                  (boot first_run))
  = [ELookConfig Absent;
     EWriteConfig (text "12345" ++ [10] ++ text "0123abcdef" ++ [10]) (Ok tt);
     ENewClient SESSION_FILE 12345 (text "0123abcdef") (Ok tt);
     EConnect (Ok tt);
     EIsAuthorized (Ok false);
     ESendCode (text "+100") (Fine tt);
     ESignIn (text "+100") (text "12345") (Fine tt);
     EGetMe (Ok (Some an_account));
     EDisconnect (Ok tt)] /\
  ended (main (RT := ascii_runtime) (Env := desk_env) (Hst := desk_host)
              [Line (text "12345"); Line (text " 0123abcdef ");
               Line (text "+100"); Line (text "12345");
               Line (text "/quit")])
        (boot first_run) = Ok tt.
Proof. vm_compute. split; reflexivity. Qed.

Section SetupFacts.

Context {RT : PyRuntime}.



End SetupFacts.



(** X19: the setup asks for the API ID until [int] accepts a line: the API
    ID is the number on the first such line, every line before it is
    answered with one error message and a new prompt, and the lines after
    it are left for the prompts that follow. *)
Theorem ask_api_id_first_number {RT : PyRuntime} {W : Type}
        (bad : list pystr) (good : pystr) (later : list console) (n : Z)
        (s : machine W) :
  Forall (fun raw => py_int (strip raw) = None) bad ->
  py_int (strip good) = Some n ->
  ask_api_id (map Line bad ++ Line good :: later) s
  = (Ok (n, later),
     push s (flat_map (fun _ => [Did (EPrint (text "API ID: "));
                                 Did (EPrint (text "❌ API ID должен быть числом"
                                              ++ [10]))]) bad
             ++ [Did (EPrint (text "API ID: "))])).
Proof.
  intros Hbad Hgood. revert s.
  induction Hbad as [|raw bad Hraw Hbad IH]; intros s.
  - cbn [map app ask_api_id flat_map]. unfold and_then.
    rewrite say_no_newline_run, Hgood. reflexivity.
  - cbn [map app ask_api_id flat_map]. unfold and_then.
    rewrite say_no_newline_run, Hraw, say_run, IH.
    unfold push. cbn [steps world self_client self_me].
    rewrite <- !app_assoc. reflexivity.
Qed.

Lemma ask_api_id_first_number_witness :
  ask_api_id (RT := ascii_runtime)
             (map Line [text "abc"; text ""] ++ Line (text " 42 ")
                  :: [Line (text "hash")])
             (boot first_run)
  = (Ok (42, [Line (text "hash")]),
     push (boot first_run)
          (flat_map (fun _ => [Did (EPrint (text "API ID: "));
                               Did (EPrint (text "❌ API ID должен быть числом"
                                            ++ [10]))])
                    [text "abc"; text ""]
           ++ [Did (EPrint (text "API ID: "))])).
Proof.
  apply (ask_api_id_first_number (RT := ascii_runtime)).
  - repeat constructor.
  - reflexivity.
Defined.

Section FilledFacts.

Context {W : Type} {Hst : Host W}.

Local Open Scope boot_scope.

Lemma ask_phone_filled (inputs : list console) :
  adds (W := W) filled (ask_phone inputs).
Proof.
  induction inputs as [|[raw|] later IH]; cbn [ask_phone]; adds_all.
  destruct (strip raw) as [|c phone]; [exact IH|].
  adds_all.
  match goal with a : answer unit |- _ => destruct a as [?|[| |]|[]] end;
    adds_all; exact IH.
Qed.

Lemma ask_password_filled (inputs : list console) :
  adds (W := W) filled (ask_password inputs).
Proof.
  unfold ask_password. adds_all.
  - destruct inputs as [|[raw|] later]; adds_all.
  - match goal with r : result unit |- _ => destruct r as [?|e] end;
      adds_all.
    destruct (is_Exception e); adds_all.
Qed.

Lemma ask_code_filled (phone : pystr) (inputs : list console) :
  adds (W := W) filled (ask_code phone inputs).
Proof.
  induction inputs as [|[raw|] later IH]; cbn [ask_code]; adds_all.
  destruct (strip raw) as [|c code]; [exact IH|].
  adds_all.
  match goal with a : answer unit |- _ => destruct a as [?|[| |]|?] end.
  - adds_all.
  - adds_all.
  - adds_all. exact IH.
  - apply ask_password_filled.
  - adds_all.
Qed.

Lemma authorize_filled (inputs : list console) :
  adds (W := W) filled (_authorize inputs).
Proof.
  unfold _authorize. adds_all; [apply ask_phone_filled|].
  match goal with p : (option pystr * list console)%type |- _ =>
    destruct p as [[phone|] later] end; cbn [fst snd]; adds_all.
  - apply ask_code_filled.
  - match goal with p : (bool * list console)%type |- _ =>
      destruct p as [[|] later'] end; cbn [fst snd]; adds_all.
Qed.

End FilledFacts.

(** X22: the log-in dialogue skips blank console lines: no code request
    carries an empty phone number and no sign-in an empty code. *)
Theorem authorize_skips_blank {W : Type} {Hst : Host W}
        (inputs : list console) (s : machine W) :
  forallb filled (added (_authorize inputs) s) = true.
Proof.
  destruct (authorize_filled inputs s) as (new & E & F & _).
  now rewrite (added_spec _ _ _ E).
Qed.

(** ** More on a call attempt *)

Section SilentFacts.

Context {RT : PyRuntime} {W : Type} {Env : Environment W}.

Lemma status_for_not_found (at_lookup : bool) (e : exn) :
  status_for at_lookup e = Some NOT_FOUND ->
  at_lookup = true /\ exists msg, e = ValueError msg.
Proof.
  destruct e, at_lookup; cbn [status_for]; unfold generic_status;
    try discriminate;
    try (match goal with
         | |- context [contains ?a ?b] => destruct (contains a b)
         end; discriminate).
  intros _. split; [reflexivity|]. now exists msg.
Qed.

Lemma messages_sent_dialled (message0 : option pystr) (key : Z + pystr)
      (user : User) (x random_id : Z) (answer : result PhoneCall) :
  messages_sent (dialled message0 key user x random_id answer)
  = match truthy message0 with
    | Some msg => [msg]
    | None => []
    end.
Proof.
  unfold dialled, sent. rewrite !messages_sent_app.
  destruct (truthy message0); reflexivity.
Qed.

End SilentFacts.

(** X20: a target that is not found fails silently: when [call] returns a
    NOT_FOUND result, its message is the fixed text, and the attempt has
    made no request but the lookup that raised [ValueError] (not even that
    one when [int] rejected the target), printed nothing and slept for
    nothing. *)
Theorem not_found_is_silent {RT : PyRuntime} {W : Type}
        {Env : Environment W}
        (username0 : pystr) (duration : float) (message0 : option pystr)
        (w : W) (tr : list event) (r : CallResult) :
  returned (call username0 duration message0) (w, tr) = Ok r ->
  status r = NOT_FOUND ->
  message r = text "Пользователь не найден" /\
  (logged (call username0 duration message0) (w, tr) = tr \/
   exists key msg,
     logged (call username0 duration message0) (w, tr)
     = tr ++ [EGetEntity key (Raise (ValueError msg))]).
Proof.
  unfold returned, logged. intros Hr Hs.
  destruct (call_run username0 duration message0 w tr)
    as (w' & [(pre & b & e & Hcut & E)|
              (key & user & x & rid & pc & answer & _ & _ & _ & E)]).
  - rewrite E in *.
    destruct (stopped_run username0 w' (tr ++ pre) b e)
      as (prints & _ & _ & Hst).
    destruct (status_for b e) as [st|] eqn:Est.
    2:{ destruct Hst as [Hst _]. congruence. }
    destruct Hst as (r' & Hr' & Hs' & _).
    rewrite Hr in Hr'. injection Hr' as <-. rewrite Hs in Hs'. subst st.
    apply status_for_not_found in Est as [-> [msg ->]].
    cbn [stopped fst snd] in *. injection Hr as <-.
    split; [reflexivity|].
    inversion Hcut; subst.
    + left. now rewrite app_nil_r.
    + right. now exists key, msg.
  - rewrite E in Hr. unfold finished in Hr.
    destruct answer as [[]|e]; [|destruct (is_Exception e)];
      cbn [fst] in Hr; try discriminate;
      injection Hr as <-; discriminate.
Qed.

Lemma not_found_is_silent_witness :
  message (mkCallResult bob_line NOT_FOUND (text "Пользователь не найден"))
  = text "Пользователь не найден" /\
  (logged (call (RT := ascii_runtime) (Env := fixed_env) bob_line 5.0%float
                (Some (text "hello")))
          (answering_lookup (Raise (ValueError (text "No user has bob"))), [])
   = [] \/
   exists key msg,
     logged (call (RT := ascii_runtime) (Env := fixed_env) bob_line 5.0%float
                  (Some (text "hello")))
            (answering_lookup (Raise (ValueError (text "No user has bob"))),
             [])
     = [] ++ [EGetEntity key (Raise (ValueError msg))]).
Proof.
  apply (not_found_is_silent (RT := ascii_runtime) (Env := fixed_env)
           bob_line 5.0%float (Some (text "hello"))
           (answering_lookup (Raise (ValueError (text "No user has bob"))))
           []).
  - vm_compute. reflexivity.
  - reflexivity.
Defined.

(** X21: an attempt sends the pre-call message at most once, and only a
    message that is given and not empty: the texts handed to
    [send_message] are none, or just that message. *)
Theorem call_sends_at_most_once {RT : PyRuntime} {W : Type}
        {Env : Environment W}
        (username0 : pystr) (duration : float) (message0 : option pystr)
        (w : W) (tr : list event) :
  exists evs,
    logged (call username0 duration message0) (w, tr) = tr ++ evs /\
    (messages_sent evs = [] \/
     exists msg, truthy message0 = Some msg /\ messages_sent evs = [msg]).
Proof.
  unfold logged.
  destruct (call_run username0 duration message0 w tr)
    as (w' & [(pre & b & e & Hcut & E)|
              (key & user & x & rid & pc & answer & _ & _ & _ & E)]).
  - rewrite E.
    destruct (stopped_run username0 w' (tr ++ pre) b e)
      as (prints & -> & Hp & _).
    exists (pre ++ prints). cbn [snd]. split; [now rewrite app_assoc|].
    rewrite messages_sent_app, (messages_sent_prints _ Hp), app_nil_r.
    destruct Hcut.
    + now left.
    + now left.
    + right. now exists msg.
    + rewrite messages_sent_dialled.
      destruct (truthy message0) as [msg|]; [right; now exists msg|now left].
  - rewrite E.
    destruct (finished_logged username0 duration w'
                (tr ++ dialled message0 key user x rid (Ok pc)
                    ++ rung duration user pc answer) answer)
      as (prints & -> & Hp).
    exists ((dialled message0 key user x rid (Ok pc)
             ++ rung duration user pc answer) ++ prints).
    split; [now rewrite !app_assoc|].
    rewrite !messages_sent_app, (messages_sent_prints _ Hp), app_nil_r.
    rewrite messages_sent_dialled.
    change (messages_sent (rung duration user pc answer)) with (@nil pystr).
    rewrite app_nil_r.
    destruct (truthy message0) as [msg|]; [right; now exists msg|now left].
Qed.
